(* ===== verification/_CoqProject ===== *)
-Q . S2P
Prelude.v
PyStr.v
PyRegex.v
TaggedParser.v
ImagePrompt.v
Base64.v
RetryClient.v
RetryMachine.v
Renderer.v
Generation.v
Pipeline.v
