(* ===== verification/Prelude.v ===== *)
(** * A verification development of Math-Question-Generation

    The program (Python, [src/]) asks a text model for new math questions,
    parses the model's tagged-text answers into dictionaries, asks an image
    endpoint for an illustration of the questions that carry an [@image]
    line, and renders the dictionaries into a Word document.

    ** Parts of the program and how they interact

    [src/main.py]'s [__main__] block runs, in order: [batch_generate]
    ([src/src/generate_questions.py]: one text-model call per base question
    of a JSON file, read by [load_json] of [src/src/utils.py]);
    [parse_tagged_questions] ([src/src/utils.py]: each block is stripped,
    split into lines, and every line is matched against [option_re] and
    [tag_re], updating a dict of twelve fields); [extract_image_prompts]
    ([src/main.py]: a MULTILINE [re.search] for [@image] per block) and
    [create_image] for each prompt ([src/src/generate_images.py]: a retry
    loop around an HTTP endpoint, the payload base64-decoded and written);
    [save_questions_to_word] ([src/src/format_to_docx.py]: the document).
    [src/src/config.py] supplies the key, the model names and the image
    size, and raises at import when the key is missing.

    ** Files, in dependency order

    - [Prelude] (this file): the [PyResult] exception monad (a Python call
      returns [POk v] or raises [PRaise e]), the state-and-exception monad
      [SE] with its [let*] notation and [se_try] for [try]/[except], the
      [py] hint database and rewrite database [py_str], shared lemmas on
      [mapM], [se_mapM] and lists.
    - [PyStr]: the [str] operations the code uses ([isspace], [strip],
      [lower], [splitlines], [split], [in], [int], iteration), over strings
      of bytes.
    - [PyRegex]: the fragment of [re] the three patterns use, as a syntax
      and a backtracking matcher in continuation-passing style ([re.match],
      [re.search]), with direct descriptions of the two parser patterns.
    - [TaggedParser], Module [Parser]: [parse_line], [parse_lines],
      [parse_block], [parse_tagged_questions] over a [gmap string PyVal];
      an abstract line classification ([line_kind], [classify], [step],
      [run]) that the code refines, and the invariant [wf] (the twelve keys,
      a list under ["options"], strings elsewhere).
    - [ImagePrompt], Module [Image]: [extract_image_prompts] and the direct
      description [image_scan] of its [re.search].
    - [Base64], Module [B64]: [base64.b64decode] as called on the payload,
      i.e. CPython's non-strict [binascii.a2b_base64] state machine
      ([quad_pos], [leftchar], [pads]) on integers kept at their width.
    - [RetryClient], Module [Retry]: the JSON values of [response.json()]
      with the Python operations the code applies to them, [decode_response]
      (lines 35-49), and [create_image] in [SE World] ([World]: events in
      order and files written).  The class [Network] is the interface to
      [requests.post] and [open]; the abstract contract [fetch_spec] is
      what the loop refines.  Also [config.py] ([load_config]).
    - [RetryMachine], Module [Machine]: the same loop one control point
      at a time, in the style of a small-step semantics: [Loop attempt w]
      (the [for] head), [Handler attempt e w] (the [except] clause) and
      [Stop w r] (after the loop); the relation [loop_step] runs one [try]
      block ([Retry.attempt_try]) or one handler ([Retry.on_failure]),
      [loop_next] is its executable form.  It carries the invariant of
      the reachable control points.
    - [Renderer], Module [Render]: [save_questions_to_word] producing a
      list of [Block]s (headings, paragraphs with bold or plain runs) in
      [SE DocFS]; the option deduplication against the first-occurrence
      reference [dedup_first], defined with Equations by well-founded
      recursion on the length.
    - [Generation], Module [Gen]: the prompt (the source's literals byte
      for byte), [generate_question], [batch_generate] and the module's
      [__main__] block, against the classes [TextModel] (the Gemini call)
      and [JsonFiles] (the base file); [load_json] and [save_json] of
      [utils.py].
    - [Pipeline], Module [Pipeline]: the [__main__] block in [SE PWorld],
      a state made of the states of the components, each component lifted
      onto its part ([on_gen], [on_img], [on_doc]).

    ** Theorems (claim ids C1-C32)

    - Parser (C1-C8): one dict per block, in order; the shape of the dict
      without [@options] tags (twelve keys, a list under options, strings
      elsewhere); the crash of an [@options] tag followed by an option
      line, for the block (C3) and the batch (C8); options in order with
      duplicates kept; last tag wins; answer empty or among the options;
      unknown tags ignored.
    - Retry client (C9-C13): refinement of the fetch contract; posts,
      sleeps and writes counted exactly; every sleep followed by a post;
      an uncaught [TypeError] on a malformed payload; decoding of a
      well-formed response.  The configuration and its request URL
      ([load_config_spec]) are a further lemma.
    - Retry loop as a transition system (C14): every control point
      reachable from the first attempt satisfies the invariant [inv]
      (attempt in range, one post per earlier attempt, no file changed
      before the exit, [save_path] the only file written, no caught
      exception escaping), by rule induction over the runs.
    - Matching (C15-C19): [parse_line] refines [step] through the direct
      descriptions of [option_re] and [tag_re]; the [@image] search and
      its line behaviour.  That [extract_image_prompts] gives one tuple
      per block with index [i + 1] is a further lemma.
    - Base64 (C20-C22): round trip with the padded encoder; text after
      the pad characters that complete the last group is ignored (the
      decoder stops there); characters outside the alphabet ignored.
    - Renderer (C23-C24, C32): deduplication equals the first-occurrence
      reference; no option is ever marked correct on parsed questions; a
      non-empty answer is shown exactly once.  That the options shown have
      no duplicates and keep their order, the headings [Question 1..n]
      and the [.docx] suffix are further lemmas of the file.
    - Generation (C25): [batch_generate] gives one text per item, with
      the empty string for a failed call.  That the prompt carries the
      base question and the format, that the format parses as intended
      and never yields an image ([output_format_no_image]) are further
      lemmas.
    - Pipeline (C26-C31): exit on a missing file; a parse failure aborts
      before images and document; the image loop refines the fetch
      contract question by question ([images_spec], composition with the
      client, C28); an image request that raises by that contract aborts
      the run before the document, with the earlier images written (C29);
      the successful run; when every generation call fails the run still
      saves a document of empty questions with status 0 (C31).  The
      missing key ([program_no_key]) is a further lemma.

    ** Recursion, bounds and fuel

    The models of the code use no fuel: the matcher recurses on the regex
    and, inside a quantifier, on the remaining string; the parser, the
    image scan, the decoder and the retry loop recurse on lists or strings
    ([range] is a list); [dedup_first] is well-founded on the length.  The
    one function with fuel is [Machine.loop_run], the transition system
    run for at most [fuel] transitions, used only to compute the states of
    the witnesses.  Integers of the decoder are [Z] with the C code's
    [& 0xff] written out ([unsigned_char]); the retry counts are [Z] like
    Python's [int].

    ** Not modelled

    - Text is a string of bytes: non-ASCII characters are their UTF-8
      bytes, and the Unicode parts of [isspace], [\w], [lower] and [int]
      are not modelled (their ASCII parts are).
    - Printed lines are events carrying their arguments, not their bytes.
    - [load_dotenv] (the key is an argument of [load_config]) and
      [genai.configure] (no effect the program observes) are not
      modelled.  [save_json] and the placeholder [parse_tagged_question]
      are modelled although the program never calls them; [json.dump]'s
      text is kept as the JSON value it serializes.
    - python-docx is modelled by the content it builds; [p.italic = True]
      has no effect on that content.  [os.makedirs] and [doc.save] are
      assumed to succeed.
    - Timeouts are outcomes of the [Network] interface, not time.
*)
From stdpp Require Export base list gmap strings.
From Stdlib Require Export Ascii.

Declare Scope py_scope.
Delimit Scope py_scope with py.
Open Scope string_scope.
Open Scope list_scope.

(** ** Python exceptions *)

(** The exception classes raised or caught by the modelled code, each with
    its message. *)
Inductive PyExc :=
  | AttributeError (msg : string)
  | KeyError (msg : string)
  | TypeError (msg : string)
  | ValueError (msg : string)
  | IndexError (msg : string)
  | RequestException (msg : string)
  | OSError (msg : string)
  | NotImplementedError (msg : string).

(** A Python call either returns a value or raises. *)
Inductive PyResult (A : Type) :=
  | POk (a : A)
  | PRaise (e : PyExc).
Arguments POk {A} a.
Arguments PRaise {A} e.

#[export] Instance PyResult_ret : MRet PyResult := fun _ a => POk a.
#[export] Instance PyResult_bind : MBind PyResult :=
  fun _ _ f m => match m with POk a => f a | PRaise e => PRaise e end.
#[export] Instance PyResult_fmap : FMap PyResult :=
  fun _ _ f m => match m with POk a => POk (f a) | PRaise e => PRaise e end.

Notation "'raise' e" := (PRaise e) (at level 10) : py_scope.

Definition is_ok {A} (r : PyResult A) : bool :=
  match r with POk _ => true | PRaise _ => false end.

(** ** Automation *)

Create HintDb py discriminated.

(** stdpp declares [String.append] [simpl never]; these equations are its
    computation rules, used by [str_simpl]. *)
Lemma str_app_cons c a b : String c a +:+ b = String c (a +:+ b).
Proof. reflexivity. Qed.

Lemma str_app_nil a : "" +:+ a = a.
Proof. reflexivity. Qed.

Lemma str_app_nil_r a : a +:+ "" = a.
Proof. induction a as [|c a IH]; [done|]. by rewrite str_app_cons, IH. Qed.

Lemma str_app_assoc a b c : a +:+ (b +:+ c) = (a +:+ b) +:+ c.
Proof. induction a as [|x a IH]; [done|]. by rewrite !str_app_cons, IH. Qed.

Create Rewrite HintDb py_str.
#[export] Hint Rewrite str_app_cons str_app_nil str_app_nil_r : py_str.

Ltac str_simpl := simpl; autorewrite with py_str in *; simpl.

(** Simplify binds of the exception monad in the goal and hypotheses. *)
Ltac py_bind_simpl :=
  repeat match goal with
  | |- context [ @mbind PyResult _ _ _ _ (POk ?a) ] => change (mbind ?f (POk a)) with (f a)
  | H : context [ @mbind PyResult _ _ _ _ (POk ?a) ] |- _ => change (mbind ?f (POk a)) with (f a) in H
  end; cbn beta in *.

Ltac py_inv :=
  repeat match goal with
  | H : POk _ = POk _ |- _ => injection H as H
  | H : PRaise _ = PRaise _ |- _ => injection H as H
  | H : POk _ = PRaise _ |- _ => discriminate H
  | H : PRaise _ = POk _ |- _ => discriminate H
  | H : Some _ = Some _ |- _ => injection H as H
  | H : Some _ = None |- _ => discriminate H
  | H : None = Some _ |- _ => discriminate H
  end; subst.

(** ** Generic lemmas on lists *)

Lemma forallb_mono {A} (f g : A -> bool) (l : list A) :
  (forall x, f x = true -> g x = true) -> forallb f l = true -> forallb g l = true.
Proof.
  intros Hfg. induction l as [|x l IH]; simpl; [done|].
  intros [Hx Hl]%andb_prop. by rewrite Hfg, IH.
Qed.

(** ** Generic lemmas on the exception monad *)

Section PyResultLemmas.
Context {A B : Type}.

Lemma py_bind_ok (m : PyResult A) (f : A -> PyResult B) (b : B) :
  mbind f m = POk b -> exists a, m = POk a /\ f a = POk b.
Proof. destruct m; simpl; intros H; [eauto | discriminate]. Qed.

Lemma py_bind_raise (m : PyResult A) (f : A -> PyResult B) (e : PyExc) :
  mbind f m = PRaise e -> m = PRaise e \/ exists a, m = POk a /\ f a = PRaise e.
Proof. destruct m; simpl; intros H; [eauto | injection H as ->; auto]. Qed.

(** [mapM] in [PyResult] either returns one result per input, in order,
    or raises the exception of the first input that raises. *)
Lemma py_mapM_ok (f : A -> PyResult B) (l : list A) (l' : list B) :
  mapM f l = POk l' -> Forall2 (fun a b => f a = POk b) l l'.
Proof.
  revert l'. induction l as [|a l IH]; intros l' H; simpl in H.
  - injection H as <-. constructor.
  - destruct (f a) as [b|e] eqn:Hf; simpl in H; [|discriminate].
    destruct (mapM f l) as [bs|e] eqn:Hm; simpl in H; [|discriminate].
    injection H as <-. constructor; auto.
Qed.

Lemma py_mapM_ok_intro (f : A -> PyResult B) (l : list A) (l' : list B) :
  Forall2 (fun a b => f a = POk b) l l' -> mapM f l = POk l'.
Proof. induction 1 as [|a b l l' Hab _ IH]; simpl; [done|]. by rewrite Hab, IH. Qed.

Lemma py_mapM_length (f : A -> PyResult B) (l : list A) (l' : list B) :
  mapM f l = POk l' -> length l' = length l.
Proof. intros H. symmetry. eapply Forall2_length, py_mapM_ok, H. Qed.

Lemma py_mapM_total (f : A -> PyResult B) (l : list A) :
  (forall a, a ∈ l -> exists b, f a = POk b) ->
  exists l', mapM f l = POk l'.
Proof.
  induction l as [|a l IH]; intros Hall; simpl; [by eexists|].
  destruct (Hall a) as [b ->]; [set_solver|]. simpl.
  destruct IH as [l' ->]; [set_solver|]. simpl. by eexists.
Qed.

Lemma py_mapM_raise (f : A -> PyResult B) (l : list A) (a : A) (e : PyExc) :
  a ∈ l -> f a = PRaise e -> exists e', mapM f l = PRaise e'.
Proof.
  induction l as [|x l IH]; intros Hin Hf; [set_solver|]. simpl.
  apply elem_of_cons in Hin as [->|Hin].
  - rewrite Hf. simpl. by eexists.
  - destruct (f x); simpl; [|by eexists].
    destruct (IH Hin Hf) as [e' ->]. simpl. by eexists.
Qed.
Lemma py_mapM_ok_elem (f : A -> PyResult B) (l : list A) (l' : list B) (a : A) :
  mapM f l = POk l' -> a ∈ l -> exists b, f a = POk b.
Proof.
  intros H%py_mapM_ok Ha. induction H as [|x b l l' Hxb _ IH]; [set_solver|].
  apply elem_of_cons in Ha as [->|Ha]; eauto.
Qed.

Lemma py_mapM_raise_inv (f : A -> PyResult B) (l : list A) (e : PyExc) :
  mapM f l = PRaise e -> exists a, a ∈ l /\ f a = PRaise e.
Proof.
  induction l as [|x l IH]; simpl; [discriminate|].
  destruct (f x) eqn:Hf; simpl.
  - destruct (mapM f l); simpl; [discriminate|]. intros H. injection H as ->.
    destruct IH as (y & Hy & Hfy); [done|]. exists y. split; [by right|done].
  - intros H. injection H as ->. exists x. split; [left|done].
Qed.
End PyResultLemmas.

#[export] Hint Resolve py_mapM_length py_mapM_ok_intro : py.

(** ** State and exception monad

    [SE S A] threads a state [S] through a computation that returns an [A]
    or raises a Python exception; the state reached before an exception
    is kept, as the side effects of Python code that raises are. *)
Definition SE (S A : Type) : Type := S -> S * PyResult A.

Definition se_ret {S A} (a : A) : SE S A := fun s => (s, POk a).
Definition se_bind {S A B} (m : SE S A) (f : A -> SE S B) : SE S B :=
  fun s => match m s with (s', POk a) => f a s' | (s', PRaise e) => (s', PRaise e) end.
Definition se_raise {S A} (e : PyExc) : SE S A := fun s => (s, PRaise e).
Definition se_lift {S A} (r : PyResult A) : SE S A := fun s => (s, r).
Definition se_modify {S} (f : S -> S) : SE S unit := fun s => (f s, POk tt).

(** [try: m] [except] the exceptions [e] with [p e]: [h e]; the others
    propagate. *)
Definition se_try {S A} (m : SE S A) (p : PyExc -> bool) (h : PyExc -> SE S A) : SE S A :=
  fun s => match m s with
           | (s', PRaise e) => if p e then h e s' else (s', PRaise e)
           | r => r
           end.

Notation "'let*' x := m 'in' k" := (se_bind m (fun x => k))
  (at level 200, x name, m at level 100, right associativity) : py_scope.

Section SELemmas.
Context {S A B : Type}.

Lemma se_bind_ok (m : SE S A) (f : A -> SE S B) s s' a :
  m s = (s', POk a) -> se_bind m f s = f a s'.
Proof. unfold se_bind. by intros ->. Qed.

Lemma se_bind_raise (m : SE S A) (f : A -> SE S B) s s' e :
  m s = (s', PRaise e) -> se_bind m f s = (s', PRaise e).
Proof. unfold se_bind. by intros ->. Qed.

Lemma se_try_ok (m : SE S A) p h s s' a :
  m s = (s', POk a) -> se_try m p h s = (s', POk a).
Proof. unfold se_try. by intros ->. Qed.

Lemma se_try_caught (m : SE S A) p h s s' e :
  m s = (s', PRaise e) -> p e = true -> se_try m p h s = h e s'.
Proof. unfold se_try. intros -> ->. done. Qed.

Lemma se_try_uncaught (m : SE S A) p h s s' e :
  m s = (s', PRaise e) -> p e = false -> se_try m p h s = (s', PRaise e).
Proof. unfold se_try. intros -> ->. done. Qed.

End SELemmas.

(** ** Lists built by [enumerate] *)

Lemma Forall_concat_imap {A B} (P : B -> Prop) (f : nat -> A -> list B) (l : list A) :
  (forall i x, x ∈ l -> Forall P (f i x)) -> Forall P (concat (imap f l)).
Proof.
  revert f. induction l as [|x l IH]; intros f Hf; cbn; [constructor|].
  apply Forall_app. split; [apply Hf; set_solver|]. apply IH. intros i y Hy. apply Hf. set_solver.
Qed.

(** [[f(x) for x in l]] with effects: the calls in order, the first
    exception ending the comprehension. *)
Fixpoint se_mapM {S A B} (f : A -> SE S B) (l : list A) : SE S (list B) :=
  match l with
  | [] => se_ret []
  | x :: l' => se_bind (f x) (fun y => se_bind (se_mapM f l') (fun ys => se_ret (y :: ys)))
  end.
