(* ===== verification/PyStr.v ===== *)
(** * Python [str] methods over ASCII strings

    The methods the program calls on strings: [str.isspace] (the class of
    characters that [strip] removes and that [\s] matches in [re]), the word
    class [\w] of [re], [str.strip], [str.lower], [str.splitlines], and the
    decimal formatting of an [int] inside an f-string, [in] between
    strings, [str.split] on one character, [int] of a string and the
    iteration over a string ([chars]).  Characters are ASCII;
    the classes below are the ASCII part of the Unicode classes Python uses
    ([Py_UNICODE_ISSPACE], [str.isalnum], the line boundaries of
    [str.splitlines]). *)
From S2P Require Import Prelude.
From Stdlib Require Import DecimalString ZArith.

(** ** Character classes *)

Definition code (c : ascii) : nat := nat_of_ascii c.

(** [str.isspace] on one character: [\t \n \v \f \r], the separators
    [\x1c]..[\x1f] and the space. *)
Definition is_space (c : ascii) : bool :=
  let n := code c in (((9 <=? n) && (n <=? 13)) || ((28 <=? n) && (n <=? 32)))%nat.

(** [\w] of [re] for str patterns: letters, digits and underscore. *)
Definition is_word (c : ascii) : bool :=
  let n := code c in
  (((48 <=? n) && (n <=? 57)) || ((65 <=? n) && (n <=? 90))
   || ((97 <=? n) && (n <=? 122)) || (n =? 95))%nat.

(** The line boundaries of [str.splitlines]: [\n \v \f \r] and
    [\x1c \x1d \x1e] ([\r\n] is one boundary). *)
Definition is_linebreak (c : ascii) : bool :=
  let n := code c in (((10 <=? n) && (n <=? 13)) || ((28 <=? n) && (n <=? 30)))%nat.

Definition LF : ascii := ascii_of_nat 10.
Definition CR : ascii := ascii_of_nat 13.

(** [str.lower] on one character. *)
Definition lower_char (c : ascii) : ascii :=
  let n := code c in if ((65 <=? n) && (n <=? 90))%nat then ascii_of_nat (n + 32) else c.

(** ** String methods *)

Fixpoint str_forall (p : ascii -> bool) (s : string) : bool :=
  match s with
  | EmptyString => true
  | String c s' => p c && str_forall p s'
  end.

Fixpoint lstrip (s : string) : string :=
  match s with
  | EmptyString => EmptyString
  | String c s' => if is_space c then lstrip s' else s
  end.

Fixpoint rstrip (s : string) : string :=
  match s with
  | EmptyString => EmptyString
  | String c s' =>
      let r := rstrip s' in
      if is_space c && String.eqb r "" then EmptyString else String c r
  end.

(** [s.strip()] *)
Definition strip (s : string) : string := rstrip (lstrip s).

(** [s.lower()] *)
Fixpoint lower (s : string) : string :=
  match s with
  | EmptyString => EmptyString
  | String c s' => String (lower_char c) (lower s')
  end.

(** [s.splitlines()]: [cur] is the line read so far.  A boundary ends the
    current line ([\r\n] counts once); the text after the last boundary is a
    line only when it is not empty. *)
Fixpoint splitlines_from (cur : string) (s : string) : list string :=
  match s with
  | EmptyString => if String.eqb cur "" then [] else [cur]
  | String c s' =>
      if Ascii.eqb c CR then
        match s' with
        | String c2 s'' =>
            if Ascii.eqb c2 LF then cur :: splitlines_from "" s''
            else cur :: splitlines_from "" s'
        | EmptyString => [cur]
        end
      else if is_linebreak c then cur :: splitlines_from "" s'
      else splitlines_from (cur +:+ String c EmptyString) s'
  end.

Definition splitlines (s : string) : list string := splitlines_from "" s.

(** [f"{n}"] for a non-negative [int]. *)
Definition str_of_nat (n : nat) : string := NilEmpty.string_of_uint (Nat.to_uint n).

(** [p in s] for two strings: [p] occurs in [s]. *)
Fixpoint contains (p s : string) : bool :=
  String.prefix p s || match s with EmptyString => false | String _ s' => contains p s' end.

(** [s.split(sep)] for a one-character separator: every occurrence
    splits, empty pieces included. *)
Fixpoint split_from (sep : ascii) (cur s : string) : list string :=
  match s with
  | EmptyString => [cur]
  | String c s' =>
      if Ascii.eqb c sep then cur :: split_from sep EmptyString s'
      else split_from sep (cur +:+ String c EmptyString) s'
  end.

Definition split (sep : ascii) (s : string) : list string := split_from sep EmptyString s.

(** [int(s)] in base 10: surrounding whitespace, an optional sign, decimal
    digits with single underscores between digits; [ValueError]
    otherwise (the message's [repr] of the argument is left out). *)
Definition is_digit (c : ascii) : bool := ((48 <=? code c) && (code c <=? 57))%nat.
Definition digit_val (c : ascii) : Z := Z.of_nat (code c - 48).

Fixpoint int_digits (acc : Z) (s : string) : option Z :=
  match s with
  | EmptyString => Some acc
  | String c s' =>
      if is_digit c then int_digits (acc * 10 + digit_val c)%Z s'
      else if Ascii.eqb c "_" then
        match s' with
        | String d s'' => if is_digit d then int_digits (acc * 10 + digit_val d)%Z s'' else None
        | EmptyString => None
        end
      else None
  end.

Definition int_body (s : string) : option Z :=
  match s with
  | String c s' => if is_digit c then int_digits (digit_val c) s' else None
  | EmptyString => None
  end.

Definition py_int (s : string) : PyResult Z :=
  let t := strip s in
  let v := match t with
           | String c r =>
               if Ascii.eqb c "-" then Z.opp <$> int_body r
               else if Ascii.eqb c "+" then int_body r else int_body t
           | EmptyString => None
           end in
  match v with
  | Some z => POk z
  | None => PRaise (ValueError "invalid literal for int() with base 10")
  end.

(** Iterating a [str] yields its characters. *)
Fixpoint chars (s : string) : list string :=
  match s with
  | EmptyString => []
  | String c s' => String c EmptyString :: chars s'
  end.

(** ** [os.path.dirname] *)

(** The prefix of [p] up to its last ["/"]. *)
Fixpoint dir_head (p : string) : string :=
  match p with
  | EmptyString => EmptyString
  | String c p' =>
      let h := dir_head p' in
      if String.eqb h "" then (if Ascii.eqb c "/" then "/" else "") else String c h
  end.

Fixpoint rstrip_slash (s : string) : string :=
  match s with
  | EmptyString => EmptyString
  | String c s' =>
      let r := rstrip_slash s' in
      if String.eqb r "" && Ascii.eqb c "/" then "" else String c r
  end.

(** [os.path.dirname] (posixpath): the head, without its trailing
    slashes unless it is made of slashes only. *)
Definition dirname (p : string) : string :=
  let head := dir_head p in
  if negb (String.eqb head "") && negb (str_forall (fun c => Ascii.eqb c "/") head)
  then rstrip_slash head else head.

(** ** Lemmas *)

Ltac ascii_cases c :=
  destruct c as [[] [] [] [] [] [] [] []]; vm_compute; reflexivity.

(** Every line boundary is whitespace. *)
Lemma linebreak_space c : is_linebreak c = true -> is_space c = true.
Proof. revert c. intros c. destruct c as [[] [] [] [] [] [] [] []]; vm_compute; congruence. Qed.

Lemma is_space_LF : is_space LF = true.
Proof. reflexivity. Qed.

Lemma is_linebreak_LF : is_linebreak LF = true.
Proof. reflexivity. Qed.

Lemma is_linebreak_CR : is_linebreak CR = true.
Proof. reflexivity. Qed.

(** A space is never a word character. *)
Lemma space_not_word c : is_space c = true -> is_word c = false.
Proof. destruct c as [[] [] [] [] [] [] [] []]; vm_compute; congruence. Qed.

Lemma str_forall_app p s1 s2 :
  str_forall p (s1 +:+ s2) = str_forall p s1 && str_forall p s2.
Proof. induction s1 as [|c s1 IH]; simpl; [done|]. by rewrite IH, andb_assoc. Qed.

Lemma lstrip_forall p s : str_forall p s = true -> str_forall p (lstrip s) = true.
Proof.
  induction s as [|c s IH]; simpl; [done|].
  intros [Hc Hs]%andb_prop. destruct (is_space c); simpl; [auto|by rewrite Hc, Hs].
Qed.

Lemma rstrip_forall p s : str_forall p s = true -> str_forall p (rstrip s) = true.
Proof.
  induction s as [|c s IH]; simpl; [done|].
  intros [Hc Hs]%andb_prop. destruct (is_space c && String.eqb (rstrip s) ""); simpl; [done|].
  by rewrite Hc, IH.
Qed.

(** [strip] keeps a property that holds of every character. *)
Lemma strip_forall p s : str_forall p s = true -> str_forall p (strip s) = true.
Proof. intros H. by apply rstrip_forall, lstrip_forall. Qed.

#[export] Hint Resolve strip_forall lstrip_forall rstrip_forall : py.

(** The first character of [lstrip s], if any, is not whitespace. *)
Definition head_not_space (s : string) : bool :=
  match s with EmptyString => true | String c _ => negb (is_space c) end.

Lemma lstrip_head s : head_not_space (lstrip s) = true.
Proof.
  induction s as [|c s IH]; simpl; [done|].
  destruct (is_space c) eqn:E; simpl; [done|]. by rewrite E.
Qed.

Lemma lstrip_id s : head_not_space s = true -> lstrip s = s.
Proof. destruct s as [|c s]; simpl; [done|]. by destruct (is_space c). Qed.

Lemma rstrip_head s : head_not_space s = true -> head_not_space (rstrip s) = true.
Proof.
  destruct s as [|c s]; simpl; [done|]. intros H.
  destruct (is_space c) eqn:E; [done|]. simpl. by rewrite E.
Qed.

Lemma rstrip_idem s : rstrip (rstrip s) = rstrip s.
Proof.
  induction s as [|c s IH]; simpl; [done|].
  destruct (is_space c && String.eqb (rstrip s) "") eqn:E; simpl; [done|].
  rewrite IH, E. done.
Qed.

(** [strip] is idempotent. *)
Lemma strip_idem s : strip (strip s) = strip s.
Proof.
  unfold strip. rewrite (lstrip_id (rstrip (lstrip s))).
  - apply rstrip_idem.
  - apply rstrip_head, lstrip_head.
Qed.

Lemma rstrip_all_space s : str_forall is_space s = true -> rstrip s = "".
Proof.
  induction s as [|c s IH]; simpl; [done|].
  intros [-> Hs]%andb_prop. rewrite IH by done. done.
Qed.

(** [strip s] is empty exactly when [s] is all whitespace. *)
Lemma strip_empty_iff s : strip s = "" <-> str_forall is_space s = true.
Proof.
  unfold strip. split.
  - induction s as [|c s IH]; simpl; [done|].
    destruct (is_space c) eqn:E; simpl; [auto|].
    intros H. simpl in H. rewrite E in H. discriminate.
  - intros H. apply rstrip_all_space, lstrip_forall, H.
Qed.

Lemma lower_length s : String.length (lower s) = String.length s.
Proof. induction s; simpl; auto. Qed.

Lemma lower_app s1 s2 : lower (s1 +:+ s2) = lower s1 +:+ lower s2.
Proof. induction s1 as [|c s1 IH]; simpl; [done|]. by rewrite IH. Qed.

(** The lines of [splitlines] contain no line boundary. *)
Definition no_break (l : string) : bool := str_forall (fun c => negb (is_linebreak c)) l.

Lemma splitlines_from_no_break_n n : forall s cur,
  String.length s <= n -> no_break cur = true ->
  Forall (fun l => no_break l = true) (splitlines_from cur s).
Proof.
  induction n as [|n IH]; intros [|c s] cur Hlen Hcur; simpl in *;
    try (destruct (String.eqb cur ""); by auto); try lia.
  destruct (Ascii.eqb c CR) eqn:Ecr.
  - destruct s as [|c2 s']; [auto|].
    destruct (Ascii.eqb c2 LF); constructor; auto; apply IH; simpl in *; auto; lia.
  - destruct (is_linebreak c) eqn:Eb; [constructor; auto; apply IH; auto; lia|].
    apply IH; [lia|]. unfold no_break in *. rewrite str_forall_app, Hcur. simpl. by rewrite Eb.
Qed.

Lemma splitlines_no_break s : Forall (fun l => no_break l = true) (splitlines s).
Proof. by eapply splitlines_from_no_break_n. Qed.

#[export] Hint Resolve splitlines_no_break : py.

Lemma prefix_app p s1 s2 : String.prefix p s1 = true -> String.prefix p (s1 +:+ s2) = true.
Proof.
  revert s1. induction p as [|a p IH]; intros s1 H; [by destruct (s1 +:+ s2)|].
  destruct s1 as [|b s1]; [discriminate|].
  rewrite str_app_cons. cbn in *. destruct (ascii_dec a b); [by apply IH|done].
Qed.

Lemma contains_app_l p s1 s2 : contains p s1 = true -> contains p (s1 +:+ s2) = true.
Proof.
  induction s1 as [|c s1 IH]; intros H; cbn [contains] in H.
  - rewrite str_app_nil. destruct p as [|a p]; [by destruct s2|]. cbn in H. discriminate.
  - rewrite str_app_cons. cbn [contains]. apply orb_true_iff in H as [H|H].
    + pose proof (prefix_app _ _ s2 H) as Hp. rewrite str_app_cons in Hp. by rewrite Hp.
    + by rewrite IH, orb_true_r.
Qed.

Lemma contains_app_r p s1 s2 : contains p s2 = true -> contains p (s1 +:+ s2) = true.
Proof.
  induction s1 as [|c s1 IH]; intros H; [by rewrite str_app_nil|].
  rewrite str_app_cons. cbn [contains]. by rewrite IH, orb_true_r.
Qed.

Lemma prefix_refl s : String.prefix s s = true.
Proof. induction s as [|a s IH]; [reflexivity|]. cbn. destruct (ascii_dec a a); [done|congruence]. Qed.

Lemma contains_refl s : contains s s = true.
Proof. destruct s as [|a s]; [reflexivity|]. cbn [contains]. by rewrite prefix_refl. Qed.
