(* ===== verification/PyRegex.v ===== *)
(** * The fragment of Python's [re] used by the program

    The program compiles three patterns:
    - [option_re = re.compile(r"^@(@)?option\s+(.* )$", re.IGNORECASE)] and
      [tag_re = re.compile(r"^@(\w+)\s+(.* )$")] in [src/src/utils.py],
      used with [.match(line)];
    - [r"^@image\s+(.+)$"] in [src/main.py], used with
      [re.search(..., raw_q, re.MULTILINE)].
    (In these comments a space separates a star from a closing parenthesis.)

    Their constructs are literals, [.], [\s], [\w], the greedy quantifiers
    [*], [+] on one character class, the greedy optional group [(...)?],
    numbered groups, [^] and [$].  [regex] is that syntax; [mtch] is the
    backtracking matcher of Python's [sre] engine for it, in continuation
    passing style: a quantifier first tries the longest repetition and falls
    back one character at a time, an optional group first tries its body,
    and the first successful path is the match.  [re_match] anchors at the
    start of the string (Python's [re.match]); [re_search] tries every start
    position from left to right (Python's [re.search]).

    Flags: [IGNORECASE] compares literals after ASCII lower-casing;
    [MULTILINE] makes [^] match after every [\n] and [$] before every [\n];
    without it [^] matches only at position 0 and [$] only at the end or
    before a final [\n].  [.] matches every character but [\n]. *)
From S2P Require Import Prelude PyStr.

(** ** Syntax *)

Inductive cclass :=
  | CLit (c : ascii)
  | CAny
  | CSpace
  | CWord.

Inductive regex :=
  | REps
  | RClass (k : cclass)
  | RStar (k : cclass)
  | RPlus (k : cclass)
  | ROpt (r : regex)
  | RGroup (n : nat) (r : regex)
  | RSeq (r1 r2 : regex)
  | RBol
  | REol.

Fixpoint lit (s : string) : regex :=
  match s with
  | EmptyString => REps
  | String c s' => RSeq (RClass (CLit c)) (lit s')
  end.

Fixpoint seqs (rs : list regex) : regex :=
  match rs with
  | [] => REps
  | [r] => r
  | r :: rs' => RSeq r (seqs rs')
  end.

Record flags := { ignorecase : bool; multiline : bool }.

Definition no_flags : flags := {| ignorecase := false; multiline := false |}.
Definition IGNORECASE : flags := {| ignorecase := true; multiline := false |}.
Definition MULTILINE : flags := {| ignorecase := false; multiline := true |}.

(** ** Matcher *)

(** A position of the matcher: the character before it, if any, and the
    rest of the subject string. *)
Definition mstate : Type := option ascii * string.

(** The groups set so far; the most recent binding of a number wins. *)
Definition captures : Type := list (nat * string).

Fixpoint group (caps : captures) (n : nat) : option string :=
  match caps with
  | [] => None
  | (m, s) :: caps' => if Nat.eqb m n then Some s else group caps' n
  end.

Fixpoint str_take (n : nat) (s : string) : string :=
  match n, s with
  | O, _ => EmptyString
  | S n', String c s' => String c (str_take n' s')
  | S _, EmptyString => EmptyString
  end.

(** The text consumed between two positions of the same subject. *)
Definition captured (from to : string) : string :=
  str_take (String.length from - String.length to) from.

Definition cls_match (fl : flags) (k : cclass) (c : ascii) : bool :=
  match k with
  | CLit p => if ignorecase fl then Ascii.eqb (lower_char c) (lower_char p) else Ascii.eqb c p
  | CAny => negb (Ascii.eqb c LF)
  | CSpace => is_space c
  | CWord => is_word c
  end.

Definition at_bol (fl : flags) (prev : option ascii) : bool :=
  match prev with
  | None => true
  | Some c => multiline fl && Ascii.eqb c LF
  end.

Definition at_eol (fl : flags) (rest : string) : bool :=
  match rest with
  | EmptyString => true
  | String c EmptyString => Ascii.eqb c LF
  | String c _ => multiline fl && Ascii.eqb c LF
  end.

Definition cont : Type := mstate -> captures -> option captures.

(** Greedy repetition of a character class: consume one more character if
    possible and try the rest of the pattern after it; if that fails, try
    the rest of the pattern here. *)
Fixpoint star_go (fl : flags) (k : cclass) (kont : cont) (prev : option ascii)
    (s : string) (caps : captures) {struct s} : option captures :=
  match s with
  | EmptyString => kont (prev, s) caps
  | String c s' =>
      if cls_match fl k c then
        match star_go fl k kont (Some c) s' caps with
        | Some res => Some res
        | None => kont (prev, s) caps
        end
      else kont (prev, s) caps
  end.

Fixpoint mtch (fl : flags) (r : regex) (st : mstate) (caps : captures)
    (kont : cont) : option captures :=
  match r with
  | REps => kont st caps
  | RClass k =>
      match snd st with
      | String c s' => if cls_match fl k c then kont (Some c, s') caps else None
      | EmptyString => None
      end
  | RStar k => star_go fl k kont (fst st) (snd st) caps
  | RPlus k =>
      match snd st with
      | String c s' => if cls_match fl k c then star_go fl k kont (Some c) s' caps else None
      | EmptyString => None
      end
  | ROpt r' =>
      match mtch fl r' st caps kont with
      | Some res => Some res
      | None => kont st caps
      end
  | RGroup n r' =>
      mtch fl r' st caps (fun st' caps' => kont st' ((n, captured (snd st) (snd st')) :: caps'))
  | RSeq r1 r2 => mtch fl r1 st caps (fun st' caps' => mtch fl r2 st' caps' kont)
  | RBol => if at_bol fl (fst st) then kont st caps else None
  | REol => if at_eol fl (snd st) then kont st caps else None
  end.

Definition accept : cont := fun _ caps => Some caps.

(** [pattern.match(s)] *)
Definition re_match (fl : flags) (r : regex) (s : string) : option captures :=
  mtch fl r (None, s) [] accept.

Fixpoint search_from (fl : flags) (r : regex) (prev : option ascii) (s : string)
    : option captures :=
  match mtch fl r (prev, s) [] accept with
  | Some caps => Some caps
  | None =>
      match s with
      | EmptyString => None
      | String c s' => search_from fl r (Some c) s'
      end
  end.

(** [re.search(pattern, s, flags)] *)
Definition re_search (fl : flags) (r : regex) (s : string) : option captures :=
  search_from fl r None s.

(** ** The patterns of the program *)

(** [r"^@(@)?option\s+(.* )$"] *)
Definition option_re : regex :=
  seqs [RBol; lit "@"; ROpt (RGroup 1 (lit "@")); lit "option";
        RPlus CSpace; RGroup 2 (RStar CAny); REol].

(** [r"^@(\w+)\s+(.* )$"] *)
Definition tag_re : regex :=
  seqs [RBol; lit "@"; RGroup 1 (RPlus CWord); RPlus CSpace; RGroup 2 (RStar CAny); REol].

(** [r"^@image\s+(.+)$"] *)
Definition image_re : regex :=
  seqs [RBol; lit "@image"; RPlus CSpace; RGroup 1 (RPlus CAny); REol].

(** ** Greedy repetition *)

Fixpoint takew (p : ascii -> bool) (s : string) : string :=
  match s with
  | String c s' => if p c then String c (takew p s') else EmptyString
  | EmptyString => EmptyString
  end.

Fixpoint dropw (p : ascii -> bool) (s : string) : string :=
  match s with
  | String c s' => if p c then dropw p s' else s
  | EmptyString => EmptyString
  end.

(** A continuation that does not look at the character before its
    position (no [^] follows). *)
Definition ign_prev (kont : cont) : Prop :=
  forall p p' s caps, kont (p, s) caps = kont (p', s) caps.

Section Greedy.
Context (fl : flags) (k : cclass).

(** [star_go] with the continuation seen as a function of the rest of the
    subject only. *)
Fixpoint star_try (K : string -> option captures) (s : string) : option captures :=
  match s with
  | EmptyString => K s
  | String c s' =>
      if cls_match fl k c then
        match star_try K s' with Some res => Some res | None => K s end
      else K s
  end.

Lemma star_go_try kont prev s caps :
  ign_prev kont -> star_go fl k kont prev s caps = star_try (fun t => kont (None, t) caps) s.
Proof.
  intros Hk. revert prev. induction s as [|c s IH]; intros prev; simpl; [apply Hk|].
  rewrite IH, (Hk prev None). done.
Qed.

(** If the rest of the pattern matches after the longest repetition,
    that is the match. *)
Lemma star_try_max K s x :
  K (dropw (cls_match fl k) s) = Some x -> star_try K s = Some x.
Proof.
  induction s as [|c s IH]; simpl; [done|].
  destruct (cls_match fl k c); [intros H; by rewrite IH|done].
Qed.

(** If the rest of the pattern never matches before a character of the
    class, only the longest repetition can match. *)
Lemma star_try_stop K s :
  (forall c t, cls_match fl k c = true -> K (String c t) = None) ->
  star_try K s = K (dropw (cls_match fl k) s).
Proof.
  intros HK. induction s as [|c s IH]; simpl; [done|].
  destruct (cls_match fl k c) eqn:E; [|done].
  rewrite IH, (HK c s E). by destruct (K _).
Qed.
Lemma star_try_ext K1 K2 s : (forall t, K1 t = K2 t) -> star_try K1 s = star_try K2 s.
Proof.
  intros HK. induction s as [|c s IH]; simpl; [done|].
  rewrite IH, HK. done.
Qed.
End Greedy.

Lemma str_take_app a b : str_take (String.length a) (a +:+ b) = a.
Proof. induction a as [|c a IH]; [done|]. rewrite str_app_cons. simpl. by rewrite IH. Qed.

Lemma string_length_app a b : String.length (a +:+ b) = String.length a + String.length b.
Proof. induction a as [|c a IH]; [done|]. rewrite str_app_cons. simpl. by rewrite IH. Qed.

Lemma captured_app a b : captured (a +:+ b) b = a.
Proof.
  unfold captured. rewrite string_length_app.
  replace (String.length a + String.length b - String.length b) with (String.length a) by lia.
  apply str_take_app.
Qed.

Lemma takew_dropw p s : takew p s +:+ dropw p s = s.
Proof. induction s as [|c s IH]; simpl; [done|]. destruct (p c); str_simpl; by rewrite ?IH. Qed.

Lemma captured_takew p s : captured s (dropw p s) = takew p s.
Proof. rewrite <- (takew_dropw p s) at 1. apply captured_app. Qed.

Lemma captured_all s : captured s "" = s.
Proof. rewrite <- (str_app_nil_r s) at 1. apply captured_app. Qed.

Lemma lstrip_dropw s : lstrip s = dropw is_space s.
Proof. induction s as [|c s IH]; simpl; [done|]. by destruct (is_space c). Qed.

Definition no_LF (s : string) : bool := str_forall (fun c => negb (Ascii.eqb c LF)) s.

Lemma no_break_no_LF s : no_break s = true -> no_LF s = true.
Proof.
  induction s as [|c s IH]; simpl; [done|]. unfold no_break, no_LF in *; simpl.
  intros [Hc Hs]%andb_prop. rewrite IH by done.
  destruct (Ascii.eqb c LF) eqn:E; [|done].
  apply Ascii.eqb_eq in E. subst. discriminate.
Qed.

Lemma no_LF_cons c s : no_LF (String c s) = true -> no_LF s = true.
Proof. unfold no_LF. simpl. by intros [_ ?]%andb_prop. Qed.

Lemma dropw_any_no_LF s : no_LF s = true -> dropw (cls_match MULTILINE CAny) s = "".
Proof.
  induction s as [|c s IH]; simpl; [done|].
  intros [Hc Hs]%andb_prop. rewrite Hc. auto.
Qed.

Lemma dropw_any_flags fl fl' s :
  dropw (cls_match fl CAny) s = dropw (cls_match fl' CAny) s.
Proof. done. Qed.

Lemma str_forall_dropw p q s : str_forall p s = true -> str_forall p (dropw q s) = true.
Proof.
  induction s as [|c s IH]; simpl; [done|].
  intros Hs. destruct (q c); [|done]. apply andb_prop in Hs as [_ Hs]. auto.
Qed.

(** ** Equations of the matcher *)

Fixpoint bol_free (r : regex) : bool :=
  match r with
  | RBol => false
  | ROpt r' | RGroup _ r' => bol_free r'
  | RSeq r1 r2 => bol_free r1 && bol_free r2
  | _ => true
  end.

Lemma bol_free_lit s : bol_free (lit s) = true.
Proof. induction s; simpl; auto. Qed.

(** Without [^], the matcher never looks at the character before its
    position. *)
Lemma mtch_ign fl r :
  bol_free r = true -> forall kont, ign_prev kont -> ign_prev (fun st caps => mtch fl r st caps kont).
Proof.
  induction r as [| |k|k|r IH|n r IH|r1 IH1 r2 IH2| |]; simpl; intros Hb kont Hk p p' s caps;
    try done; try apply Hk.
  - rewrite !star_go_try by done. done.
  - rewrite (IH Hb kont Hk p p'). by rewrite (Hk p p').
  - apply (IH Hb (fun st' caps' => kont st' _)). intros ????. apply Hk.
  - apply andb_prop in Hb as [Hb1 Hb2].
    apply (IH1 Hb1 (fun st' caps' => mtch fl r2 st' caps' kont)), IH2; auto.
  - simpl. by rewrite (Hk p p').
Qed.

Ltac solve_ign :=
  first
    [ apply mtch_ign; [rewrite ?bol_free_lit; reflexivity|solve_ign]
    | intros ????; reflexivity
    | let p := fresh "p" in let p' := fresh "p'" in let s := fresh "s" in
      let c := fresh "caps" in
      intros p p' s c; cbn beta;
      match goal with
      | |- mtch ?fl ?r (p, s) ?cs ?k = mtch ?fl ?r (p', s) ?cs ?k =>
          apply (mtch_ign fl r); [rewrite ?bol_free_lit; reflexivity|solve_ign]
      end ].

(** Prefix test of a literal under the flags. *)
Fixpoint strip_prefix (fl : flags) (p s : string) : option string :=
  match p, s with
  | EmptyString, _ => Some s
  | String a p', String b s' => if cls_match fl (CLit a) b then strip_prefix fl p' s' else None
  | String _ _, EmptyString => None
  end.

Lemma mtch_lit fl p : forall kont q s caps,
  ign_prev kont ->
  mtch fl (lit p) (q, s) caps kont =
  match strip_prefix fl p s with Some s' => kont (None, s') caps | None => None end.
Proof.
  induction p as [|a p IH]; intros kont q s caps Hk; simpl; [apply Hk|].
  destruct s as [|b s]; simpl; [done|].
  destruct (if ignorecase fl then _ else _); [apply IH, Hk|done].
Qed.

Lemma mtch_seq fl r1 r2 st caps kont :
  mtch fl (RSeq r1 r2) st caps kont = mtch fl r1 st caps (fun st' caps' => mtch fl r2 st' caps' kont).
Proof. reflexivity. Qed.

Lemma mtch_bol_start fl s caps kont : mtch fl RBol (None, s) caps kont = kont (None, s) caps.
Proof. reflexivity. Qed.

Lemma mtch_opt fl r st caps kont :
  mtch fl (ROpt r) st caps kont =
  match mtch fl r st caps kont with Some res => Some res | None => kont st caps end.
Proof. reflexivity. Qed.

Lemma mtch_plus fl k q c s caps kont :
  mtch fl (RPlus k) (q, String c s) caps kont =
  if cls_match fl k c then star_go fl k kont (Some c) s caps else None.
Proof. reflexivity. Qed.

Lemma mtch_group fl n r st caps kont :
  mtch fl (RGroup n r) st caps kont =
  mtch fl r st caps (fun st' caps' => kont st' ((n, captured (snd st) (snd st')) :: caps')).
Proof. reflexivity. Qed.

(** [(.* )$] (group 2) on a subject without [\n]: the whole subject. *)
Lemma mtch_rest_group fl q u caps :
  no_LF u = true ->
  mtch fl (RSeq (RGroup 2 (RStar CAny)) REol) (q, u) caps accept = Some ((2, u) :: caps).
Proof.
  intros Hu. rewrite mtch_seq, mtch_group. simpl.
  rewrite star_go_try by (intros ????; reflexivity).
  apply star_try_max. rewrite (dropw_any_flags fl MULTILINE), dropw_any_no_LF by done.
  simpl. by rewrite captured_all.
Qed.

(** [\s+(.* )$] on a subject without [\n]: at least one whitespace
    character, and group 2 is what follows the whitespace. *)
Definition ws_rest (t : string) : option string :=
  match t with
  | String c t' => if is_space c then Some (lstrip t') else None
  | EmptyString => None
  end.

Lemma mtch_ws_rest fl q t caps :
  no_LF t = true ->
  mtch fl (seqs [RPlus CSpace; RGroup 2 (RStar CAny); REol]) (q, t) caps accept =
  (fun g => (2, g) :: caps) <$> ws_rest t.
Proof.
  intros Ht. cbn [seqs]. rewrite mtch_seq.
  destruct t as [|c t']; [done|]. rewrite mtch_plus.
  unfold ws_rest. change (cls_match fl CSpace c) with (is_space c).
  destruct (is_space c); [|done].
  rewrite star_go_try by solve_ign. apply star_try_max.
  rewrite lstrip_dropw. apply mtch_rest_group.
  apply str_forall_dropw. apply andb_prop in Ht as [_ Ht]. exact Ht.
Qed.

Lemma strip_prefix_forall fl q p s t :
  strip_prefix fl p s = Some t -> str_forall q s = true -> str_forall q t = true.
Proof.
  revert s. induction p as [|a p IH]; intros [|b s] H Hs; cbn [strip_prefix] in H; py_inv;
    try done.
  destruct (cls_match fl (CLit a) b); [|done].
  simpl in Hs. apply andb_prop in Hs as [_ Hs]. eauto.
Qed.

(** The literal [@] matches only [@], with or without [IGNORECASE]. *)
Lemma cls_at fl c : cls_match fl (CLit "@") c = Ascii.eqb c "@".
Proof. destruct fl as [[] []]; destruct c as [[] [] [] [] [] [] [] []]; reflexivity. Qed.

(** ** What [option_re] and [tag_re] match on one line *)

(** [option_re] on a line: an [@], an optional second [@] (group 1), the
    word [option] in any case, whitespace, and the rest (group 2). *)
Definition option_tail (r : string) : option string :=
  match strip_prefix IGNORECASE "option" r with
  | Some t => ws_rest t
  | None => None
  end.

Definition option_groups (l : string) : option (option string * string) :=
  match l with
  | String a r1 =>
      if Ascii.eqb a "@" then
        match r1 with
        | String b r2 =>
            if Ascii.eqb b "@" then (fun g => (Some "@", g)) <$> option_tail r2
            else (fun g => (None, g)) <$> option_tail r1
        | EmptyString => None
        end
      else None
  | EmptyString => None
  end.

(** [tag_re] on a line: an [@], the longest run of word characters (group
    1), at least one whitespace character, and the rest (group 2). *)
Definition tag_groups (l : string) : option (string * string) :=
  match l with
  | String a r1 =>
      if Ascii.eqb a "@" then
        let w := takew is_word r1 in
        if String.eqb w "" then None else (fun g => (w, g)) <$> ws_rest (dropw is_word r1)
      else None
  | EmptyString => None
  end.

Definition groups12 (caps : captures) : option string * option string :=
  (group caps 1, group caps 2).

Lemma mtch_option_tail q r caps :
  no_LF r = true ->
  mtch IGNORECASE (RSeq (lit "option") (seqs [RPlus CSpace; RGroup 2 (RStar CAny); REol]))
    (q, r) caps accept = (fun g => (2, g) :: caps) <$> option_tail r.
Proof.
  intros Hr. rewrite mtch_seq, mtch_lit by solve_ign. unfold option_tail.
  destruct (strip_prefix IGNORECASE "option" r) as [t|] eqn:Et; [|done].
  apply mtch_ws_rest. eapply strip_prefix_forall; eauto.
Qed.

Lemma option_tail_at r : option_tail (String "@" r) = None.
Proof. reflexivity. Qed.

Lemma option_re_match_core l :
  no_LF l = true ->
  groups12 <$> re_match IGNORECASE option_re l =
  (fun '(f, g) => (f, Some g)) <$> option_groups l.
Proof.
  intros Hl. unfold re_match, option_re. cbn [seqs].
  rewrite mtch_seq, mtch_bol_start. cbn beta. rewrite mtch_seq, mtch_lit by solve_ign.
  destruct l as [|a r1]; [done|]. cbn [strip_prefix]. rewrite cls_at.
  unfold option_groups. destruct (Ascii.eqb a "@") eqn:Ea; [|done].
  cbn [strip_prefix]. apply no_LF_cons in Hl as Hr1.
  rewrite mtch_seq, mtch_opt, mtch_group, mtch_lit by solve_ign.
  destruct r1 as [|b r2]; [done|]. cbn [strip_prefix]. rewrite cls_at.
  destruct (Ascii.eqb b "@") eqn:Eb.
  - apply Ascii.eqb_eq in Eb. subst b. apply no_LF_cons in Hr1 as Hr2.
    cbn beta. rewrite mtch_option_tail by done.
    destruct (option_tail r2) as [g|]; simpl; [|done].
    change (String "@" r2) with ("@" +:+ r2). by rewrite captured_app.
  - cbn beta. rewrite mtch_option_tail by done.
    by destruct (option_tail (String b r2)).
Qed.

(** C16 [option_re.match(line)] (the backtracking matcher on the pattern
    of the source) agrees with [option_groups] on every line without [\n]:
    group 1 is the doubled [@] and group 2 what follows the whitespace after
    the case-insensitive word [option]. *)
Theorem option_re_match l :
  no_LF l = true ->
  groups12 <$> re_match IGNORECASE option_re l =
  (fun '(f, g) => (f, Some g)) <$> option_groups l.
Proof. apply option_re_match_core. Qed.

Lemma tag_re_match_core l :
  no_LF l = true ->
  groups12 <$> re_match no_flags tag_re l =
  (fun '(w, g) => (Some w, Some g)) <$> tag_groups l.
Proof.
  intros Hl. unfold re_match, tag_re. cbn [seqs].
  rewrite mtch_seq, mtch_bol_start. cbn beta. rewrite mtch_seq, mtch_lit by solve_ign.
  destruct l as [|a r1]; [done|]. cbn [strip_prefix]. rewrite cls_at.
  unfold tag_groups. destruct (Ascii.eqb a "@") eqn:Ea; [|done].
  apply no_LF_cons in Hl as Hr1.
  rewrite mtch_seq, mtch_group.
  destruct r1 as [|c r1']; [done|]. rewrite mtch_plus.
  change (cls_match no_flags CWord c) with (is_word c). simpl takew.
  destruct (is_word c) eqn:Ec; [|done].
  rewrite star_go_try by solve_ign.
  rewrite star_try_stop.
  - cbn beta. change (cls_match no_flags CWord) with is_word.
    rewrite (mtch_ws_rest no_flags None (dropw is_word r1')).
    + assert (Hcap : captured (String c r1') (dropw is_word r1') = String c (takew is_word r1')).
      { pose proof (captured_takew is_word (String c r1')) as H. cbn [dropw takew] in H.
        rewrite Ec in H. exact H. }
      cbn [snd dropw]. rewrite Ec, Hcap. destruct (ws_rest (dropw is_word r1')); reflexivity.
    + apply str_forall_dropw. by apply no_LF_cons in Hr1.
  - intros c' t Hc'. cbn beta. cbn [seqs]. rewrite mtch_seq, mtch_plus.
    change (cls_match no_flags CSpace c') with (is_space c').
    destruct (is_space c') eqn:E; [|done].
    change (cls_match no_flags CWord c') with (is_word c') in Hc'. rewrite (space_not_word _ E) in Hc'. discriminate.
Qed.

(** C17 [tag_re.match(line)] agrees with [tag_groups] on every line
    without [\n]: group 1 is the longest run of word characters after the
    [@], and the match needs whitespace right after it. *)
Theorem tag_re_match l :
  no_LF l = true ->
  groups12 <$> re_match no_flags tag_re l =
  (fun '(w, g) => (Some w, Some g)) <$> tag_groups l.
Proof. apply tag_re_match_core. Qed.

Lemma option_re_match_witness :
  no_LF "@@OPTION   x = 2" = true /\
  groups12 <$> re_match IGNORECASE option_re "@@OPTION   x = 2" = Some (Some "@", Some "x = 2").
Proof.
  split; [reflexivity|]. rewrite (option_re_match "@@OPTION   x = 2" eq_refl). vm_compute. reflexivity.
Defined.

Lemma tag_re_match_witness :
  no_LF "@Title  Area of a circle" = true /\
  groups12 <$> re_match no_flags tag_re "@Title  Area of a circle" =
  Some (Some "Title", Some "Area of a circle").
Proof.
  split; [reflexivity|]. rewrite (tag_re_match "@Title  Area of a circle" eq_refl).
  vm_compute. reflexivity.
Defined.
