(* ===== verification/TaggedParser.v ===== *)
(** * The tagged-text parser ([src/src/utils.py], [parse_tagged_questions])

    Each raw block becomes a Python dict [qdict] whose twelve keys are
    created with default values; every stripped, non-empty line is matched
    against [option_re] and then [tag_re] (module [PyRegex]).  An option line
    appends its text to [qdict["options"]] and, when it has the doubled [@],
    stores it in [qdict["answer"]]; a tag line [@name value] stores [value]
    under [name.lower()] when that key is already in the dict.

    The dict is a [gmap string PyVal]: its values are Python strings or
    lists of strings.  Because the membership test is [tag in qdict], a tag
    line can also overwrite ["options"] and ["answer"]; after [@options x]
    the value of ["options"] is a string, and the next option line raises
    [AttributeError] ([str] has no [append]).  The model keeps this: a line
    step returns a [PyResult].

    [line_kind] is the abstract view of a line (blank, option, tag, other)
    computed from the direct descriptions [option_groups] and [tag_groups]
    of the two patterns; [parse_line_refines] shows that the regex-based
    step is the step on that view. *)
From S2P Require Import Prelude PyStr PyRegex.

Module Parser.

(** ** Data *)

(** The values stored in the dict. *)
Inductive PyVal :=
  | PStr (s : string)
  | PList (l : list string).

#[export] Instance PyVal_eq_dec : EqDecision PyVal.
Proof. solve_decision. Defined.

(** The initial [qdict] of [parse_tagged_questions]. *)
Definition qdict_init : gmap string PyVal :=
  list_to_map
    [("title", PStr ""); ("description", PStr ""); ("question", PStr "");
     ("instruction", PStr ""); ("difficulty", PStr ""); ("subject", PStr "");
     ("unit", PStr ""); ("topic", PStr ""); ("plusmarks", PStr "1");
     ("options", PList []); ("answer", PStr ""); ("explanation", PStr "")].

Definition field_names : list string :=
  ["title"; "description"; "question"; "instruction"; "difficulty"; "subject";
   "unit"; "topic"; "plusmarks"; "options"; "answer"; "explanation"].

(** [m.group(n)] of a group that took part in the match. *)
Definition group_str (caps : captures) (n : nat) : string := default "" (group caps n).

Definition append_error : PyExc := AttributeError "'str' object has no attribute 'append'".

(** [qdict[k].append(x)] *)
Definition list_append (q : gmap string PyVal) (k x : string) : PyResult (gmap string PyVal) :=
  match q !! k with
  | Some (PList l) => POk (<[k := PList (l ++ [x])]> q)
  | Some (PStr _) => PRaise append_error
  | None => PRaise (KeyError k)
  end.

(** ** Operations *)

(** The body of [for line in lines:]. *)
Definition parse_line (q : gmap string PyVal) (line0 : string) : PyResult (gmap string PyVal) :=
  let line := strip line0 in
  if String.eqb line "" then POk q
  else
    match re_match IGNORECASE option_re line with
    | Some m_opt =>
        let correct_flag := group m_opt 1 in
        let opt_text := strip (group_str m_opt 2) in
        q' ← list_append q "options" opt_text;
        if decide (correct_flag = Some "@") then POk (<["answer" := PStr opt_text]> q')
        else POk q'
    | None =>
        match re_match no_flags tag_re line with
        | Some m =>
            let tag := lower (group_str m 1) in
            let val := strip (group_str m 2) in
            match q !! tag with
            | Some _ => POk (<[tag := PStr val]> q)
            | None => POk q
            end
        | None => POk q
        end
    end.

Fixpoint parse_lines (q : gmap string PyVal) (lines : list string) : PyResult (gmap string PyVal) :=
  match lines with
  | [] => POk q
  | l :: ls => q' ← parse_line q l; parse_lines q' ls
  end.

(** The body of [for raw in raw_questions:]. *)
Definition parse_block (raw : string) : PyResult (gmap string PyVal) :=
  parse_lines qdict_init (splitlines (strip raw)).

(** [parse_tagged_questions(raw_questions)] *)
Definition parse_tagged_questions (raws : list string) : PyResult (list (gmap string PyVal)) :=
  mapM parse_block raws.

(** ** Abstract view of a line *)

Inductive line_kind :=
  | LBlank
  | LOption (correct : bool) (text : string)
  | LTag (name value : string)
  | LOther.

Definition classify (l : string) : line_kind :=
  let s := strip l in
  if String.eqb s "" then LBlank
  else
    match option_groups s with
    | Some (flag, g) => LOption (bool_decide (flag = Some "@")) (strip g)
    | None =>
        match tag_groups s with
        | Some (w, g) => LTag (lower w) (strip g)
        | None => LOther
        end
    end.

(** The effect of one classified line on the dict. *)
Definition step (q : gmap string PyVal) (k : line_kind) : PyResult (gmap string PyVal) :=
  match k with
  | LBlank | LOther => POk q
  | LOption correct t =>
      q' ← list_append q "options" t;
      POk (if correct then <["answer" := PStr t]> q' else q')
  | LTag name v =>
      match q !! name with
      | Some _ => POk (<[name := PStr v]> q)
      | None => POk q
      end
  end.

(** ** Refinement: the regex-based step is the step on [classify] *)

Lemma strip_no_LF l : no_LF l = true -> no_LF (strip l) = true.
Proof. apply strip_forall. Qed.

Lemma parse_line_refines_core q l :
  no_LF l = true -> parse_line q l = step q (classify l).
Proof.
  intros Hl. unfold parse_line, classify.
  pose proof (strip_no_LF l Hl) as Hs. remember (strip l) as s eqn:Es. clear Es.
  destruct (String.eqb s ""); [done|].
  pose proof (option_re_match_core s Hs) as Hopt.
  destruct (re_match IGNORECASE option_re s) as [caps|];
    destruct (option_groups s) as [[flag g]|]; simpl in Hopt; try discriminate.
  - unfold groups12 in Hopt. injection Hopt as Hf Hg.
    unfold group_str. rewrite Hg, Hf. simpl.
    destruct (list_append q "options" (strip g)); simpl; [|done].
    by destruct (decide (flag = Some "@")); [rewrite bool_decide_true | rewrite bool_decide_false].
  - pose proof (tag_re_match_core s Hs) as Htag.
    destruct (re_match no_flags tag_re s) as [caps|];
      destruct (tag_groups s) as [[w g]|]; simpl in Htag; try discriminate; [|done].
    unfold groups12 in Htag. injection Htag as Hw Hg.
    unfold group_str. by rewrite Hw, Hg.
Qed.

(** C15 One iteration of the parsing loop (regex matching, [group],
    [strip], dict update) is the abstract [step] on the classified line,
    for every line without [\n]. *)
Theorem parse_line_refines q l :
  no_LF l = true -> parse_line q l = step q (classify l).
Proof. apply parse_line_refines_core. Qed.

(** The run of [step] over a list of classified lines. *)
Fixpoint run (q : gmap string PyVal) (ks : list line_kind) : PyResult (gmap string PyVal) :=
  match ks with
  | [] => POk q
  | k :: ks' => q' ← step q k; run q' ks'
  end.

Lemma parse_lines_refines q ls :
  Forall (fun l => no_LF l = true) ls -> parse_lines q ls = run q (map classify ls).
Proof.
  intros Hls. revert q. induction Hls as [|l ls Hl _ IH]; intros q; simpl; [done|].
  rewrite parse_line_refines_core by done. destruct (step q (classify l)); simpl; auto.
Qed.

(** The lines of a block: [raw.strip().splitlines()]. *)
Definition block_lines (raw : string) : list string := splitlines (strip raw).

Lemma block_lines_no_LF raw : Forall (fun l => no_LF l = true) (block_lines raw).
Proof.
  eapply Forall_impl; [apply splitlines_no_break|]. intros l. apply no_break_no_LF.
Qed.

Lemma parse_block_refines raw :
  parse_block raw = run qdict_init (map classify (block_lines raw)).
Proof. apply parse_lines_refines, block_lines_no_LF. Qed.

Lemma run_app q ks1 ks2 : run q (ks1 ++ ks2) = q' ← run q ks1; run q' ks2.
Proof.
  revert q. induction ks1 as [|k ks1 IH]; intros q; simpl; [done|].
  destruct (step q k); simpl; auto.
Qed.

(** ** Invariants of the dict *)

(** The keys of the dict are the twelve keys of [qdict_init]. *)
Definition keys_ok (q : gmap string PyVal) : Prop :=
  forall k, is_Some (q !! k) <-> is_Some (qdict_init !! k).

(** ["options"] holds a list and every other key a string. *)
Definition well_typed (q : gmap string PyVal) : Prop :=
  forall k v, q !! k = Some v ->
    (k = "options" -> exists os, v = PList os) /\ (k <> "options" -> exists s, v = PStr s).

Definition wf (q : gmap string PyVal) : Prop := keys_ok q /\ well_typed q.

Definition is_options_tag (k : line_kind) : bool :=
  match k with LTag n _ => String.eqb n "options" | _ => false end.

Lemma keys_ok_init : keys_ok qdict_init.
Proof. done. Qed.

Lemma keys_ok_has q k : keys_ok q -> is_Some (qdict_init !! k) -> is_Some (q !! k).
Proof. intros H. apply H. Qed.

Lemma keys_ok_insert q k v : keys_ok q -> is_Some (q !! k) -> keys_ok (<[k := v]> q).
Proof.
  intros Hq Hk k'. rewrite lookup_insert. case_decide; subst; [|apply Hq].
  split; [intros _; by apply Hq | by eexists].
Qed.

Lemma options_key : is_Some (qdict_init !! "options").
Proof. by eexists. Qed.

Lemma answer_key : is_Some (qdict_init !! "answer").
Proof. by eexists. Qed.

#[export] Hint Resolve keys_ok_init keys_ok_insert options_key answer_key : py.

Lemma list_append_ok q k x q' :
  list_append q k x = POk q' -> exists l, q !! k = Some (PList l) /\ q' = <[k := PList (l ++ [x])]> q.
Proof. unfold list_append. destruct (q !! k) as [[]|]; intros H; py_inv; eauto. Qed.

Lemma step_keys q k q' : keys_ok q -> step q k = POk q' -> keys_ok q'.
Proof.
  intros Hq. destruct k as [|c t|n v|]; simpl; intros H; py_inv; try done.
  - destruct (list_append q "options" t) as [q1|] eqn:E; simpl in H; [|discriminate].
    apply list_append_ok in E as (l & Hl & ->). injection H as <-.
    assert (keys_ok (<["options" := PList (l ++ [t])]> q)) by (apply keys_ok_insert; eauto).
    destruct c; [|done]. apply keys_ok_insert; [done|]. by apply H, answer_key.
  - destruct (q !! n) eqn:E; py_inv; [|done]. apply keys_ok_insert; eauto.
Qed.

Lemma run_keys q ks q' : keys_ok q -> run q ks = POk q' -> keys_ok q'.
Proof.
  revert q. induction ks as [|k ks IH]; intros q Hq H; simpl in H; py_inv; [done|].
  destruct (step q k) eqn:E; simpl in H; [|discriminate]. eauto using step_keys.
Qed.

Lemma parse_block_keys raw q : parse_block raw = POk q -> keys_ok q.
Proof. rewrite parse_block_refines. apply run_keys. done. Qed.

(** The only exception a step raises is the [AttributeError] of [append]
    on a string. *)
Lemma step_raise q k e : keys_ok q -> step q k = PRaise e -> e = append_error.
Proof.
  intros Hq. destruct k as [|c t|n v|]; simpl; try (destruct (q !! n); discriminate); try discriminate.
  unfold list_append. destruct (keys_ok_has q "options" Hq options_key) as [v Hv]. rewrite Hv.
  destruct v; simpl; intros H; py_inv; done.
Qed.

Lemma run_raise q ks e : keys_ok q -> run q ks = PRaise e -> e = append_error.
Proof.
  revert q. induction ks as [|k ks IH]; intros q Hq H; simpl in H; [discriminate|].
  destruct (step q k) eqn:E; simpl in H.
  - eauto using step_keys.
  - injection H as ->. eauto using step_raise.
Qed.

Lemma well_typed_insert q k v :
  well_typed q ->
  (k = "options" -> exists os, v = PList os) -> (k <> "options" -> exists s, v = PStr s) ->
  well_typed (<[k := v]> q).
Proof.
  intros Ht H1 H2 k' v'. rewrite lookup_insert. case_decide as Hk.
  - subst k'. intros Hv. injection Hv as <-. auto.
  - apply Ht.
Qed.

Lemma wf_insert_str q k s : wf q -> k <> "options" -> is_Some (q !! k) -> wf (<[k := PStr s]> q).
Proof.
  intros [Hk Ht] Hne Hs. split; [by apply keys_ok_insert|].
  apply well_typed_insert; [done| |eauto]. by intros ->.
Qed.

Lemma wf_options q : wf q -> exists os, q !! "options" = Some (PList os).
Proof.
  intros [Hk Ht]. destruct (keys_ok_has q "options" Hk options_key) as [v Hv].
  destruct (Ht _ _ Hv) as [[os ->] _]; eauto.
Qed.

Lemma step_wf q k : wf q -> is_options_tag k = false -> exists q', step q k = POk q' /\ wf q'.
Proof.
  intros Hwf Hopt. destruct k as [|c t|n v|]; simpl; [by eexists| |simpl in Hopt|by eexists].
  - destruct (wf_options q Hwf) as [os Hos]. unfold list_append. rewrite Hos. simpl.
    assert (Hq1 : wf (<["options" := PList (os ++ [t])]> q)).
    { destruct Hwf as [Hk Ht]. split; [apply keys_ok_insert; eauto|].
      apply well_typed_insert; eauto. done. }
    eexists; split; [done|]. destruct c; [|done].
    apply wf_insert_str; [done|done|]. apply Hq1, answer_key.
  - apply String.eqb_neq in Hopt.
    destruct (q !! n) eqn:E; eexists; (split; [done|]); [|done].
    apply wf_insert_str; [done|done|]. by rewrite E.
Qed.

Lemma wf_init : wf qdict_init.
Proof.
  split; [done|]. intros k v H. apply elem_of_list_to_map_2 in H.
  repeat (apply elem_of_cons in H as [H|H]; [injection H as <- <-; split; intros; by eauto|]).
  set_solver.
Qed.

Lemma run_wf q ks :
  wf q -> Forall (fun k => is_options_tag k = false) ks -> exists q', run q ks = POk q' /\ wf q'.
Proof.
  intros Hwf Hks. revert q Hwf. induction Hks as [|k ks Hk _ IH]; intros q Hwf; simpl; [eauto|].
  destruct (step_wf q k Hwf Hk) as (q1 & -> & Hq1). simpl. auto.
Qed.

(** Once ["options"] holds a string, it keeps holding a string. *)
Lemma run_options_str q ks s q' :
  q !! "options" = Some (PStr s) -> run q ks = POk q' -> exists s', q' !! "options" = Some (PStr s').
Proof.
  revert q s. induction ks as [|k ks IH]; intros q s Hs H; simpl in H; py_inv; [eauto|].
  destruct k as [|c t|n v|]; simpl in H; eauto.
  - unfold list_append in H. rewrite Hs in H. discriminate.
  - destruct (q !! n) eqn:E; eauto. destruct (decide (n = "options")) as [->|Hn].
    + eapply IH; [|exact H]. by rewrite lookup_insert_eq.
    + eapply IH; [|exact H]. rewrite lookup_insert_ne by done. exact Hs.
Qed.

(** The texts of the option lines, in order. *)
Fixpoint opt_texts (ks : list line_kind) : list string :=
  match ks with
  | [] => []
  | LOption _ t :: ks' => t :: opt_texts ks'
  | _ :: ks' => opt_texts ks'
  end.

Lemma run_options q ks os q' :
  Forall (fun k => is_options_tag k = false) ks ->
  q !! "options" = Some (PList os) -> run q ks = POk q' ->
  q' !! "options" = Some (PList (os ++ opt_texts ks)).
Proof.
  intros Hks. revert q os. induction Hks as [|k ks Hk _ IH]; intros q os Hos H; simpl in H; py_inv.
  { by rewrite app_nil_r. }
  destruct k as [|c t|n v|]; simpl in *; eauto.
  - unfold list_append in H. rewrite Hos in H. simpl in H.
    assert (Ho : (if c then <["answer" := PStr t]> (<["options" := PList (os ++ [t])]> q)
                  else <["options" := PList (os ++ [t])]> q) !! "options" = Some (PList (os ++ [t]))).
    { destruct c; rewrite ?lookup_insert_ne by done; by rewrite lookup_insert_eq. }
    rewrite (IH _ _ Ho H), <- app_assoc. done.
  - apply String.eqb_neq in Hk. destruct (q !! n); eauto.
    eapply IH; [|exact H]. by rewrite lookup_insert_ne.
Qed.

(** The value of the string field [f] after one classified line. *)
Definition field_step (f : string) (a : string) (k : line_kind) : string :=
  match k with
  | LOption true t => if String.eqb f "answer" then t else a
  | LTag n v => if String.eqb n f then v else a
  | _ => a
  end.

Lemma run_field q ks q' f a :
  f <> "options" -> q !! f = Some (PStr a) -> run q ks = POk q' ->
  q' !! f = Some (PStr (fold_left (field_step f) ks a)).
Proof.
  intros Hf. revert q a. induction ks as [|k ks IH]; intros q a Ha H; simpl in H; py_inv; [done|].
  destruct k as [|c t|n v|]; simpl in *; eauto.
  - destruct (list_append q "options" t) as [q1|] eqn:E; simpl in H; [|discriminate].
    apply list_append_ok in E as (l & _ & ->). eapply IH; [|exact H].
    destruct c; simpl.
    + rewrite lookup_insert. case_decide as Hans; subst.
      * by rewrite String.eqb_refl.
      * rewrite lookup_insert_ne by done. destruct (String.eqb_spec f "answer"); [congruence|done].
    + by rewrite lookup_insert_ne.
  - destruct (q !! n) eqn:E; eapply IH; try exact H.
    + rewrite lookup_insert. case_decide; subst; [by rewrite String.eqb_refl|].
      destruct (String.eqb_spec n f); [congruence|done].
    + destruct (String.eqb_spec n f); [congruence|done].
Qed.

(** ** Properties of [parse_block] and [parse_tagged_questions] *)

(** A line kind is not a tag line whose lower-cased name is in [names]. *)
Definition tags_absent (names : list string) (k : line_kind) : bool :=
  match k with LTag n _ => negb (bool_decide (n ∈ names)) | _ => true end.

Definition block_kinds (raw : string) : list line_kind := map classify (block_lines raw).

Lemma tags_absent_options ks :
  forallb (tags_absent ["options"]) ks = true -> Forall (fun k => is_options_tag k = false) ks.
Proof.
  intros H. apply Forall_forall. intros k Hk%list_elem_of_In. eapply forallb_forall in H; [|exact Hk].
  destruct k as [| |n v|]; simpl in *; try done.
  destruct (String.eqb_spec n "options"); [subst; discriminate|done].
Qed.

Lemma parse_block_raise raw e : parse_block raw = PRaise e -> e = append_error.
Proof. rewrite parse_block_refines. apply run_raise, keys_ok_init. Qed.

Lemma answer_fold ks a :
  forallb (tags_absent ["options"; "answer"]) ks = true ->
  fold_left (field_step "answer") ks a = a \/ fold_left (field_step "answer") ks a ∈ opt_texts ks.
Proof.
  revert a. induction ks as [|k ks IH]; intros a Hks; simpl in *; [by left|].
  apply andb_prop in Hks as [Hk Hks].
  destruct k as [|[] t|n v|]; simpl in *.
  - auto.
  - destruct (IH t Hks) as [->|?]; right; set_solver.
  - destruct (IH a Hks) as [->|?]; [by left|right; set_solver].
  - destruct (String.eqb_spec n "answer"); [subst; discriminate|]. auto.
  - auto.
Qed.

Definition answer_source (k : line_kind) : bool :=
  match k with LOption true _ => true | LTag n _ => String.eqb n "answer" | _ => false end.

Lemma answer_fold_const ks a :
  forallb (fun k => negb (answer_source k)) ks = true -> fold_left (field_step "answer") ks a = a.
Proof.
  revert a. induction ks as [|k ks IH]; intros a Hks; simpl in *; [done|].
  apply andb_prop in Hks as [Hk Hks].
  destruct k as [|[] t|n v|]; simpl in *; try discriminate; try by apply IH.
  all: destruct (String.eqb_spec n "answer"); [discriminate|by apply IH].
Qed.

(** C1 [parse_tagged_questions] returns one dict per raw block, in order:
    it returns normally exactly when every block parses, and then the
    [i]-th dict is the result of parsing the [i]-th block. *)
Theorem parse_tagged_questions_ok raws qs :
  parse_tagged_questions raws = POk qs <-> Forall2 (fun r q => parse_block r = POk q) raws qs.
Proof. split; [apply py_mapM_ok | apply py_mapM_ok_intro]. Qed.

(** C2 A block that contains no [@options] tag line always parses, to a
    dict with the twelve keys, a list under ["options"] and strings under
    every other key. *)
Theorem parse_block_total raw :
  forallb (tags_absent ["options"]) (block_kinds raw) = true ->
  exists q, parse_block raw = POk q /\ wf q.
Proof.
  intros H. rewrite parse_block_refines. apply run_wf; [apply wf_init|].
  by apply tags_absent_options.
Qed.

(** C3 An [@options] tag line followed, anywhere later in the block, by an
    option line makes [parse_block] raise [AttributeError]: the tag stored a
    string under ["options"], and [append] is called on it. *)
Theorem parse_block_options_crash raw pre l1 mid l2 post v c t :
  block_lines raw = pre ++ l1 :: mid ++ l2 :: post ->
  classify l1 = LTag "options" v -> classify l2 = LOption c t ->
  parse_block raw = PRaise append_error.
Proof.
  intros Hl H1 H2. rewrite parse_block_refines, Hl, map_app, run_app.
  destruct (run qdict_init (map classify pre)) as [q1|e] eqn:E1; simpl.
  - pose proof (run_keys _ _ _ keys_ok_init E1) as Hk1.
    rewrite H1. simpl. destruct (keys_ok_has q1 "options" Hk1 options_key) as [o Ho]. rewrite Ho.
    simpl. rewrite map_app, run_app.
    destruct (run (<["options" := PStr v]> q1) (map classify mid)) as [q2|e2] eqn:E2; simpl.
    + destruct (run_options_str _ _ v _ (lookup_insert_eq _ _ _) E2) as [s Hs].
      rewrite H2. simpl. unfold list_append. by rewrite Hs.
    + f_equal. eapply run_raise; [|exact E2]. apply keys_ok_insert; [done|by rewrite Ho].
  - f_equal. eapply run_raise; [apply keys_ok_init|exact E1].
Qed.

Lemma parse_block_options_core raw q :
  forallb (tags_absent ["options"]) (block_kinds raw) = true ->
  parse_block raw = POk q ->
  q !! "options" = Some (PList (opt_texts (block_kinds raw))).
Proof.
  intros Hks H. rewrite parse_block_refines in H.
  eapply (run_options qdict_init _ []); [by apply tags_absent_options|reflexivity|exact H].
Qed.

(** C4 The options of a parsed block are the texts of its option lines, in
    the order of the lines, duplicates kept. *)
Theorem parse_block_options raw q :
  forallb (tags_absent ["options"]) (block_kinds raw) = true ->
  parse_block raw = POk q ->
  q !! "options" = Some (PList (opt_texts (block_kinds raw))).
Proof. apply parse_block_options_core. Qed.

Lemma parse_block_field_core raw q f d :
  f <> "options" -> qdict_init !! f = Some (PStr d) ->
  parse_block raw = POk q ->
  q !! f = Some (PStr (fold_left (field_step f) (block_kinds raw) d)).
Proof. intros Hf Hd H. rewrite parse_block_refines in H. by eapply run_field. Qed.

(** C5 Every string field of a parsed block holds the value of its last
    tag line (and, for ["answer"], of its last [@@option] line), or its
    default when there is none. *)
Theorem parse_block_field raw q f d :
  f <> "options" -> qdict_init !! f = Some (PStr d) ->
  parse_block raw = POk q ->
  q !! f = Some (PStr (fold_left (field_step f) (block_kinds raw) d)).
Proof. apply parse_block_field_core. Qed.

Lemma parse_block_answer_in_options_core raw q :
  forallb (tags_absent ["options"; "answer"]) (block_kinds raw) = true ->
  parse_block raw = POk q ->
  exists a os, q !! "answer" = Some (PStr a) /\ q !! "options" = Some (PList os) /\
               (a = "" \/ a ∈ os).
Proof.
  intros Hks H.
  assert (Ho : forallb (tags_absent ["options"]) (block_kinds raw) = true).
  { eapply forallb_mono; [|exact Hks]. intros [| |n v|]; simpl; try done.
    repeat case_bool_decide; set_solver. }
  exists (fold_left (field_step "answer") (block_kinds raw) ""), (opt_texts (block_kinds raw)).
  split; [by eapply parse_block_field_core|]. split; [by eapply parse_block_options_core|].
  by apply answer_fold.
Qed.

(** C6 In a block without [@options] and [@answer] tag lines, the parsed
    answer is empty or one of the parsed options. *)
Theorem parse_block_answer_in_options raw q :
  forallb (tags_absent ["options"; "answer"]) (block_kinds raw) = true ->
  parse_block raw = POk q ->
  exists a os, q !! "answer" = Some (PStr a) /\ q !! "options" = Some (PList os) /\
               (a = "" \/ a ∈ os).
Proof. apply parse_block_answer_in_options_core. Qed.

(** A block with no [@@option] line and no [@answer] tag line parses to
    an empty answer. *)
Theorem parse_block_answer_empty raw q :
  forallb (fun k => negb (answer_source k)) (block_kinds raw) = true ->
  parse_block raw = POk q -> q !! "answer" = Some (PStr "").
Proof.
  intros Hks H. rewrite (parse_block_field_core raw q "answer" ""); [|done|done|done].
  by rewrite answer_fold_const.
Qed.

(** C7 A tag line whose lower-cased name is not a key of the dict (for
    instance [@marks 5] or [@foo bar]) has no effect on the parse. *)
Theorem parse_block_unknown_tag raw pre l post n v :
  block_lines raw = pre ++ l :: post ->
  classify l = LTag n v -> qdict_init !! n = None ->
  parse_block raw = parse_lines qdict_init (pre ++ post).
Proof.
  intros Hl Hc Hn. pose proof (block_lines_no_LF raw) as Hok. rewrite Hl in Hok.
  unfold parse_block. fold (block_lines raw). rewrite Hl.
  pose proof Hok as Hok'. apply Forall_app in Hok' as [Hpre Hpost].
  apply Forall_cons in Hpost as [_ Hpost].
  rewrite (parse_lines_refines _ (pre ++ post)) by (by apply Forall_app).
  rewrite parse_lines_refines by done.
  rewrite !map_app, !run_app. simpl. rewrite Hc.
  destruct (run qdict_init (map classify pre)) as [q1|e] eqn:E1; simpl; [|done].
  pose proof (run_keys _ _ _ keys_ok_init E1) as Hk1.
  destruct (q1 !! n) eqn:En; [|done].
  exfalso. assert (is_Some (qdict_init !! n)) as [? Hn'] by (apply Hk1; by rewrite En).
  congruence.
Qed.

(** C8 One block with an [@options] tag line followed by an option line
    makes the whole batch raise: no dict at all is returned. *)
Theorem parse_tagged_questions_crash raws raw :
  raw ∈ raws -> parse_block raw = PRaise append_error ->
  parse_tagged_questions raws = PRaise append_error.
Proof.
  intros Hin Hraw. unfold parse_tagged_questions.
  destruct (mapM parse_block raws) as [qs|e] eqn:E.
  - destruct (py_mapM_ok_elem _ _ _ _ E Hin) as [q Hq]. congruence.
  - apply py_mapM_raise_inv in E as (r & _ & Hr). f_equal. by apply parse_block_raise in Hr.
Qed.

(** ** Witnesses on concrete blocks *)

Definition nl : string := String LF EmptyString.
Definition unlines (ls : list string) : string := String.concat nl ls.

(** A block in the format the generation prompt asks for. *)
Definition sample_block : string :=
  unlines ["@title Fractions"; "@question What is 1/2 + 1/4?"; "@difficulty easy";
           "@plusmarks 1"; ""; "@option 1/4"; "@option 2/6"; "@@option 3/4";
           "@option 1"; "@explanation Use a common denominator."].

Lemma parse_block_total_witness :
  forallb (tags_absent ["options"]) (block_kinds sample_block) = true /\
  exists q, parse_block sample_block = POk q /\ wf q.
Proof. split; [vm_compute; reflexivity|]. apply parse_block_total. vm_compute. reflexivity. Defined.

Definition options_then_option : string := unlines ["@options x"; "@option y"].

Lemma parse_block_options_crash_witness :
  block_lines options_then_option = [] ++ "@options x" :: [] ++ "@option y" :: [] /\
  classify "@options x" = LTag "options" "x" /\ classify "@option y" = LOption false "y" /\
  parse_block options_then_option = PRaise append_error.
Proof.
  split; [vm_compute; reflexivity|]. split; [vm_compute; reflexivity|].
  split; [vm_compute; reflexivity|].
  apply (parse_block_options_crash _ [] "@options x" [] "@option y" [] "x" false "y");
    vm_compute; reflexivity.
Defined.

Definition duplicate_options : string := unlines ["@option a"; "@OPTION   a"; "@@option b"].

(** The parsed dict of a block that parses. *)
Definition parsed (raw : string) : gmap string PyVal :=
  match parse_block raw with POk q => q | PRaise _ => ∅ end.

Lemma parsed_ok raw : is_ok (parse_block raw) = true -> parse_block raw = POk (parsed raw).
Proof. unfold parsed. by destruct (parse_block raw). Qed.

Lemma parse_block_options_witness :
  forallb (tags_absent ["options"]) (block_kinds duplicate_options) = true /\
  parse_block duplicate_options = POk (parsed duplicate_options) /\
  parsed duplicate_options !! "options" = Some (PList ["a"; "a"; "b"]).
Proof.
  assert (H1 : forallb (tags_absent ["options"]) (block_kinds duplicate_options) = true)
    by (vm_compute; reflexivity).
  assert (H2 : parse_block duplicate_options = POk (parsed duplicate_options))
    by (apply parsed_ok; vm_compute; reflexivity).
  split; [exact H1|]. split; [exact H2|].
  rewrite (parse_block_options _ _ H1 H2). vm_compute. reflexivity.
Defined.

Definition repeated_title : string := unlines ["@title First"; "@Title Second"; "@answer 7"].

Lemma parse_block_field_witness :
  "title" <> "options" /\ qdict_init !! "title" = Some (PStr "") /\
  parse_block repeated_title = POk (parsed repeated_title) /\
  parsed repeated_title !! "title" = Some (PStr "Second").
Proof.
  assert (H : parse_block repeated_title = POk (parsed repeated_title))
    by (apply parsed_ok; vm_compute; reflexivity).
  split; [done|]. split; [reflexivity|]. split; [exact H|].
  rewrite (parse_block_field _ _ "title" "" ltac:(done) ltac:(reflexivity) H).
  vm_compute. reflexivity.
Defined.

Lemma parse_block_answer_in_options_witness :
  forallb (tags_absent ["options"; "answer"]) (block_kinds sample_block) = true /\
  parse_block sample_block = POk (parsed sample_block) /\
  exists a os, parsed sample_block !! "answer" = Some (PStr a) /\
    parsed sample_block !! "options" = Some (PList os) /\ (a = "" \/ a ∈ os).
Proof.
  assert (H1 : forallb (tags_absent ["options"; "answer"]) (block_kinds sample_block) = true)
    by (vm_compute; reflexivity).
  assert (H2 : parse_block sample_block = POk (parsed sample_block))
    by (apply parsed_ok; vm_compute; reflexivity).
  split; [exact H1|]. split; [exact H2|]. exact (parse_block_answer_in_options _ _ H1 H2).
Defined.

Definition no_marker : string := unlines ["@option 1"; "@option 2"; "@title t"].

Lemma parse_block_answer_empty_witness :
  forallb (fun k => negb (answer_source k)) (block_kinds no_marker) = true /\
  parse_block no_marker = POk (parsed no_marker) /\
  parsed no_marker !! "answer" = Some (PStr "").
Proof.
  assert (H1 : forallb (fun k => negb (answer_source k)) (block_kinds no_marker) = true)
    by (vm_compute; reflexivity).
  assert (H2 : parse_block no_marker = POk (parsed no_marker))
    by (apply parsed_ok; vm_compute; reflexivity).
  split; [exact H1|]. split; [exact H2|]. exact (parse_block_answer_empty _ _ H1 H2).
Defined.

Definition marks_block : string := unlines ["@title T"; "@marks 5"; "@option a"].

Lemma parse_block_unknown_tag_witness :
  block_lines marks_block = ["@title T"] ++ "@marks 5" :: ["@option a"] /\
  classify "@marks 5" = LTag "marks" "5" /\ qdict_init !! "marks" = None /\
  parse_block marks_block = parse_lines qdict_init ["@title T"; "@option a"].
Proof.
  split; [vm_compute; reflexivity|]. split; [vm_compute; reflexivity|].
  split; [reflexivity|].
  apply (parse_block_unknown_tag _ ["@title T"] "@marks 5" ["@option a"] "marks" "5");
    vm_compute; reflexivity.
Defined.

Lemma parse_tagged_questions_crash_witness :
  options_then_option ∈ [sample_block; options_then_option] /\
  parse_block options_then_option = PRaise append_error /\
  parse_tagged_questions [sample_block; options_then_option] = PRaise append_error.
Proof.
  assert (H1 : options_then_option ∈ [sample_block; options_then_option]) by (right; left).
  assert (H2 : parse_block options_then_option = PRaise append_error) by (vm_compute; reflexivity).
  split; [exact H1|]. split; [exact H2|]. exact (parse_tagged_questions_crash _ _ H1 H2).
Defined.

Lemma parse_line_refines_witness :
  no_LF "  @@Option 4  " = true /\ classify "  @@Option 4  " = LOption true "4" /\
  parse_line qdict_init "  @@Option 4  " = step qdict_init (classify "  @@Option 4  ").
Proof.
  split; [reflexivity|]. split; [vm_compute; reflexivity|].
  exact (parse_line_refines qdict_init "  @@Option 4  " eq_refl).
Defined.

End Parser.
