(* ===== verification/ImagePrompt.v ===== *)
(** * Image-prompt extraction ([src/main.py], [extract_image_prompts])

    For the [idx]-th raw block (counting from 1) the code runs
    [re.search(r"^@image\s+(.+)$", raw_q, re.MULTILINE)] and returns
    [(prompt, "images/question<idx>.png")] when it matches, with
    [prompt = match.group(1).strip()], and [(None, None)] otherwise.

    [image_scan] describes the search directly: the first line start
    (position 0 or after a [\n]) at which [image_at] succeeds.  [image_at]
    needs the literal [@image] and a whitespace character; the greedy [\s+]
    may run over [\n], so an [@image] line with no text takes the next
    non-blank line as its prompt; when the whitespace runs to the end of
    the block, the matcher backtracks to the last whitespace character that
    is not [\n] ([ws_tail]). *)
From S2P Require Import Prelude PyStr PyRegex.

Module Image.

Definition nonLF (c : ascii) : bool := negb (Ascii.eqb c LF).

(** ** Operations *)

(** The tuple of one block. *)
Definition image_entry (idx : nat) (raw_q : string) : option string * option string :=
  match re_search MULTILINE image_re raw_q with
  | Some m =>
      let prompt := strip (default "" (group m 1)) in
      let img_path := "images/question" +:+ str_of_nat idx +:+ ".png" in
      (Some prompt, Some img_path)
  | None => (None, None)
  end.

(** [for idx, raw_q in enumerate(raw_questions, 1)] *)
Fixpoint extract_from (idx : nat) (raws : list string) : list (option string * option string) :=
  match raws with
  | [] => []
  | raw_q :: rest => image_entry idx raw_q :: extract_from (S idx) rest
  end.

Definition extract_image_prompts (raws : list string) : list (option string * option string) :=
  extract_from 1 raws.

(** ** Direct description of the search *)

(** [(.+)$] in MULTILINE mode: at least one character other than [\n], up
    to the end of the line. *)
Definition line_group (t : string) : option string :=
  match t with
  | String d _ => if nonLF d then Some (takew nonLF t) else None
  | EmptyString => None
  end.

(** Backtracking into a run of whitespace that reaches the end of the
    block: the shortest suffix that starts with a character other than
    [\n]. *)
Fixpoint ws_tail (s : string) : option string :=
  match s with
  | EmptyString => None
  | String c s' =>
      match ws_tail s' with
      | Some g => Some g
      | None => if nonLF c then Some (takew nonLF s) else None
      end
  end.

(** [\s+(.+)$] after the literal. *)
Definition image_ws (r : string) : option string :=
  match r with
  | String c r' =>
      if is_space c then
        match dropw is_space r' with
        | EmptyString => ws_tail r'
        | d => Some (takew nonLF d)
        end
      else None
  | EmptyString => None
  end.

Definition image_at (s : string) : option string :=
  match strip_prefix MULTILINE "@image" s with
  | Some r => image_ws r
  | None => None
  end.

Fixpoint image_scan (prev : option ascii) (s : string) : option string :=
  match (if at_bol MULTILINE prev then image_at s else None) with
  | Some g => Some g
  | None =>
      match s with
      | EmptyString => None
      | String c s' => image_scan (Some c) s'
      end
  end.

(** ** The search is the direct description *)

Lemma at_eol_dropw_nonLF t : at_eol MULTILINE (dropw nonLF t) = true.
Proof.
  induction t as [|c t IH]; [done|]. simpl. destruct (nonLF c) eqn:E; [done|].
  unfold nonLF in E. apply negb_false_iff in E. simpl. destruct t; by rewrite E.
Qed.

Lemma mtch_line_group q t caps :
  mtch MULTILINE (RSeq (RGroup 1 (RPlus CAny)) REol) (q, t) caps accept =
  (fun g => (1, g) :: caps) <$> line_group t.
Proof.
  rewrite mtch_seq, mtch_group. destruct t as [|d t']; [done|]. rewrite mtch_plus.
  change (cls_match MULTILINE CAny d) with (nonLF d). unfold line_group.
  destruct (nonLF d) eqn:Ed; [|done].
  rewrite star_go_try by (intros ????; reflexivity). apply star_try_max.
  change (cls_match MULTILINE CAny) with nonLF. simpl. rewrite at_eol_dropw_nonLF.
  f_equal. f_equal. f_equal.
  pose proof (captured_takew nonLF (String d t')) as H. cbn [dropw takew] in H.
  rewrite Ed in H |- *. exact H.
Qed.

Lemma star_try_image (f : string -> captures) r :
  star_try MULTILINE CSpace (fun t => f <$> line_group t) r =
  f <$> match dropw is_space r with
        | EmptyString => ws_tail r
        | d => Some (takew nonLF d)
        end.
Proof.
  induction r as [|c r IH]; [done|]. cbn [star_try dropw ws_tail].
  change (cls_match MULTILINE CSpace c) with (is_space c).
  destruct (is_space c) eqn:Ec.
  - rewrite IH. destruct (dropw is_space r) eqn:Ed; [|done].
    destruct (ws_tail r); [done|]. done.
  - unfold line_group. assert (Hc : nonLF c = true).
    { unfold nonLF. destruct (Ascii.eqb_spec c LF); [subst; discriminate|done]. }
    by rewrite Hc.
Qed.

Definition group1 (caps : captures) : option string := group caps 1.

Lemma mtch_bol fl prev s caps kont :
  mtch fl RBol (prev, s) caps kont = if at_bol fl prev then kont (prev, s) caps else None.
Proof. reflexivity. Qed.

Lemma image_mtch prev s :
  group1 <$> mtch MULTILINE image_re (prev, s) [] accept =
  Some <$> (if at_bol MULTILINE prev then image_at s else None).
Proof.
  unfold image_re. cbn [seqs]. rewrite mtch_seq, mtch_bol.
  destruct (at_bol MULTILINE prev); [|reflexivity]. cbn beta.
  rewrite mtch_seq, mtch_lit by solve_ign. unfold image_at.
  destruct (strip_prefix MULTILINE "@image" s) as [r|]; [|reflexivity]. cbn beta.
  rewrite mtch_seq. unfold image_ws. destruct r as [|c r']; [reflexivity|]. rewrite mtch_plus.
  change (cls_match MULTILINE CSpace c) with (is_space c). destruct (is_space c); [|reflexivity].
  rewrite star_go_try by solve_ign.
  erewrite star_try_ext; [rewrite (star_try_image (fun g => [(1, g)])); by destruct (dropw is_space r'), (ws_tail r')|].
  intros t. cbn beta. by rewrite mtch_line_group.
Qed.

Lemma search_from_eq fl r prev s :
  search_from fl r prev s =
  match mtch fl r (prev, s) [] accept with
  | Some caps => Some caps
  | None => match s with EmptyString => None | String c s' => search_from fl r (Some c) s' end
  end.
Proof. destruct s; reflexivity. Qed.

Lemma image_scan_eq prev s :
  image_scan prev s =
  match (if at_bol MULTILINE prev then image_at s else None) with
  | Some g => Some g
  | None => match s with EmptyString => None | String c s' => image_scan (Some c) s' end
  end.
Proof. destruct s; reflexivity. Qed.

Lemma search_from_scan prev s :
  group1 <$> search_from MULTILINE image_re prev s = Some <$> image_scan prev s.
Proof.
  revert prev. induction s as [|c s IH]; intros prev;
    rewrite search_from_eq, image_scan_eq;
    match goal with |- context [mtch MULTILINE image_re (prev, ?t) [] accept] =>
      pose proof (image_mtch prev t) as Hm;
      destruct (mtch MULTILINE image_re (prev, t) [] accept) as [caps|];
      destruct (if at_bol MULTILINE prev then image_at t else None) as [g|]
    end; simpl in *; try discriminate; try done; apply IH.
Qed.

Lemma image_entry_scan_core idx raw_q :
  image_entry idx raw_q =
  match image_scan None raw_q with
  | Some g => (Some (strip g), Some ("images/question" +:+ str_of_nat idx +:+ ".png"))
  | None => (None, None)
  end.
Proof.
  unfold image_entry, re_search. pose proof (search_from_scan None raw_q) as H.
  destruct (search_from MULTILINE image_re None raw_q) as [caps|];
    destruct (image_scan None raw_q) as [g|]; simpl in H; try discriminate; [|done].
  unfold group1 in H. injection H as ->. done.
Qed.

(** C18 The tuple of one block is computed by the direct description of
    the search: the first line start where [@image], whitespace and a
    non-empty rest of line match. *)
Theorem image_entry_scan idx raw_q :
  image_entry idx raw_q =
  match image_scan None raw_q with
  | Some g => (Some (strip g), Some ("images/question" +:+ str_of_nat idx +:+ ".png"))
  | None => (None, None)
  end.
Proof. apply image_entry_scan_core. Qed.

Lemma extract_from_spec idx raws :
  length (extract_from idx raws) = length raws /\
  forall i raw_q, raws !! i = Some raw_q -> extract_from idx raws !! i = Some (image_entry (idx + i) raw_q).
Proof.
  revert idx. induction raws as [|r raws IH]; intros idx; simpl; [done|].
  destruct (IH (S idx)) as [Hlen Hnth]. split; [by rewrite Hlen|].
  intros [|i] raw_q Hi; simpl in *.
  - injection Hi as ->. by rewrite Nat.add_0_r.
  - rewrite (Hnth i raw_q Hi). do 2 f_equal. lia.
Qed.

(** [extract_image_prompts] returns one tuple per block, in order, and
    the tuple of the [i]-th block (from 0) is [image_entry (i + 1)] of it. *)
Theorem extract_image_prompts_spec raws :
  length (extract_image_prompts raws) = length raws /\
  forall i raw_q, raws !! i = Some raw_q -> extract_image_prompts raws !! i = Some (image_entry (S i) raw_q).
Proof. apply (extract_from_spec 1). Qed.

(** ** Blocks with an [@image] line *)

Lemma strip_prefix_app fl p s : ignorecase fl = false -> strip_prefix fl p (p +:+ s) = Some s.
Proof.
  intros Hfl. induction p as [|a p IH]; [done|]. rewrite str_app_cons. cbn [strip_prefix].
  unfold cls_match. rewrite Hfl, Ascii.eqb_refl. done.
Qed.

Lemma dropw_app_all q w x : str_forall q w = true -> dropw q (w +:+ x) = dropw q x.
Proof.
  induction w as [|c w IH]; [done|]. rewrite str_app_cons. simpl.
  intros [-> Hw]%andb_prop. auto.
Qed.

Lemma takew_app_all q w x : str_forall q w = true -> takew q (w +:+ x) = w +:+ takew q x.
Proof.
  induction w as [|c w IH]; [done|]. rewrite !str_app_cons. simpl.
  intros [-> Hw]%andb_prop. by rewrite IH.
Qed.

(** A line start followed by [@image], whitespace (possibly over line
    breaks), and a prompt [p] that runs to the end of its line. *)
Definition image_line_ok (w p rest : string) : Prop :=
  w <> "" /\ str_forall is_space w = true /\ p <> "" /\ head_not_space p = true /\
  no_LF p = true /\ (rest = "" \/ exists r', rest = String LF r').

Lemma image_at_line w p rest :
  image_line_ok w p rest -> image_at ("@image" +:+ w +:+ p +:+ rest) = Some p.
Proof.
  intros (Hw & Hws & Hp & Hhd & Hnl & Hrest). unfold image_at.
  rewrite strip_prefix_app by done.
  destruct w as [|c w']; [done|]. rewrite str_app_cons. simpl in Hws.
  apply andb_prop in Hws as [Hc Hws]. unfold image_ws. rewrite Hc.
  rewrite dropw_app_all by done.
  destruct p as [|d p']; [done|]. simpl in Hhd. rewrite str_app_cons. simpl dropw.
  destruct (is_space d); [discriminate|]. cbv iota.
  rewrite <- str_app_cons, takew_app_all by exact Hnl.
  destruct Hrest as [->|[r' ->]]; [by rewrite str_app_nil_r|]. simpl takew. by rewrite str_app_nil_r.
Qed.

Lemma strip_prefix_line p l s :
  no_LF p = true -> no_LF l = true -> String.prefix p l = false ->
  strip_prefix MULTILINE p (l +:+ String LF s) = None.
Proof.
  revert l. induction p as [|a p IH]; intros l Hp Hl Hpre; [destruct l; discriminate|].
  apply andb_prop in Hp as [Ha Hp]. destruct l as [|b l].
  - rewrite str_app_nil. cbn [strip_prefix]. unfold cls_match. cbn [ignorecase MULTILINE].
    destruct (Ascii.eqb_spec LF a) as [<-|]; [discriminate|reflexivity].
  - rewrite str_app_cons. cbn [strip_prefix]. unfold cls_match. cbn [ignorecase MULTILINE].
    destruct (Ascii.eqb_spec b a) as [->|]; [|reflexivity].
    apply andb_prop in Hl as [_ Hl]. cbn [String.prefix] in Hpre.
    destruct (ascii_dec a a); [|congruence]. auto.
Qed.

Lemma image_scan_inner c l s :
  nonLF c = true -> no_LF l = true -> image_scan (Some c) (l +:+ String LF s) = image_scan (Some LF) s.
Proof.
  revert c. induction l as [|d l IH]; intros c Hc Hl;
    rewrite ?str_app_nil, ?str_app_cons, image_scan_eq; unfold at_bol; cbn [multiline MULTILINE];
    unfold nonLF in Hc; apply negb_true_iff in Hc; rewrite Hc; [done|].
  apply andb_prop in Hl as [Hd Hl]. by apply IH.
Qed.

(** A line that does not start with [@image] is skipped by the search. *)
Lemma image_scan_skip prev l s :
  at_bol MULTILINE prev = true -> no_LF l = true -> String.prefix "@image" l = false ->
  image_scan prev (l +:+ String LF s) = image_scan (Some LF) s.
Proof.
  intros Hb Hl Hpre. rewrite image_scan_eq, Hb. unfold image_at.
  rewrite strip_prefix_line by done. destruct l as [|d l]; [done|].
  rewrite str_app_cons. apply andb_prop in Hl as [Hd Hl]. by apply image_scan_inner.
Qed.

Definition line_block (pre : list string) : string := String.concat "" (map (fun l => l +:+ String LF "") pre).

Lemma line_block_cons l pre : line_block (l :: pre) = l +:+ String LF (line_block pre).
Proof.
  unfold line_block. destruct pre as [|l' pre]; simpl; [done|].
  by rewrite str_app_nil, <- str_app_assoc, str_app_cons, str_app_nil.
Qed.

Lemma image_scan_lines prev pre s :
  at_bol MULTILINE prev = true ->
  Forall (fun l => no_LF l = true /\ String.prefix "@image" l = false) pre ->
  exists prev', at_bol MULTILINE prev' = true /\ image_scan prev (line_block pre +:+ s) = image_scan prev' s.
Proof.
  intros Hb Hpre. revert prev Hb. induction Hpre as [|l pre [Hl Hp] _ IH]; intros prev Hb.
  - by exists prev.
  - rewrite line_block_cons, <- str_app_assoc, str_app_cons.
    rewrite image_scan_skip by done. by apply IH.
Qed.

(** C19 A block whose first line starting with [@image] is [@image], a run
    of whitespace (which may cross line breaks) and a prompt [p] that ends
    its line yields [(p.strip(), images/question<idx>.png)]. *)
Theorem image_entry_line idx pre w p rest :
  Forall (fun l => no_LF l = true /\ String.prefix "@image" l = false) pre ->
  image_line_ok w p rest ->
  image_entry idx (line_block pre +:+ ("@image" +:+ w +:+ p +:+ rest)) =
  (Some (strip p), Some ("images/question" +:+ str_of_nat idx +:+ ".png")).
Proof.
  intros Hpre Hok. rewrite image_entry_scan_core.
  destruct (image_scan_lines None pre ("@image" +:+ w +:+ p +:+ rest) eq_refl Hpre) as (prev & Hb & ->).
  rewrite image_scan_eq, Hb, image_at_line by done. reflexivity.
Qed.

(** ** Blocks without an [@image] line *)

Lemma strip_prefix_prefix fl p s r :
  ignorecase fl = false -> strip_prefix fl p s = Some r -> String.prefix p s = true.
Proof.
  intros Hfl. revert s. induction p as [|a p IH]; intros [|b s] H; try done.
  cbn [strip_prefix] in H. unfold cls_match in H. rewrite Hfl in H.
  destruct (Ascii.eqb_spec b a) as [->|]; [|discriminate]. simpl.
  destruct (ascii_dec a a); [eauto|congruence].
Qed.

Lemma image_scan_none prev s : contains "@image" s = false -> image_scan prev s = None.
Proof.
  revert prev. induction s as [|c s IH]; intros prev H; rewrite image_scan_eq.
  - by destruct (at_bol MULTILINE prev).
  - cbn [contains] in H. apply orb_false_iff in H as [Hp Hs].
    assert (Ha : image_at (String c s) = None).
    { unfold image_at. destruct (strip_prefix MULTILINE "@image" (String c s)) eqn:E; [|done].
      apply strip_prefix_prefix in E; [congruence|done]. }
    rewrite Ha. destruct (at_bol MULTILINE prev); auto.
Qed.

(** A block in which [@image] does not occur (in particular one with
    [@Image] in another case, or with no image line) yields [(None, None)]. *)
Theorem image_entry_none idx raw_q :
  contains "@image" raw_q = false -> image_entry idx raw_q = (None, None).
Proof. intros H. by rewrite image_entry_scan_core, image_scan_none. Qed.

(** ** Witnesses *)

Definition nl : string := String LF EmptyString.

Definition red_circle : string := "@title Circles" +:+ nl +:+ "@image draw a red circle" +:+ nl +:+ "@option 4".

Lemma extract_image_prompts_spec_witness :
  ["@option 1"; "plain text"; red_circle] !! 2 = Some red_circle /\
  extract_image_prompts ["@option 1"; "plain text"; red_circle] !! 2 =
    Some (Some "draw a red circle", Some "images/question3.png").
Proof.
  assert (H : ["@option 1"; "plain text"; red_circle] !! 2 = Some red_circle) by reflexivity.
  split; [exact H|].
  rewrite (proj2 (extract_image_prompts_spec _) 2 red_circle H). vm_compute. reflexivity.
Defined.

Lemma image_entry_line_witness :
  Forall (fun l => no_LF l = true /\ String.prefix "@image" l = false) ["@title Circles"] /\
  image_line_ok " " "draw a red circle" (String LF "@option 4") /\
  image_entry 3 (line_block ["@title Circles"] +:+ ("@image" +:+ " " +:+ "draw a red circle" +:+ String LF "@option 4"))
  = (Some "draw a red circle", Some "images/question3.png") /\
  (* an [@image] line with nothing after the tag takes its prompt from the next line *)
  image_line_ok nl "a triangle" "" /\
  image_entry 1 (line_block [] +:+ ("@image" +:+ nl +:+ "a triangle" +:+ ""))
  = (Some "a triangle", Some "images/question1.png").
Proof.
  assert (H1 : Forall (fun l => no_LF l = true /\ String.prefix "@image" l = false) ["@title Circles"])
    by (repeat constructor).
  assert (H2 : image_line_ok " " "draw a red circle" (String LF "@option 4")).
  { repeat split; try discriminate. right. by eexists. }
  assert (H3 : Forall (fun l => no_LF l = true /\ String.prefix "@image" l = false) (@nil string))
    by constructor.
  assert (H4 : image_line_ok nl "a triangle" "") by (repeat split; try discriminate; by left).
  split; [exact H1|]. split; [exact H2|]. split.
  { rewrite (image_entry_line 3 _ _ _ _ H1 H2). vm_compute. reflexivity. }
  split; [exact H4|].
  rewrite (image_entry_line 1 _ _ _ _ H3 H4). vm_compute. reflexivity.
Defined.

Lemma image_entry_none_witness :
  contains "@image" ("@Image a red circle" +:+ nl +:+ "@option 1") = false /\
  image_entry 2 ("@Image a red circle" +:+ nl +:+ "@option 1") = (None, None).
Proof.
  assert (H : contains "@image" ("@Image a red circle" +:+ nl +:+ "@option 1") = false)
    by (vm_compute; reflexivity).
  split; [exact H|]. exact (image_entry_none 2 _ H).
Defined.
End Image.
