(* ===== verification/Base64.v ===== *)
(** * [base64.b64decode] as called by [create_image]

    [src/src/generate_images.py] decodes the image payload with
    [base64.b64decode(b64_image)] (no [validate]): the [str] argument must
    be ASCII ([ValueError] otherwise), and the bytes go to CPython's
    [binascii.a2b_base64] in non-strict mode (CPython 3.11 and later), a
    loop over the characters with a state of four variables:
    - [quad_pos], the position in the current group of four characters;
    - [leftchar], the bits of the group not yet written;
    - [pads], the number of [=] seen since the last data character;
    - the bytes written so far.
    A character outside the alphabet is skipped; a data character
    completes one output byte from the second character of a group on
    ([leftchar << 2 | v >> 4], [leftchar << 4 | v >> 2],
    [leftchar << 6 | v], each stored in an unsigned char); [=] after at
    least two data characters of a group ends decoding once the group is
    complete ([goto done]); at the end of the input, a group of one data
    character raises [ValueError] (one more than a multiple of four) and
    an incomplete group of two or three raises [ValueError] (incorrect
    padding).

    The encoder [b64encode] (RFC 4648 with padding, what the endpoint is
    specified to send) is stated only to prove the round trip.

    Theorems: text after the pad characters that complete the last
    group is ignored ([b64decode_trailing]);
    characters outside the alphabet are ignored ([b64decode_skips]);
    decoding inverts padded encoding ([b64decode_encode]). *)
From S2P Require Import Prelude PyStr.
From Stdlib Require Import ZArith Lia.

Module B64.

Open Scope Z_scope.

(** ** The alphabet *)

(** [table_a2b_base64]: the value of a character, 255 outside the
    alphabet. *)
Definition table_a2b (c : ascii) : Z :=
  let n := Z.of_nat (nat_of_ascii c) in
  if (65 <=? n) && (n <=? 90) then n - 65
  else if (97 <=? n) && (n <=? 122) then n - 71
  else if (48 <=? n) && (n <=? 57) then n + 4
  else if n =? 43 then 62
  else if n =? 47 then 63
  else 255.

Definition PAD : ascii := "=".

(** ** Decoder *)

Definition unsigned_char (z : Z) : Z := Z.land z 255.

(** One iteration of the [for] loop of [a2b_base64] on a data character of
    value [v]: the new [quad_pos], [leftchar] and the byte written, if any. *)
Definition data_step (quad_pos : nat) (leftchar v : Z) : nat * Z * option Z :=
  match quad_pos with
  | O => (1%nat, v, None)
  | 1%nat => (2%nat, Z.land v 15, Some (unsigned_char (Z.lor (Z.shiftl leftchar 2) (Z.shiftr v 4))))
  | 2%nat => (3%nat, Z.land v 3, Some (unsigned_char (Z.lor (Z.shiftl leftchar 4) (Z.shiftr v 2))))
  | _ => (0%nat, 0, Some (unsigned_char (Z.lor (Z.shiftl leftchar 6) v)))
  end.

Definition err_one_more : PyExc :=
  ValueError "Invalid base64-encoded string: number of data characters cannot be 1 more than a multiple of 4".
Definition err_padding : PyExc := ValueError "Incorrect padding".
Definition err_non_ascii : PyExc := ValueError "string argument should contain only ASCII characters".

(** The loop; [out] holds the bytes written, last first. *)
Fixpoint a2b_loop (s : string) (quad_pos : nat) (leftchar pads : Z) (out : list Z)
    : PyResult (list Z) :=
  match s with
  | EmptyString =>
      match quad_pos with
      | O => POk (rev out)
      | 1%nat => PRaise err_one_more
      | _ => PRaise err_padding
      end
  | String c s' =>
      if Ascii.eqb c PAD then
        if (2 <=? quad_pos)%nat then
          let pads' := pads + 1 in
          if 4 <=? Z.of_nat quad_pos + pads' then POk (rev out)
          else a2b_loop s' quad_pos leftchar pads' out
        else a2b_loop s' quad_pos leftchar pads out
      else
        let v := table_a2b c in
        if 64 <=? v then a2b_loop s' quad_pos leftchar pads out
        else
          let '(qp', lc', byte) := data_step quad_pos leftchar v in
          a2b_loop s' qp' lc' 0 (match byte with Some b => b :: out | None => out end)
  end.

(** [binascii.a2b_base64(s, strict_mode=False)] *)
Definition a2b_base64 (s : string) : PyResult (list Z) := a2b_loop s 0 0 0 [].

Definition is_ascii (c : ascii) : bool := Nat.ltb (nat_of_ascii c) 128.

(** [base64.b64decode(s)] for a [str] argument: [_bytes_from_decode_data]
    encodes it as ASCII first, which raises on a character above 127. *)
Definition b64decode (s : string) : PyResult (list Z) :=
  if str_forall is_ascii s then a2b_base64 s
  else PRaise err_non_ascii.

(** ** Encoder (RFC 4648, padded) *)

Definition enc (v : Z) : string := String (ascii_of_nat (Z.to_nat (
  if v <? 26 then v + 65 else if v <? 52 then v + 71 else if v <? 62 then v - 4
  else if v =? 62 then 43 else 47))) EmptyString.

Fixpoint b64encode (bs : list Z) : string :=
  match bs with
  | [] => EmptyString
  | [b0] =>
      enc (Z.shiftr b0 2) +:+ enc (Z.shiftl (Z.land b0 3) 4) +:+ "=="
  | [b0; b1] =>
      enc (Z.shiftr b0 2) +:+ enc (Z.lor (Z.shiftl (Z.land b0 3) 4) (Z.shiftr b1 4))
      +:+ enc (Z.shiftl (Z.land b1 15) 2) +:+ "="
  | b0 :: b1 :: b2 :: rest =>
      enc (Z.shiftr b0 2) +:+ enc (Z.lor (Z.shiftl (Z.land b0 3) 4) (Z.shiftr b1 4))
      +:+ enc (Z.lor (Z.shiftl (Z.land b1 15) 2) (Z.shiftr b2 6)) +:+ enc (Z.land b2 63)
      +:+ b64encode rest
  end.

Example b64_examples :
  b64decode "aGVsbG8=" = POk [104; 101; 108; 108; 111] /\
  b64decode "aGVsbG8" = PRaise err_padding /\
  b64decode "aGVs
bG8=" = POk [104; 101; 108; 108; 111] /\
  b64decode "a" = PRaise err_one_more /\
  b64encode [104; 101; 108; 108; 111] = "aGVsbG8=".
Proof. repeat split; reflexivity. Qed.


(** ** Bit arithmetic *)

Lemma lor_disjoint_add a b k :
  0 <= k -> 0 <= b < 2 ^ k -> Z.lor (a * 2 ^ k) b = a * 2 ^ k + b.
Proof.
  intros Hk Hb. rewrite <- Z.add_nocarry_lor; [done|].
  apply Z.bits_inj'. intros i Hi. rewrite Z.land_spec, Z.bits_0.
  destruct (Z.lt_ge_cases i k) as [Hlt|Hge].
  - by rewrite Z.mul_pow2_bits_low.
  - rewrite <- (Z.mod_small b (2 ^ k)) by lia. rewrite Z.mod_pow2_bits_high by lia.
    apply andb_false_r.
Qed.

Lemma land_mod a k : 0 <= k -> Z.land a (2 ^ k - 1) = a mod 2 ^ k.
Proof. intros Hk. replace (2 ^ k - 1) with (Z.ones k) by (rewrite Z.ones_equiv; lia). by apply Z.land_ones. Qed.

Lemma unsigned_char_mod z : unsigned_char z = z mod 256.
Proof. unfold unsigned_char. change 255 with (2 ^ 8 - 1). by apply land_mod. Qed.

Ltac to_arith :=
  repeat first
    [ rewrite Z.shiftr_div_pow2 by lia
    | rewrite Z.shiftl_mul_pow2 by lia
    | rewrite (land_mod _ 2) by lia
    | change 3 with (2 ^ 2 - 1)
    | change 15 with (2 ^ 4 - 1)
    | change 63 with (2 ^ 6 - 1)
    | rewrite (land_mod _ 4) by lia
    | rewrite (land_mod _ 6) by lia
    | rewrite unsigned_char_mod ].

(** ** Bytes *)

(** A value an unsigned char holds. *)
Definition byte_range (b : Z) : Prop := 0 <= b < 256.

(** ** Characters outside the alphabet are skipped *)

Definition kept (c : ascii) : bool := Ascii.eqb c PAD || (table_a2b c <? 64).

Fixpoint str_filter (p : ascii -> bool) (s : string) : string :=
  match s with
  | EmptyString => EmptyString
  | String c s' => if p c then String c (str_filter p s') else str_filter p s'
  end.

Lemma a2b_loop_filter s qp lc pads out :
  a2b_loop (str_filter kept s) qp lc pads out = a2b_loop s qp lc pads out.
Proof.
  revert qp lc pads out. induction s as [|c s IH]; intros qp lc pads out; [done|].
  cbn [str_filter]. destruct (kept c) eqn:Ek; cbn [a2b_loop].
  - repeat case_match; auto.
  - unfold kept in Ek. apply orb_false_iff in Ek as [Ep Et]. rewrite Ep.
    apply Z.ltb_ge in Et. destruct (64 <=? table_a2b c) eqn:E64; [auto|].
    apply Z.leb_gt in E64. lia.
Qed.

(** C22 [b64decode] ignores every character that is neither in the base64
    alphabet nor [=] (line breaks and spaces inside the payload, for
    instance): decoding an ASCII string gives the result of decoding the
    string with those characters removed. *)
Theorem b64decode_skips s :
  str_forall is_ascii s = true ->
  b64decode s = b64decode (str_filter kept s).
Proof.
  intros Hs. unfold b64decode, a2b_base64. rewrite Hs, a2b_loop_filter.
  assert (Hf : str_forall is_ascii (str_filter kept s) = true).
  { clear -Hs. induction s as [|c s IH]; [done|]. simpl in Hs. apply andb_prop in Hs as [Hc Hs].
    simpl. destruct (kept c); simpl; rewrite ?Hc; auto. }
  by rewrite Hf.
Qed.

(** ** Round trip *)

Definition enc_ok (v : Z) : bool :=
  match enc v with
  | String ch EmptyString =>
      (table_a2b ch =? v) && negb (Ascii.eqb ch PAD) && is_ascii ch
  | _ => false
  end.

Lemma enc_ok_all : forallb (fun n => enc_ok (Z.of_nat n)) (seq 0 64) = true.
Proof. vm_compute. reflexivity. Qed.

Lemma enc_spec v :
  0 <= v < 64 ->
  exists ch, enc v = String ch EmptyString /\ table_a2b ch = v /\ Ascii.eqb ch PAD = false /\
             is_ascii ch = true.
Proof.
  intros Hv. assert (Hok : enc_ok v = true).
  { replace v with (Z.of_nat (Z.to_nat v)) by lia.
    pose proof (proj1 (forallb_forall _ _) enc_ok_all (Z.to_nat v)) as Hf.
    apply Hf, in_seq. lia. }
  unfold enc_ok in Hok. destruct (enc v) as [|ch [|]]; try discriminate.
  apply andb_prop in Hok as [Hok Ha]. apply andb_prop in Hok as [Ht Hp].
  exists ch. repeat split; auto; [by apply Z.eqb_eq|by apply negb_true_iff].
Qed.

Lemma a2b_enc v s qp lc pads out :
  0 <= v < 64 ->
  a2b_loop (enc v +:+ s) qp lc pads out =
  let '(qp', lc', byte) := data_step qp lc v in
  a2b_loop s qp' lc' 0 (match byte with Some b => b :: out | None => out end).
Proof.
  intros Hv. destruct (enc_spec v Hv) as (ch & -> & Ht & Hp & _).
  rewrite str_app_cons, str_app_nil. cbn [a2b_loop]. rewrite Hp, Ht.
  destruct (64 <=? v) eqn:E; [apply Z.leb_le in E; lia|]. reflexivity.
Qed.

Lemma lor_shiftl_add a b k :
  0 <= k -> 0 <= b < 2 ^ k -> Z.lor (Z.shiftl a k) b = a * 2 ^ k + b.
Proof. intros Hk Hb. rewrite Z.shiftl_mul_pow2 by done. by apply lor_disjoint_add. Qed.

Ltac arith_bound :=
  rewrite ?Z.shiftr_div_pow2, ?land_mod by lia;
  Z.div_mod_to_equations; lia.

Section Group.
Context (b0 b1 b2 : Z) (H0 : 0 <= b0 < 256) (H1 : 0 <= b1 < 256) (H2 : 0 <= b2 < 256).

Definition c0 : Z := Z.shiftr b0 2.
Definition c1 : Z := Z.lor (Z.shiftl (Z.land b0 3) 4) (Z.shiftr b1 4).
Definition c2 : Z := Z.lor (Z.shiftl (Z.land b1 15) 2) (Z.shiftr b2 6).
Definition c3 : Z := Z.land b2 63.

Lemma c0_val : c0 = b0 / 4.
Proof. unfold c0. by rewrite Z.shiftr_div_pow2 by lia. Qed.

Lemma c1_val : c1 = (b0 mod 4) * 16 + b1 / 16.
Proof.
  unfold c1. change 3 with (2 ^ 2 - 1). rewrite land_mod, lor_shiftl_add by (lia || arith_bound).
  rewrite Z.shiftr_div_pow2 by lia. reflexivity.
Qed.

Lemma c2_val : c2 = (b1 mod 16) * 4 + b2 / 64.
Proof.
  unfold c2. change 15 with (2 ^ 4 - 1). rewrite land_mod, lor_shiftl_add by (lia || arith_bound).
  rewrite Z.shiftr_div_pow2 by lia. reflexivity.
Qed.

Lemma c3_val : c3 = b2 mod 64.
Proof. unfold c3. change 63 with (2 ^ 6 - 1). by rewrite land_mod by lia. Qed.

Lemma c_ranges : 0 <= c0 < 64 /\ 0 <= c1 < 64 /\ 0 <= c2 < 64 /\ 0 <= c3 < 64.
Proof.
  rewrite c0_val, c1_val, c2_val, c3_val.
  Z.div_mod_to_equations. lia.
Qed.

Lemma byte0 : unsigned_char (Z.lor (Z.shiftl c0 2) (Z.shiftr c1 4)) = b0.
Proof.
  rewrite lor_shiftl_add by (lia || (rewrite c1_val; arith_bound)).
  rewrite unsigned_char_mod, Z.shiftr_div_pow2, c0_val, c1_val by lia.
  Z.div_mod_to_equations. lia.
Qed.

Lemma byte1 : unsigned_char (Z.lor (Z.shiftl (Z.land c1 15) 4) (Z.shiftr c2 2)) = b1.
Proof.
  change 15 with (2 ^ 4 - 1).
  rewrite lor_shiftl_add by (lia || (rewrite c2_val; arith_bound)).
  rewrite unsigned_char_mod, land_mod, Z.shiftr_div_pow2, c1_val, c2_val by lia.
  Z.div_mod_to_equations. lia.
Qed.

Lemma byte2 : unsigned_char (Z.lor (Z.shiftl (Z.land c2 3) 6) c3) = b2.
Proof.
  change 3 with (2 ^ 2 - 1).
  rewrite lor_shiftl_add by (lia || (rewrite c3_val; arith_bound)).
  rewrite unsigned_char_mod, land_mod, c2_val, c3_val by lia.
  Z.div_mod_to_equations. lia.
Qed.

End Group.

Lemma c1_zero b0 : Z.shiftl (Z.land b0 3) 4 = c1 b0 0.
Proof. unfold c1. by rewrite Z.shiftr_0_l, Z.lor_0_r. Qed.

Lemma c2_zero b1 : Z.shiftl (Z.land b1 15) 2 = c2 b1 0.
Proof. unfold c2. by rewrite Z.shiftr_0_l, Z.lor_0_r. Qed.

Lemma byte_range_0 : byte_range 0.
Proof. unfold byte_range. lia. Qed.

Lemma enc_ascii v : 0 <= v < 64 -> str_forall is_ascii (enc v) = true.
Proof. intros Hv. destruct (enc_spec v Hv) as (ch & -> & _ & _ & Ha). simpl. by rewrite Ha. Qed.

(** Induction over the three-byte groups of the encoder. *)
Lemma triple_ind (P : list Z -> Prop) :
  P [] -> (forall b0, P [b0]) -> (forall b0 b1, P [b0; b1]) ->
  (forall b0 b1 b2 r, P r -> P (b0 :: b1 :: b2 :: r)) -> forall l, P l.
Proof.
  intros H0 H1 H2 H3. fix IH 1. intros [|b0 [|b1 [|b2 r]]]; [done..|]. apply H3, IH.
Qed.

Ltac forall_inv :=
  repeat match goal with H : Forall _ (_ :: _) |- _ => inversion_clear H end.

Lemma a2b_group b0 b1 b2 s lc pads out :
  byte_range b0 -> byte_range b1 -> byte_range b2 ->
  a2b_loop (enc (c0 b0) +:+ enc (c1 b0 b1) +:+ enc (c2 b1 b2) +:+ enc (c3 b2) +:+ s) 0 lc pads out =
  a2b_loop s 0 0 0 (b2 :: b1 :: b0 :: out).
Proof.
  intros H0 H1 H2. destruct (c_ranges b0 b1 b2 H0 H1 H2) as (R0 & R1 & R2 & R3).
  rewrite a2b_enc by done. cbn [data_step]. rewrite a2b_enc by done. cbn [data_step].
  rewrite a2b_enc by done. cbn [data_step]. rewrite a2b_enc by done. cbn [data_step].
  by rewrite (byte0 b0 b1 b2), (byte1 b0 b1 b2), (byte2 b0 b1 b2).
Qed.

Lemma a2b_encode bs lc pads out :
  Forall byte_range bs -> a2b_loop (b64encode bs) 0 lc pads out = POk (rev out ++ bs).
Proof.
  revert lc pads out. induction bs as [|b0|b0 b1|b0 b1 b2 r IH] using triple_ind;
    intros lc pads out Hbs; forall_inv.
  - cbn. by rewrite app_nil_r.
  - cbn [b64encode]. rewrite c1_zero. fold (c0 b0).
    destruct (c_ranges b0 0 0 H byte_range_0 byte_range_0) as (R0 & R1 & _ & _).
    rewrite a2b_enc by done. cbn [data_step]. rewrite a2b_enc by done. cbn [data_step].
    rewrite (byte0 b0 0 0) by (done || apply byte_range_0). cbn. by rewrite <- ?app_assoc.
  - cbn [b64encode]. rewrite c2_zero. fold (c0 b0) (c1 b0 b1).
    destruct (c_ranges b0 b1 0 H H1 byte_range_0) as (R0 & R1 & R2 & _).
    do 3 (rewrite a2b_enc by done; cbn [data_step]).
    rewrite (byte0 b0 b1 0), (byte1 b0 b1 0) by (done || apply byte_range_0).
    cbn. by rewrite <- ?app_assoc.
  - cbn [b64encode]. fold (c0 b0) (c1 b0 b1) (c2 b1 b2) (c3 b2).
    rewrite a2b_group, IH by done. cbn. by rewrite <- ?app_assoc.
Qed.

Lemma b64encode_ascii bs : Forall byte_range bs -> str_forall is_ascii (b64encode bs) = true.
Proof.
  induction bs as [|b0|b0 b1|b0 b1 b2 r IH] using triple_ind; intros Hbs; forall_inv; [done|..];
    cbn [b64encode]; rewrite ?str_forall_app.
  - destruct (c_ranges b0 0 0) as (? & ? & _ & _); [done | lia..|].
    rewrite c1_zero. fold (c0 b0). by rewrite !enc_ascii.
  - destruct (c_ranges b0 b1 0) as (? & ? & ? & _); [done..| lia |].
    rewrite c2_zero. fold (c0 b0) (c1 b0 b1). by rewrite !enc_ascii.
  - destruct (c_ranges b0 b1 b2) as (? & ? & ? & ?); [done..|].
    fold (c0 b0) (c1 b0 b1) (c2 b1 b2) (c3 b2). by rewrite !enc_ascii, IH.
Qed.

(** C20 Round trip: decoding the padded base64 text of a byte sequence
    gives the sequence back. *)
Theorem b64decode_encode bs : Forall byte_range bs -> b64decode (b64encode bs) = POk bs.
Proof.
  intros Hbs. unfold b64decode, a2b_base64. rewrite b64encode_ascii by done.
  by rewrite a2b_encode.
Qed.

(** A padded encoding followed by any text: the pad characters that
    complete the last group end decoding ([goto done]), and what follows
    is never read. *)
Lemma a2b_encode_app bs s lc pads out :
  Forall byte_range bs -> (length bs mod 3 <> 0)%nat ->
  a2b_loop (b64encode bs +:+ s) 0 lc pads out = POk (rev out ++ bs).
Proof.
  revert lc pads out. induction bs as [|b0|b0 b1|b0 b1 b2 r IH] using triple_ind;
    intros lc pads out Hbs Hm; forall_inv; [done| | |].
  - cbn [b64encode]. rewrite c1_zero. fold (c0 b0).
    destruct (c_ranges b0 0 0 H byte_range_0 byte_range_0) as (R0 & R1 & _ & _).
    rewrite <- !str_app_assoc, a2b_enc by done. cbn [data_step]. rewrite a2b_enc by done.
    cbn [data_step]. rewrite (byte0 b0 0 0) by (done || apply byte_range_0).
    rewrite !str_app_cons, str_app_nil. cbn. by rewrite <- ?app_assoc.
  - cbn [b64encode]. rewrite c2_zero. fold (c0 b0) (c1 b0 b1).
    destruct (c_ranges b0 b1 0 H H1 byte_range_0) as (R0 & R1 & R2 & _).
    rewrite <- !str_app_assoc. do 3 (rewrite a2b_enc by done; cbn [data_step]).
    rewrite (byte0 b0 b1 0), (byte1 b0 b1 0) by (done || apply byte_range_0).
    rewrite !str_app_cons, str_app_nil. cbn. by rewrite <- ?app_assoc.
  - cbn [b64encode]. fold (c0 b0) (c1 b0 b1) (c2 b1 b2) (c3 b2).
    rewrite <- !str_app_assoc, a2b_group by done.
    assert (Hr : (length r mod 3 <> 0)%nat).
    { cbn [length] in Hm. replace (S (S (S (length r)))) with (length r + 1 * 3)%nat in Hm by lia.
      by rewrite Nat.mod_add in Hm by lia. }
    rewrite IH by done.
    cbn. by rewrite <- !app_assoc.
Qed.

(** C21 Trailing text after the padding is ignored: when the last group
    of a payload is padded (its length is not a multiple of three),
    [b64decode] returns the payload's bytes whatever ASCII text follows
    the padding, without an error, since the non-strict decoder stops
    at the pad characters that complete the group. *)
Theorem b64decode_trailing bs s :
  Forall byte_range bs -> (length bs mod 3 <> 0)%nat -> str_forall is_ascii s = true ->
  b64decode (b64encode bs +:+ s) = POk bs.
Proof.
  intros Hbs Hm Hs. unfold b64decode, a2b_base64.
  rewrite str_forall_app, b64encode_ascii, Hs by done. by rewrite a2b_encode_app.
Qed.

(** ** Witnesses *)

Definition hello : list Z := [104; 101; 108; 108; 111].

Lemma b64decode_skips_witness :
  str_forall is_ascii "aGVs
bG8= " = true /\
  b64decode "aGVs
bG8= " = b64decode "aGVsbG8=".
Proof.
  split; [reflexivity|]. rewrite (b64decode_skips "aGVs
bG8= "); reflexivity.
Defined.

Lemma b64decode_encode_witness :
  Forall byte_range hello /\ b64decode (b64encode hello) = POk hello.
Proof.
  assert (Hr : Forall byte_range hello) by (repeat constructor; lia).
  split; [exact Hr|]. exact (b64decode_encode hello Hr).
Defined.
(** [aGVsbG8=] then [Zm9v], the encoding of [foo]: only [hello] comes
    out. *)
Lemma b64decode_trailing_witness :
  Forall byte_range hello /\ (length hello mod 3 <> 0)%nat /\ str_forall is_ascii "Zm9v" = true /\
  b64decode (b64encode hello +:+ "Zm9v") = POk hello.
Proof.
  assert (Hb : Forall byte_range hello) by (repeat constructor; lia).
  assert (Hm : (length hello mod 3 <> 0)%nat) by (vm_compute; discriminate).
  assert (Hs : str_forall is_ascii "Zm9v" = true) by reflexivity.
  refine (conj Hb (conj Hm (conj Hs _))). exact (b64decode_trailing hello "Zm9v" Hb Hm Hs).
Defined.

End B64.
