(* ===== verification/RetryClient.v ===== *)
(** * The image client: [create_image] of [src/src/generate_images.py]

    [create_image(prompt, save_path, max_retries=3, timeout=10)] builds
    the request (URL from [IMAGE_MODEL], bearer header from
    [GEMINI_API_KEY], width and height parsed from [IMAGE_SIZE]), then
    runs [for attempt in range(1, max_retries + 1)]: a [try] block posts
    the request, checks the status and the shape of the JSON body,
    base64-decodes the payload, writes it to [save_path], prints and
    [break]s; the [except (RequestException, ValueError)] handler prints
    the failure and either sleeps two seconds (when [attempt < max_retries])
    or prints that every attempt failed.  Any other exception leaves the
    function.

    - [Json] is what [response.json()] returns; the Python operations the
      code applies to it ([in], [[key]], [[0]], [.get], truth value) are
      functions that raise the [TypeError], [KeyError] or [AttributeError]
      Python raises on the other shapes.
    - [Network] is the interface to the outside world: the outcome of the
      [n]-th [requests.post] and whether [open(path, "wb")] succeeds.
    - The state is a [World]: the events the code produces, in order
      (posts, prints, sleeps, file writes), and the files written.  [M] is
      a state and exception monad over it: an exception keeps the events
      emitted before it. *)
From S2P Require Import Prelude PyStr Base64.
From Stdlib Require Import ZArith Lia.

Module Retry.

Open Scope Z_scope.
Open Scope py_scope.

(** ** JSON values and the Python operations on them *)

(** A decoded JSON document.  A number is kept by its value; the code only
    asks for its truth value and gets [TypeError] from every other
    operation, which holds of floats as well. *)
Inductive Json :=
| JNull
| JBool (b : bool)
| JNum (z : Z)
| JStr (s : string)
| JArr (l : list Json)
| JObj (kvs : list (string * Json)).

(** [json.loads] keeps the last value of a repeated key. *)
Fixpoint obj_lookup (k : string) (kvs : list (string * Json)) : option Json :=
  match kvs with
  | [] => None
  | (k', v) :: r =>
      match obj_lookup k r with
      | Some v' => Some v'
      | None => if String.eqb k k' then Some v else None
      end
  end.

(** [bool(v)] *)
Definition truthy (v : Json) : bool :=
  match v with
  | JNull => false
  | JBool b => b
  | JNum z => negb (z =? 0)
  | JStr s => negb (String.eqb s "")
  | JArr l => negb (length l =? 0)%nat
  | JObj kvs => negb (length kvs =? 0)%nat
  end.

Definition type_name (v : Json) : string :=
  match v with
  | JNull => "NoneType" | JBool _ => "bool" | JNum _ => "int"
  | JStr _ => "str" | JArr _ => "list" | JObj _ => "dict"
  end.

(** [k in v] for a string [k] *)
Definition py_in (k : string) (v : Json) : PyResult bool :=
  match v with
  | JObj kvs => POk (existsb (fun kv => String.eqb kv.1 k) kvs)
  | JArr l => POk (existsb (fun x => match x with JStr s => String.eqb s k | _ => false end) l)
  | JStr s => POk (contains k s)
  | _ => PRaise (TypeError ("argument of type '" +:+ type_name v +:+ "' is not iterable"))
  end.

(** [v[k]] for a string [k] *)
Definition getitem_str (v : Json) (k : string) : PyResult Json :=
  match v with
  | JObj kvs => match obj_lookup k kvs with Some x => POk x | None => PRaise (KeyError k) end
  | JArr _ => PRaise (TypeError "list indices must be integers or slices, not str")
  | JStr _ => PRaise (TypeError "string indices must be integers, not 'str'")
  | _ => PRaise (TypeError ("'" +:+ type_name v +:+ "' object is not subscriptable"))
  end.

(** [v[0]]; a JSON object has string keys only. *)
Definition getitem_0 (v : Json) : PyResult Json :=
  match v with
  | JArr (x :: _) => POk x
  | JArr [] => PRaise (IndexError "list index out of range")
  | JStr (String c _) => POk (JStr (String c EmptyString))
  | JStr EmptyString => PRaise (IndexError "string index out of range")
  | JObj _ => PRaise (KeyError "0")
  | _ => PRaise (TypeError ("'" +:+ type_name v +:+ "' object is not subscriptable"))
  end.

(** [v.get(k)] *)
Definition py_get (v : Json) (k : string) : PyResult Json :=
  match v with
  | JObj kvs => POk (default JNull (obj_lookup k kvs))
  | _ => PRaise (AttributeError ("'" +:+ type_name v +:+ "' object has no attribute 'get'"))
  end.

(** [base64.b64decode(v)]: a non-string argument raises [TypeError]. *)
Definition b64decode_json (v : Json) : PyResult (list Z) :=
  match v with
  | JStr s => B64.b64decode s
  | _ => PRaise (TypeError ("argument should be a bytes-like object or ASCII string, not '"
                            +:+ type_name v +:+ "'"))
  end.

(** ** Requests and responses *)

Record Request := mkRequest {
  req_url : string;
  req_headers : list (string * string);
  req_json : Json;
  req_timeout : Z
}.

Record Response := mkResponse {
  status_code : Z;
  body : option Json   (** [None]: the body is not valid JSON *)
}.

(** What [requests.post] does: raise a [RequestException] (connection
    error, timeout) or return a response. *)
Inductive PostOutcome :=
| Transport (msg : string)
| Resp (r : Response).

(** [response.raise_for_status()] *)
Definition raise_for_status (r : Response) : PyResult unit :=
  if (400 <=? status_code r) && (status_code r <? 600)
  then PRaise (RequestException "HTTPError") else POk tt.

(** [response.json()]: [requests.exceptions.JSONDecodeError] is a
    [ValueError]. *)
Definition response_json (r : Response) : PyResult Json :=
  match body r with
  | Some j => POk j
  | None => PRaise (ValueError "JSONDecodeError")
  end.

(** [if not b: raise e] *)
Definition py_assert (b : bool) (e : PyExc) : PyResult unit := if b then POk tt else PRaise e.

Definition no_results : PyExc := ValueError "No results in response JSON.".
Definition no_bytes : PyExc := ValueError "Image bytes not found in response.".

(** Lines 35-49: from the outcome of the post to the decoded bytes. *)
Definition decode_response (o : PostOutcome) : PyResult (list Z) :=
  match o with
  | Transport msg => PRaise (RequestException msg)
  | Resp r =>
      _ ← raise_for_status r;
      data ← response_json r;
      has ← py_in "results" data;
      _ ← py_assert has no_results;
      results ← getitem_str data "results";
      _ ← py_assert (truthy results) no_results;
      first ← getitem_0 results;
      image_info ← py_get first "image";
      has_bytes ← (if truthy image_info then py_in "imageBytes" image_info else POk false);
      _ ← py_assert has_bytes no_bytes;
      b64_image ← getitem_str image_info "imageBytes";
      b64decode_json b64_image
  end.


(** ** Configuration: [src/src/config.py] *)

Record Config := mkConfig {
  GEMINI_API_KEY : string;
  IMAGE_MODEL : string;
  IMAGE_SIZE : string
}.

(** Importing [src.config]: [os.getenv("GEMINI_API_KEY", "")], the two
    constants, and the [ValueError] raised at import time when the key is
    empty. *)
Definition load_config (env_key : option string) : PyResult Config :=
  let key := default "" env_key in
  if String.eqb key "" then
    PRaise (ValueError "GEMINI_API_KEY is missing from .env file or environment variables.")
  else POk (mkConfig key "models/gemini-1.5-pro" "512x512").

(** Line 22: [width, height = map(int, IMAGE_SIZE.lower().split('x'))].
    Unpacking pulls the converted pieces in order and then checks that
    there is no third one, converting it if there is. *)
Definition parse_size (size : string) : PyResult (Z * Z) :=
  match split "x" (lower size) with
  | [] => PRaise (ValueError "not enough values to unpack (expected 2, got 0)")
  | [p1] => _ ← py_int p1; PRaise (ValueError "not enough values to unpack (expected 2, got 1)")
  | p1 :: p2 :: rest =>
      width ← py_int p1;
      height ← py_int p2;
      match rest with
      | [] => POk (width, height)
      | p3 :: _ => _ ← py_int p3; PRaise (ValueError "too many values to unpack (expected 2)")
      end
  end.

(** Lines 17-31: the request. *)
Definition image_url (cfg : Config) : string :=
  "https://api.generative.googleapis.com/v1beta2/models/" +:+ IMAGE_MODEL cfg +:+ ":generateImage".

Definition image_headers (cfg : Config) : list (string * string) :=
  [("Authorization", "Bearer " +:+ GEMINI_API_KEY cfg); ("Content-Type", "application/json")].

Definition json_data (prompt : string) (width height : Z) : Json :=
  JObj [("prompt", JStr prompt);
        ("imageConfig", JObj [("height", JNum height); ("width", JNum width)]);
        ("candidateCount", JNum 1)].

Definition image_request (cfg : Config) (prompt : string) (width height timeout : Z) : Request :=
  mkRequest (image_url cfg) (image_headers cfg) (json_data prompt width height) timeout.

(** ** Effects *)

(** What the code does to the outside world, in order.  The printed
    messages are kept by their arguments:
    [ESaved p] is [print(f"... Image saved: {save_path}")],
    [EFailed a p e] is [print(f"... Attempt {attempt} - Image generation failed for {save_path}: {e}")],
    [ERetrying] is [print(f"... Retrying in 2 seconds...")],
    [EAllFailed m p] is [print(f"... All {max_retries} attempts failed. Skipping image: {save_path}")]. *)
Inductive Event :=
| EPost (r : Request)
| EWrite (path : string) (data : list Z)
| ESaved (path : string)
| EFailed (attempt : Z) (path : string) (e : PyExc)
| ERetrying
| ESleep (secs : Z)
| EAllFailed (max_retries : Z) (path : string).

Record World := mkWorld {
  events : list Event;
  files : gmap string (list Z)
}.

(** The outside world the client talks to: the outcome of posting a
    request at a given attempt, and whether [open(path, "wb")] succeeds. *)
Class Network := {
  post_outcome : Request -> Z -> PostOutcome;
  can_open : string -> bool
}.

(** [except (requests.exceptions.RequestException, ValueError)] *)
Definition caught (e : PyExc) : bool :=
  match e with RequestException _ | ValueError _ => true | _ => false end.

(** [range(a, b)] *)
Definition py_range (a b : Z) : list Z :=
  map (fun i => a + Z.of_nat i) (seq 0 (Z.to_nat (b - a))).

Section Client.
Context `{Network}.

Definition emit (ev : Event) : SE World unit :=
  se_modify (fun w => mkWorld (events w ++ [ev]) (files w)).

(** [requests.post(url, headers=headers, json=json_data, timeout=timeout)] *)
Definition post (req : Request) (attempt : Z) : SE World PostOutcome :=
  let* _ := emit (EPost req) in se_ret (post_outcome req attempt).

(** [with open(save_path, "wb") as f: f.write(image_bytes)] *)
Definition write_file (path : string) (data : list Z) : SE World unit :=
  if can_open path then
    se_modify (fun w => mkWorld (events w ++ [EWrite path data]) (<[path := data]> (files w)))
  else se_raise (OSError ("No such file or directory: '" +:+ path +:+ "'")).

(** Lines 35-55: the [try] block of one attempt. *)
Definition attempt_try (req : Request) (save_path : string) (attempt : Z) : SE World unit :=
  let* o := post req attempt in
  let* image_bytes := se_lift (decode_response o) in
  let* _ := write_file save_path image_bytes in
  emit (ESaved save_path).

(** Lines 57-63: the handler. *)
Definition on_failure (max_retries attempt : Z) (save_path : string) (e : PyExc) : SE World unit :=
  let* _ := emit (EFailed attempt save_path e) in
  if attempt <? max_retries then let* _ := emit ERetrying in emit (ESleep 2)
  else emit (EAllFailed max_retries save_path).

(** Lines 33-63: the loop; an attempt returns [true] when it [break]s. *)
Fixpoint retry_loop (req : Request) (save_path : string) (max_retries : Z) (attempts : list Z)
    : SE World unit :=
  match attempts with
  | [] => se_ret tt
  | attempt :: rest =>
      let* brk := se_try (let* _ := attempt_try req save_path attempt in se_ret true) caught
                    (fun e => let* _ := on_failure max_retries attempt save_path e in se_ret false) in
      if brk then se_ret tt else retry_loop req save_path max_retries rest
  end.

(** [create_image(prompt, save_path, max_retries, timeout)] *)
Definition create_image (cfg : Config) (prompt save_path : string) (max_retries timeout : Z)
    : SE World unit :=
  let* size := se_lift (parse_size (IMAGE_SIZE cfg)) in
  let req := image_request cfg prompt size.1 size.2 timeout in
  retry_loop req save_path max_retries (py_range 1 (max_retries + 1)).

End Client.

(** ** The loop, attempt by attempt *)

Section Run.
Context `{Network}.

(** What one attempt yields: the decoded bytes, or the exception of the
    response handling or of [open]. *)
Definition attempt_result (req : Request) (save_path : string) (attempt : Z) : PyResult (list Z) :=
  match decode_response (post_outcome req attempt) with
  | POk bs => if can_open save_path then POk bs
              else PRaise (OSError ("No such file or directory: '" +:+ save_path +:+ "'"))
  | PRaise e => PRaise e
  end.

Definition fail_events (max_retries attempt : Z) (save_path : string) (e : PyExc) : list Event :=
  EFailed attempt save_path e ::
  (if attempt <? max_retries then [ERetrying; ESleep 2] else [EAllFailed max_retries save_path]).

(** The events of the loop over [attempts]. *)
Fixpoint loop_events (req : Request) (save_path : string) (max_retries : Z) (attempts : list Z)
    : list Event :=
  match attempts with
  | [] => []
  | a :: rest =>
      match attempt_result req save_path a with
      | POk bs => [EPost req; EWrite save_path bs; ESaved save_path]
      | PRaise e =>
          if caught e then EPost req :: fail_events max_retries a save_path e ++
                           loop_events req save_path max_retries rest
          else [EPost req]
      end
  end.

(** The contract of the client: the first attempt that yields bytes
    fetches them; an exception the handler does not catch ends the loop;
    when every attempt fails the image is abandoned. *)
Inductive Fetch :=
| Fetched (attempt : Z) (data : list Z)
| Abandoned
| Crashed (attempt : Z) (e : PyExc).

Fixpoint fetch_spec (f : Z -> PyResult (list Z)) (attempts : list Z) : Fetch :=
  match attempts with
  | [] => Abandoned
  | a :: rest =>
      match f a with
      | POk bs => Fetched a bs
      | PRaise e => if caught e then fetch_spec f rest else Crashed a e
      end
  end.

Definition fetch_files (path : string) (r : Fetch) (fs : gmap string (list Z)) : gmap string (list Z) :=
  match r with Fetched _ bs => <[path := bs]> fs | _ => fs end.

Definition fetch_result (r : Fetch) : PyResult unit :=
  match r with Crashed _ e => PRaise e | _ => POk tt end.

Lemma emit_run ev w : emit ev w = (mkWorld (events w ++ [ev]) (files w), POk tt).
Proof. done. Qed.

Lemma attempt_try_run req path a w :
  attempt_try req path a w =
  match attempt_result req path a with
  | POk bs => (mkWorld (events w ++ [EPost req; EWrite path bs; ESaved path]) (<[path := bs]> (files w)),
               POk tt)
  | PRaise e => (mkWorld (events w ++ [EPost req]) (files w), PRaise e)
  end.
Proof.
  unfold attempt_try, attempt_result, post, write_file, emit, se_bind, se_modify, se_ret, se_lift.
  cbn. destruct (decode_response _); [|done]. destruct (can_open path); [|done].
  cbn. by rewrite <- !app_assoc.
Qed.

Lemma on_failure_run max a path e w :
  on_failure max a path e w = (mkWorld (events w ++ fail_events max a path e) (files w), POk tt).
Proof.
  unfold on_failure, fail_events, emit, se_bind, se_modify. cbn.
  destruct (a <? max); cbn; by rewrite <- !app_assoc.
Qed.

Lemma retry_loop_run req path max atts w :
  retry_loop req path max atts w =
  (mkWorld (events w ++ loop_events req path max atts)
           (fetch_files path (fetch_spec (attempt_result req path) atts) (files w)),
   fetch_result (fetch_spec (attempt_result req path) atts)).
Proof.
  revert w. induction atts as [|a rest IH]; intros w; cbn [retry_loop loop_events fetch_spec].
  - by rewrite app_nil_r; destruct w.
  - unfold se_bind at 1, se_try. unfold se_bind at 1. rewrite attempt_try_run.
    destruct (attempt_result req path a) as [bs|e]; [done|].
    destruct (caught e); [|done].
    unfold se_bind at 1. rewrite on_failure_run. cbn. rewrite IH. cbn. by rewrite <- !app_assoc.
Qed.

End Run.

(** ** Attempts over [range(lo, max_retries + 1)] *)

Lemma py_range_nil lo hi : hi <= lo -> py_range lo hi = [].
Proof. intros Hle. unfold py_range. by replace (Z.to_nat (hi - lo)) with 0%nat by lia. Qed.

Lemma py_range_cons lo hi : lo < hi -> py_range lo hi = lo :: py_range (lo + 1) hi.
Proof.
  intros Hlt. unfold py_range. replace (Z.to_nat (hi - lo)) with (S (Z.to_nat (hi - (lo + 1)))) by lia.
  cbn [seq map]. f_equal; [lia|]. rewrite <- seq_shift, map_map. apply map_ext. intros i. lia.
Qed.

Definition is_post (ev : Event) : bool := match ev with EPost _ => true | _ => false end.
Definition is_sleep (ev : Event) : bool := match ev with ESleep _ => true | _ => false end.
Definition is_write (ev : Event) : bool := match ev with EWrite _ _ => true | _ => false end.

(** Posts made, sleeps and file writes, by a loop starting at attempt [lo]. *)
Definition spec_posts (lo max : Z) (r : Fetch) : Z :=
  match r with Fetched a _ | Crashed a _ => a - lo + 1 | Abandoned => Z.max 0 (max - lo + 1) end.
Definition spec_sleeps (lo max : Z) (r : Fetch) : Z :=
  match r with Fetched a _ | Crashed a _ => a - lo | Abandoned => Z.max 0 (max - lo) end.
Definition spec_writes (r : Fetch) : Z :=
  match r with Fetched _ _ => 1 | _ => 0 end.
Definition spec_attempt_in (lo max : Z) (r : Fetch) : Prop :=
  match r with Fetched a _ | Crashed a _ => lo <= a <= max | Abandoned => True end.

(** Every sleep is immediately followed by another post. *)
Fixpoint sleep_then_post (l : list Event) : bool :=
  match l with
  | [] => true
  | ESleep _ :: rest => match rest with EPost _ :: _ => true | _ => false end && sleep_then_post rest
  | _ :: rest => sleep_then_post rest
  end.

Section Counts.
Context `{Network}.
Variables (req : Request) (path : string) (max : Z).

Notation f := (attempt_result req path).

Lemma loop_events_head a r : exists tl, loop_events req path max (a :: r) = EPost req :: tl.
Proof.
  cbn [loop_events]. destruct (f a) as [bs|e]; [by eexists|].
  destruct (caught e); by eexists.
Qed.

Lemma loop_counts_n n lo :
  Z.to_nat (max + 1 - lo) = n ->
  let atts := py_range lo (max + 1) in
  let r := fetch_spec f atts in
  spec_attempt_in lo max r /\
  Z.of_nat (length (List.filter is_post (loop_events req path max atts))) = spec_posts lo max r /\
  Z.of_nat (length (List.filter is_sleep (loop_events req path max atts))) = spec_sleeps lo max r /\
  Z.of_nat (length (List.filter is_write (loop_events req path max atts))) = spec_writes r.
Proof.
  revert lo. induction n as [|n IH]; intros lo Hn; cbn zeta.
  { rewrite py_range_nil by lia. cbn. lia. }
  rewrite py_range_cons by lia. cbn [loop_events fetch_spec].
  destruct (f lo) as [bs|e]; [cbn; lia|]. destruct (caught e); [|cbn; lia].
  destruct (IH (lo + 1)) as (Hin & Hp & Hs & Hw); [lia|]. revert Hin Hp Hs Hw.
  unfold fail_events. rewrite ?List.filter_app.
  destruct (lo <? max) eqn:Hlt; cbn -[loop_events]; rewrite ?length_app; cbn -[loop_events];
    [apply Z.ltb_lt in Hlt | apply Z.ltb_ge in Hlt].
  - destruct (fetch_spec f _); cbn; lia.
  - rewrite py_range_nil by lia. cbn. lia.
Qed.

Lemma loop_sleep_n n lo :
  Z.to_nat (max + 1 - lo) = n ->
  sleep_then_post (loop_events req path max (py_range lo (max + 1))) = true.
Proof.
  revert lo. induction n as [|n IH]; intros lo Hn.
  { by rewrite py_range_nil by lia. }
  rewrite py_range_cons by lia. cbn [loop_events].
  destruct (f lo) as [bs|e]; [done|]. destruct (caught e); [|done].
  specialize (IH (lo + 1) ltac:(lia)). unfold fail_events.
  destruct (lo <? max) eqn:Hlt; cbn -[loop_events]; [|done].
  apply Z.ltb_lt in Hlt. rewrite py_range_cons in IH |- * by lia.
  destruct (loop_events_head (lo + 1) (py_range (lo + 1 + 1) (max + 1))) as [tl Htl].
  rewrite Htl in IH |- *. done.
Qed.

End Counts.

(** ** The client against its contract *)

Section Contract.
Context `{Network}.

Lemma create_image_run cfg prompt path max timeout wd ht w :
  parse_size (IMAGE_SIZE cfg) = POk (wd, ht) ->
  create_image cfg prompt path max timeout w =
  retry_loop (image_request cfg prompt wd ht timeout) path max (py_range 1 (max + 1)) w.
Proof. intros Hs. unfold create_image, se_bind, se_lift. by rewrite Hs. Qed.

(** C9 Refinement: [create_image] implements the fetch contract.  The
    first attempt in [1..max_retries] whose response decodes (and whose
    file opens) writes its bytes to [save_path] and nothing else is
    written; an exception outside [RequestException] and [ValueError]
    propagates from that attempt; when every attempt fails, no file is
    written and the call returns normally. *)
Theorem create_image_refines cfg prompt path max timeout wd ht w :
  parse_size (IMAGE_SIZE cfg) = POk (wd, ht) ->
  let r := fetch_spec (attempt_result (image_request cfg prompt wd ht timeout) path)
                      (py_range 1 (max + 1)) in
  files (create_image cfg prompt path max timeout w).1 = fetch_files path r (files w) /\
  (create_image cfg prompt path max timeout w).2 = fetch_result r /\
  spec_attempt_in 1 max r.
Proof.
  intros Hs. rewrite (create_image_run _ _ _ _ _ wd ht), retry_loop_run by done. cbn zeta.
  split_and!; [done|done|]. apply (loop_counts_n _ _ _ _ _ eq_refl).
Qed.

(** C10 Attempts, sleeps and writes: the call posts once per attempt it
    makes (the attempt that succeeds or crashes, or all [max_retries] of
    them, none when [max_retries <= 0]), sleeps once fewer, that is after
    every failed attempt but the last, and writes a file once when an
    attempt succeeds and never otherwise. *)
Theorem create_image_attempts cfg prompt path max timeout wd ht w :
  parse_size (IMAGE_SIZE cfg) = POk (wd, ht) ->
  let r := fetch_spec (attempt_result (image_request cfg prompt wd ht timeout) path)
                      (py_range 1 (max + 1)) in
  exists evs, events (create_image cfg prompt path max timeout w).1 = events w ++ evs /\
    Z.of_nat (length (List.filter is_post evs)) = spec_posts 1 max r /\
    Z.of_nat (length (List.filter is_sleep evs)) = spec_sleeps 1 max r /\
    Z.of_nat (length (List.filter is_write evs)) = spec_writes r.
Proof.
  intros Hs. rewrite (create_image_run _ _ _ _ _ wd ht), retry_loop_run by done. cbn zeta.
  eexists. split; [done|]. apply (loop_counts_n _ _ _ _ _ eq_refl).
Qed.

(** C11 The client sleeps only between two attempts: every sleep it
    performs is immediately followed by another post, so it never sleeps
    after its final attempt. *)
Theorem create_image_sleep_then_post cfg prompt path max timeout wd ht w :
  parse_size (IMAGE_SIZE cfg) = POk (wd, ht) ->
  exists evs, events (create_image cfg prompt path max timeout w).1 = events w ++ evs /\
    sleep_then_post evs = true.
Proof.
  intros Hs. rewrite (create_image_run _ _ _ _ _ wd ht), retry_loop_run by done.
  eexists. split; [done|]. by apply (loop_sleep_n _ _ _ _ _ eq_refl).
Qed.

End Contract.

(** ** Responses *)

(** The body the code expects: [{"results": [{"image": {"imageBytes": payload}}]}]. *)
Definition image_body (payload : Json) : Json :=
  JObj [("results", JArr [JObj [("image", JObj [("imageBytes", payload)])]])].

Lemma decode_image_body st v :
  ~ (400 <= st < 600) ->
  decode_response (Resp (mkResponse st (Some (image_body v)))) = b64decode_json v.
Proof.
  intros Hst. unfold decode_response, raise_for_status. cbn [status_code].
  destruct ((400 <=? st) && (st <? 600)) eqn:E; [|done].
  apply andb_prop in E as [E1 E2]. apply Z.leb_le in E1. apply Z.ltb_lt in E2. lia.
Qed.

(** C13 A response that is not an error status and has the expected
    shape, [{"results": [{"image": {"imageBytes": b64}}]}] with [b64] the
    base64 text of a byte sequence, decodes to exactly those bytes. *)
Theorem decode_response_ok st bs :
  ~ (400 <= st < 600) -> Forall B64.byte_range bs ->
  decode_response (Resp (mkResponse st (Some (image_body (JStr (B64.b64encode bs)))))) = POk bs.
Proof.
  intros Hst Hbs. rewrite decode_image_body by done. cbn [b64decode_json].
  unfold B64.b64decode, B64.a2b_base64. rewrite B64.b64encode_ascii, B64.a2b_encode by done.
  done.
Qed.

Section Crash.
Context `{Network}.

(** C12 The handler does not catch everything: when the first response
    has the expected shape but its [imageBytes] is not a string,
    [base64.b64decode] raises [TypeError], which is neither a
    [RequestException] nor a [ValueError], so [create_image] raises it to
    its caller instead of retrying or skipping the image. *)
Theorem create_image_type_error cfg prompt path max timeout wd ht w v :
  parse_size (IMAGE_SIZE cfg) = POk (wd, ht) -> 1 <= max ->
  post_outcome (image_request cfg prompt wd ht timeout) 1 = Resp (mkResponse 200 (Some (image_body v))) ->
  (forall s, v <> JStr s) ->
  exists msg, (create_image cfg prompt path max timeout w).2 = PRaise (TypeError msg).
Proof.
  intros Hs Hmax Hpost Hv. rewrite (create_image_run _ _ _ _ _ wd ht), retry_loop_run by done.
  rewrite py_range_cons by lia. cbn [fetch_spec]. unfold attempt_result.
  rewrite Hpost, decode_image_body by lia.
  destruct v as [| | |s| |]; try (by exfalso; apply (Hv s)); cbn; eexists; reflexivity.
Qed.

End Crash.

(** The configuration: with a non-empty [GEMINI_API_KEY] the module
    loads, [IMAGE_SIZE] parses to a 512 by 512 request, the bearer header
    carries the key, and the URL repeats the [models/] segment, since
    [IMAGE_MODEL] already starts with it; without a key the import raises
    [ValueError]. *)
Theorem load_config_spec key :
  key <> "" ->
  load_config None = PRaise (ValueError "GEMINI_API_KEY is missing from .env file or environment variables.") /\
  exists cfg, load_config (Some key) = POk cfg /\
    parse_size (IMAGE_SIZE cfg) = POk (512, 512) /\
    image_headers cfg = [("Authorization", "Bearer " +:+ key); ("Content-Type", "application/json")] /\
    image_url cfg =
      "https://api.generative.googleapis.com/v1beta2/models/models/gemini-1.5-pro:generateImage".
Proof.
  intros Hk. split; [done|]. unfold load_config. cbn [default id].
  destruct (String.eqb_spec key "") as [->|_]; [congruence|]. eexists; split_and!; reflexivity.
Qed.

(** ** Witnesses *)

Definition cfg0 : Config := mkConfig "key" "models/gemini-1.5-pro" "512x512".
Definition w0 : World := mkWorld [] empty.
Definition path1 : string := "images/question1.png".
Definition prompt1 : string := "a red circle".

(** Two timeouts, then a response carrying [hello]. *)
Definition flaky_net : Network := {|
  post_outcome := fun _ a =>
    if a <? 3 then Transport "Read timed out."
    else Resp (mkResponse 200 (Some (image_body (JStr "aGVsbG8="))));
  can_open := fun _ => true |}.

(** Every attempt answers 503 with a body that is not JSON. *)
Definition down_net : Network := {|
  post_outcome := fun _ _ => Resp (mkResponse 503 None);
  can_open := fun _ => true |}.

(** The payload is a number. *)
Definition odd_net : Network := {|
  post_outcome := fun _ _ => Resp (mkResponse 200 (Some (image_body (JNum 5))));
  can_open := fun _ => true |}.

Lemma cfg0_size : parse_size (IMAGE_SIZE cfg0) = POk (512, 512).
Proof. reflexivity. Qed.

(** Two failures then a success with [max_retries = 3]: the file holds the
    decoded bytes and the call returns normally. *)
Lemma create_image_refines_witness :
  parse_size (IMAGE_SIZE cfg0) = POk (512, 512) /\
  files (@create_image flaky_net cfg0 prompt1 path1 3 10 w0).1 = <[path1 := B64.hello]> empty /\
  (@create_image flaky_net cfg0 prompt1 path1 3 10 w0).2 = POk tt.
Proof.
  destruct (@create_image_refines flaky_net cfg0 prompt1 path1 3 10 512 512 w0 cfg0_size)
    as (Hf & Hr & _).
  split; [exact cfg0_size|]. rewrite Hf, Hr. split; reflexivity.
Defined.

(** Three failures with [max_retries = 3]: three posts, two sleeps, no file. *)
Lemma create_image_attempts_witness :
  parse_size (IMAGE_SIZE cfg0) = POk (512, 512) /\
  exists evs, events (@create_image down_net cfg0 prompt1 path1 3 10 w0).1 = [] ++ evs /\
    Z.of_nat (length (List.filter is_post evs)) = 3 /\
    Z.of_nat (length (List.filter is_sleep evs)) = 2 /\
    Z.of_nat (length (List.filter is_write evs)) = 0.
Proof.
  destruct (@create_image_attempts down_net cfg0 prompt1 path1 3 10 512 512 w0 cfg0_size)
    as (evs & He & Hp & Hs & Hw).
  split; [exact cfg0_size|]. exists evs. rewrite Hp, Hs, Hw. split_and!; [exact He|reflexivity..].
Defined.

Lemma create_image_sleep_then_post_witness :
  parse_size (IMAGE_SIZE cfg0) = POk (512, 512) /\
  exists evs, events (@create_image flaky_net cfg0 prompt1 path1 3 10 w0).1 = [] ++ evs /\
    sleep_then_post evs = true.
Proof.
  split; [exact cfg0_size|].
  exact (@create_image_sleep_then_post flaky_net cfg0 prompt1 path1 3 10 512 512 w0 cfg0_size).
Defined.

Lemma decode_response_ok_witness :
  ~ (400 <= 200 < 600) /\ Forall B64.byte_range B64.hello /\
  decode_response (Resp (mkResponse 200 (Some (image_body (JStr (B64.b64encode B64.hello))))))
  = POk B64.hello.
Proof.
  assert (Hst : ~ (400 <= 200 < 600)) by lia.
  assert (Hb : Forall B64.byte_range B64.hello) by (repeat constructor; lia).
  split_and!; [exact Hst|exact Hb|]. exact (decode_response_ok 200 B64.hello Hst Hb).
Defined.

Lemma create_image_type_error_witness :
  exists msg, (@create_image odd_net cfg0 prompt1 path1 3 10 w0).2 = PRaise (TypeError msg).
Proof.
  apply (@create_image_type_error odd_net cfg0 prompt1 path1 3 10 512 512 w0 (JNum 5) cfg0_size);
    [lia|reflexivity|discriminate].
Defined.

Lemma load_config_spec_witness :
  "k" <> "" /\
  exists cfg, load_config (Some "k") = POk cfg /\
    image_url cfg = "https://api.generative.googleapis.com/v1beta2/models/models/gemini-1.5-pro:generateImage".
Proof.
  assert (Hk : "k" <> "") by discriminate. split; [exact Hk|].
  destruct (load_config_spec "k" Hk) as (_ & cfg & Hl & _ & _ & Hu). by exists cfg.
Defined.
End Retry.
