(* ===== verification/RetryMachine.v ===== *)
(** * The retry loop of [create_image] as a transition system

    Lines 33-63 of [src/src/generate_images.py] seen one control point at
    a time, in the style of a small-step semantics: the head of the [for]
    loop with the next [attempt] ([Loop]), the [except] handler entered
    with the exception it caught ([Handler]), and the exit of the loop
    ([Stop]: by [break], by exhausting [range(1, max_retries + 1)], or by
    an exception the handler does not catch).  A transition runs one
    [try] block ([Retry.attempt_try]) or one handler ([Retry.on_failure])
    of [RetryClient], so the machine and the monadic [Retry.retry_loop]
    share their effects.

    The theorem: every control point reachable from the first attempt
    satisfies the invariant [inv], proved by rule induction over the
    runs ([rtc], the reflexive-transitive closure of [loop_step]): the
    loop head holds an attempt of [1 .. max_retries + 1] after one post
    per earlier attempt, the handler holds a caught exception of an
    attempt in range, no file changes while the loop runs, and the loop
    exits with [save_path] the only file written and never with an
    exception the handler catches.  [loop_step] is the graph of the
    executable [loop_next]; [loop_run] runs it with fuel, for witnesses
    only. *)
From S2P Require Import Prelude PyStr Base64 RetryClient.
From stdpp Require Import relations.
From Stdlib Require Import ZArith Lia.

Module Machine.
Import Retry.

Open Scope Z_scope.

(** The control points of lines 33-63. *)
Inductive LState :=
| Loop (attempt : Z) (w : World)
| Handler (attempt : Z) (e : PyExc) (w : World)
| Stop (w : World) (r : PyResult unit).

Section Step.
Context `{Network}.
Variables (req : Request) (save_path : string) (max_retries : Z).

(** One transition.  [range(1, max_retries + 1)] is exhausted once
    [attempt] passes [max_retries]; the [try] block either [break]s, or
    raises an exception that the [except] clause catches or lets through;
    the handler always returns to the loop head with the next attempt. *)
Inductive loop_step : LState -> LState -> Prop :=
| step_exhausted a w :
    max_retries < a -> loop_step (Loop a w) (Stop w (POk tt))
| step_break a w w' u :
    a <= max_retries -> attempt_try req save_path a w = (w', POk u) ->
    loop_step (Loop a w) (Stop w' (POk tt))
| step_except a w w' e :
    a <= max_retries -> attempt_try req save_path a w = (w', PRaise e) -> caught e = true ->
    loop_step (Loop a w) (Handler a e w')
| step_propagate a w w' e :
    a <= max_retries -> attempt_try req save_path a w = (w', PRaise e) -> caught e = false ->
    loop_step (Loop a w) (Stop w' (PRaise e))
| step_handled a e w w' u :
    on_failure max_retries a save_path e w = (w', POk u) ->
    loop_step (Handler a e w) (Loop (a + 1) w').

(** The same transition as a function. *)
Definition loop_next (s : LState) : option LState :=
  match s with
  | Loop a w =>
      if max_retries <? a then Some (Stop w (POk tt)) else
      match attempt_try req save_path a w with
      | (w', POk _) => Some (Stop w' (POk tt))
      | (w', PRaise e) => Some (if caught e then Handler a e w' else Stop w' (PRaise e))
      end
  | Handler a e w =>
      match on_failure max_retries a save_path e w with
      | (w', POk _) => Some (Loop (a + 1) w')
      | (_, PRaise _) => None
      end
  | Stop _ _ => None
  end.

(** The machine run for at most [fuel] transitions. *)
Fixpoint loop_run (fuel : nat) (s : LState) : LState :=
  match fuel with
  | O => s
  | S n => match loop_next s with Some s' => loop_run n s' | None => s end
  end.

(** [n] posts were made since [w0]: the events of [w] extend those of
    [w0] with [n] [EPost] among them. *)
Definition posts_since (w0 w : World) (n : Z) : Prop :=
  exists evs, events w = events w0 ++ evs /\ Z.of_nat (length (List.filter is_post evs)) = n.

(** The invariant of the control points reached from [Loop 1 w0]: the loop
    head holds an attempt of [1 .. max_retries + 1] after one post per
    earlier attempt, the handler holds a caught exception of an attempt in
    range after its post, no file changes before the exit, and the loop
    exits with [save_path] the only file written and no exception the
    handler catches. *)
Definition inv (w0 : World) (s : LState) : Prop :=
  match s with
  | Loop a w => 1 <= a <= Z.max 1 (max_retries + 1) /\ files w = files w0 /\ posts_since w0 w (a - 1)
  | Handler a e w => 1 <= a <= max_retries /\ caught e = true /\ files w = files w0 /\ posts_since w0 w a
  | Stop w r => (forall p, p <> save_path -> files w !! p = files w0 !! p) /\
                match r with PRaise e => caught e = false | POk _ => True end
  end.

End Step.

(** ** The invariant of the reachable control points *)

Section Theory.
Context `{Network}.
Variables (req : Request) (save_path : string) (max_retries : Z).

Local Notation "s ~> s'" := (loop_step req save_path max_retries s s') (at level 70).
Local Notation loop_next := (loop_next req save_path max_retries).

Lemma on_failure_ok a e w :
  on_failure max_retries a save_path e w = ((on_failure max_retries a save_path e w).1, POk tt).
Proof. by rewrite on_failure_run. Qed.

(** [loop_step] is the graph of [loop_next]. *)
Lemma loop_next_step s s' : loop_next s = Some s' <-> s ~> s'.
Proof.
  split.
  - destruct s as [a w|a e w|w r]; cbn [Machine.loop_next]; [|rewrite on_failure_ok|done].
    + destruct (Z.ltb_spec max_retries a); [intros [= <-]; by constructor|].
      destruct (attempt_try req save_path a w) as [w' [u|e]] eqn:Ht; intros [= <-];
        [by econstructor|].
      destruct (caught e) eqn:Hc; by econstructor.
    + intros [= <-]. econstructor. apply on_failure_ok.
  - destruct 1 as [a w Hlt|a w w' u Hle Ht|a w w' e Hle Ht Hc|a w w' e Hle Ht Hc|a e w w' u Ho];
      cbn [Machine.loop_next]; rewrite ?Ht, ?Ho, ?Hc; try done.
    all: destruct (Z.ltb_spec max_retries a); try lia; by rewrite ?Ht, ?Hc.
Qed.

Local Notation inv := (inv save_path max_retries).

Lemma posts_since_app w0 w n evs fs :
  posts_since w0 w n ->
  posts_since w0 (mkWorld (events w ++ evs) fs) (n + Z.of_nat (length (List.filter is_post evs))).
Proof.
  intros (evs0 & He & Hn). exists (evs0 ++ evs). cbn. rewrite He, app_assoc. split; [done|].
  rewrite List.filter_app, length_app. lia.
Qed.

Lemma fail_events_posts a e :
  Z.of_nat (length (List.filter is_post (fail_events max_retries a save_path e))) = 0.
Proof. unfold fail_events. by destruct (a <? max_retries). Qed.

Lemma inv_step w0 s s' : inv w0 s -> s ~> s' -> inv w0 s'.
Proof.
  intros Hi Hs.
  destruct Hs as [a w Hlt|a w w' u Hle Ht|a w w' e Hle Ht Hc|a w w' e Hle Ht Hc|a e w w' u Ho];
    cbn [Machine.inv] in Hi |- *; try rewrite attempt_try_run in Ht.
  - destruct Hi as (_ & Hf & _). split; [intros p _; by rewrite Hf|done].
  - destruct Hi as (_ & Hf & _). destruct (attempt_result _ _ _); simplify_eq; cbn [files events].
    split; [|done]. intros p Hp. rewrite lookup_insert_ne; [by rewrite Hf|congruence].
  - destruct Hi as (Ha & Hf & Hp). destruct (attempt_result _ _ _); simplify_eq; cbn [files events].
    split_and!; [lia|lia|done|done|].
    replace a with (a - 1 + Z.of_nat (length (List.filter is_post [EPost req]))) by (cbn; lia).
    by apply posts_since_app.
  - destruct Hi as (_ & Hf & _). destruct (attempt_result _ _ _); simplify_eq; cbn [files events].
    split; [intros p _; by rewrite Hf|done].
  - rewrite on_failure_run in Ho. simplify_eq; cbn [files events]. destruct Hi as (Ha & _ & Hf & Hp).
    split_and!; [lia|lia|done|]. replace (a + 1 - 1) with (a + 0) by lia.
    rewrite <- (fail_events_posts a e). by apply posts_since_app.
Qed.

(** C14 Reachable-state invariant, by rule induction over the runs from
    the first attempt: see [inv]. *)
Theorem retry_machine_inv w0 s : rtc (loop_step req save_path max_retries) (Loop 1 w0) s -> inv w0 s.
Proof.
  revert s. apply rtc_ind_r; [|intros s s' _ Hs Hi; by eapply inv_step].
  cbn [Machine.inv]. split_and!; [lia|lia|done|]. exists []. split; [by rewrite app_nil_r|done].
Qed.

End Theory.

(** ** Witnesses *)

Definition req1 : Request := image_request cfg0 prompt1 512 512 10.

(** After the first timeout of [flaky_net], the handler of attempt 1. *)
Definition handler1 : LState :=
  Eval vm_compute in
  match @loop_next flaky_net req1 path1 3 (Loop 1 w0) with Some s => s | None => Loop 1 w0 end.

Definition loop2 : LState :=
  Eval vm_compute in @loop_run flaky_net req1 path1 3 2 (Loop 1 w0).

(** Two transitions in: attempt 2 at the loop head, one post made, no file. *)
Lemma retry_machine_inv_witness :
  rtc (@loop_step flaky_net req1 path1 3) (Loop 1 w0) loop2 /\ inv path1 3 w0 loop2.
Proof.
  assert (Hr : rtc (@loop_step flaky_net req1 path1 3) (Loop 1 w0) loop2).
  { eapply rtc_l; [apply (proj1 (loop_next_step _ _ _ _ handler1)); vm_compute; reflexivity|].
    eapply rtc_l; [apply loop_next_step; vm_compute; reflexivity|]. apply rtc_refl. }
  split; [exact Hr|]. exact (retry_machine_inv _ _ _ _ _ Hr).
Defined.

End Machine.
