(* ===== verification/Renderer.v ===== *)
(** * The Word renderer: [save_questions_to_word] of [src/src/format_to_docx.py]

    The renderer turns the parsed question dicts into a python-docx
    [Document] and saves it.  The document is modelled by its content, a
    list of [Block]s: headings with their level, paragraphs with their
    runs (text and boldness) and their style.  The calls the code makes
    map to blocks as python-docx builds them: [add_heading(text, level)]
    is a heading, [add_paragraph(text)] a paragraph with one run (none for
    the empty text), [add_paragraph(style='List Bullet')] followed by
    [add_run(opt)] a bullet.  The assignments [p.italic = True] set an
    attribute of the Python [Paragraph] object that python-docx does not
    define and never reads: they leave the document unchanged, and the
    model has no italics.

    Values come from the parser's dict ([Parser.PyVal]): the truth value of
    a string or list is its non-emptiness; an f-string formats a list with
    [repr]; python-docx writes a list given as text as the concatenation
    of its elements.

    The effects of the function (the directory created by [os.makedirs],
    the document saved by [doc.save], the printed line) are a [DocFS]
    threaded through the [SE] monad of the prelude. *)
From S2P Require Import Prelude PyStr TaggedParser.
From Equations Require Import Equations.

Module Render.

Import Parser.
Open Scope py_scope.

(** ** The placeholder (lines 5-7)

    [parse_tagged_question] of [format_to_docx.py] is never called: the
    program uses the parser of [utils.py]. *)
Definition parse_tagged_question (raw_text : string) : PyResult (gmap string PyVal) :=
  PRaise (NotImplementedError "Replace parse_tagged_question with your implementation.").

(** ** Python values as text *)

Definition hex_digit (n : nat) : ascii := ascii_of_nat (if (n <? 10)%nat then 48 + n else 87 + n).

(** One character of [repr(s)] with quote [q]: the quote and the backslash
    escaped, [\t \n \r] by name, other control characters as [\xhh];
    bytes above 127 (the UTF-8 encoding of printable characters) kept. *)
Definition repr_char (q c : ascii) : string :=
  let n := nat_of_ascii c in
  if Ascii.eqb c q || Ascii.eqb c "\" then String "\" (String c EmptyString)
  else if (n =? 9)%nat then "\t"
  else if (n =? 10)%nat then "\n"
  else if (n =? 13)%nat then "\r"
  else if (n <? 32)%nat || (n =? 127)%nat then
    String "\" (String "x" (String (hex_digit (n / 16)) (String (hex_digit (n mod 16)) EmptyString)))
  else String c EmptyString.

Fixpoint repr_body (q : ascii) (s : string) : string :=
  match s with
  | EmptyString => EmptyString
  | String c s' => repr_char q c +:+ repr_body q s'
  end.

(** [repr(s)]: single quotes unless [s] holds a single quote and no
    double quote. *)
Definition DQ : ascii := ascii_of_nat 34.
Definition SQ : ascii := ascii_of_nat 39.

Definition py_repr (s : string) : string :=
  let q := if contains (String SQ EmptyString) s && negb (contains (String DQ EmptyString) s)
           then DQ else SQ in
  String q (repr_body q s +:+ String q EmptyString).

(** [sep.join(l)] *)
Fixpoint join (sep : string) (l : list string) : string :=
  match l with
  | [] => ""
  | [x] => x
  | x :: r => x +:+ sep +:+ join sep r
  end.

(** [str(v)], as an f-string formats [v] *)
Definition str_of_val (v : PyVal) : string :=
  match v with
  | PStr s => s
  | PList l => "[" +:+ join ", " (map py_repr l) +:+ "]"
  end.

(** The text python-docx writes for [v] given as the text of a paragraph
    or heading: it iterates over [v] and appends each item. *)
Definition docx_text (v : PyVal) : string :=
  match v with
  | PStr s => s
  | PList l => String.concat "" l
  end.

Definition val_truthy (v : PyVal) : bool :=
  match v with
  | PStr s => negb (String.eqb s "")
  | PList l => negb (length l =? 0)%nat
  end.

(** [tags.get(k)], when it is true *)
Definition get_truthy (tags : gmap string PyVal) (k : string) : option PyVal :=
  match tags !! k with
  | Some v => if val_truthy v then Some v else None
  | None => None
  end.

Definition upper_char (c : ascii) : ascii :=
  let n := nat_of_ascii c in if ((97 <=? n) && (n <=? 122))%nat then ascii_of_nat (n - 32) else c.

(** [str.capitalize()] *)
Definition capitalize (s : string) : string :=
  match s with
  | EmptyString => EmptyString
  | String c s' => String (upper_char c) (lower s')
  end.

(** ** The document *)

Record Run := mkRun { run_text : string; run_bold : bool }.

Inductive Block :=
| Heading (text : string) (level : nat)
| Paragraph (runs : list Run) (style : option string).

(** [doc.add_paragraph(text)] *)
Definition para (text : string) : Block :=
  Paragraph (if String.eqb text "" then [] else [mkRun text false]) None.

(** The bytes of the check mark and space the code prepends: U+2714, U+FE0F and a space, in UTF-8. *)
Definition check_mark : string :=
  String (ascii_of_nat 226) (String (ascii_of_nat 156) (String (ascii_of_nat 148)
  (String (ascii_of_nat 239) (String (ascii_of_nat 184) (String (ascii_of_nat 143) " "))))).


(** ** Options: lines 50-68 *)

(** Lines 50-56: [seen] is a set, [unique_options] grows in order. *)
Fixpoint dedup_loop (seen : gset string) (opts : list string) : list string :=
  match opts with
  | [] => []
  | opt :: rest =>
      if decide (opt ∈ seen) then dedup_loop seen rest
      else opt :: dedup_loop ({[opt]} ∪ seen) rest
  end.

Definition unique_options (opts : list string) : list string := dedup_loop ∅ opts.

(** [tags.get("options", [])] as iterated by the [for] loop *)
Definition options_of (tags : gmap string PyVal) : list string :=
  match tags !! "options" with
  | None => []
  | Some (PList l) => l
  | Some (PStr s) => chars s
  end.

(** Lines 60-68: one bullet; the run is rewritten with the check mark and
    made bold when [opt == correct_answer]. *)
Definition bullet (correct_answer : option PyVal) (opt : string) : Block :=
  Paragraph [if decide (correct_answer = Some (PStr opt)) then mkRun (check_mark +:+ opt) true
             else mkRun opt false] (Some "List Bullet").

(** ** One question: lines 22-74 *)

Definition meta_keys : list string := ["difficulty"; "subject"; "unit"; "topic"; "plusmarks"].

Definition display_key (k : string) : string :=
  if String.eqb k "plusmarks" then "Marks" else capitalize k.

(** Lines 40-45 *)
Definition metadata_parts (tags : gmap string PyVal) : list string :=
  flat_map (fun k => match get_truthy tags k with
                     | Some v => [display_key k +:+ ": " +:+ str_of_val v]
                     | None => []
                     end) meta_keys.

(** Lines 46-48 *)
Definition metadata_block (tags : gmap string PyVal) : list Block :=
  match metadata_parts tags with
  | [] => []
  | parts => [para (join " | " parts)]
  end.

Definition when_true (v : option PyVal) (f : PyVal -> Block) : list Block :=
  match v with Some x => [f x] | None => [] end.

Definition render_question (idx : nat) (tags : gmap string PyVal) : list Block :=
  [Heading ("Question " +:+ str_of_nat idx) 2] ++
  when_true (get_truthy tags "title") (fun v => Heading (docx_text v) 3) ++
  when_true (get_truthy tags "description") (fun v => para (docx_text v)) ++
  when_true (get_truthy tags "question") (fun v => para (docx_text v)) ++
  when_true (get_truthy tags "instruction") (fun v => para ("Instruction: " +:+ str_of_val v)) ++
  metadata_block tags ++
  map (bullet (tags !! "correct_answer")) (unique_options (options_of tags)) ++
  when_true (get_truthy tags "explanation") (fun v => para ("Explanation: " +:+ str_of_val v)) ++
  [para ""].

(** Lines 18-74: the title heading, then the questions numbered from 1. *)
Definition document (title : option string) (questions : list (gmap string PyVal)) : list Block :=
  match title with Some t => if String.eqb t "" then [] else [Heading t 1] | None => [] end ++
  concat (imap (fun i q => render_question (S i) q) questions).

(** ** The file: lines 14-16 and 76-77 *)

(** [s.endswith(suffix)] *)
Fixpoint ends_with (suffix s : string) : bool :=
  String.eqb s suffix || match s with EmptyString => false | String _ s' => ends_with suffix s' end.

Definition docx_filename (filename : string) : string :=
  if ends_with ".docx" (lower filename) then filename else filename +:+ ".docx".

Record DocFS := mkDocFS {
  dirs : gset string;
  saved : gmap string (list Block);
  printed : list string
}.

(** [os.makedirs(d, exist_ok=True)] *)
Definition makedirs (d : string) : SE DocFS unit :=
  se_modify (fun fs => mkDocFS ({[d]} ∪ dirs fs) (saved fs) (printed fs)).

(** [doc.save(filename)] *)
Definition doc_save (filename : string) (doc : list Block) : SE DocFS unit :=
  se_modify (fun fs => mkDocFS (dirs fs) (<[filename := doc]> (saved fs)) (printed fs)).

Definition print_line (line : string) : SE DocFS unit :=
  se_modify (fun fs => mkDocFS (dirs fs) (saved fs) (printed fs ++ [line])).

(** The bytes of U+2705 in UTF-8. *)
Definition saved_mark : string :=
  String (ascii_of_nat 226) (String (ascii_of_nat 156) (String (ascii_of_nat 133) EmptyString)).

Definition save_questions_to_word (questions : list (gmap string PyVal)) (filename : string)
    (title : option string) : SE DocFS unit :=
  let filename := docx_filename filename in
  let* _ := makedirs (let d := dirname filename in if String.eqb d "" then "." else d) in
  let* _ := doc_save filename (document title questions) in
  print_line (saved_mark +:+ " Word file saved: " +:+ filename).

(** ** Duplicate removal *)

(** The reference: keep the first occurrence of each option, in order. *)
Equations? dedup_first (l : list string) : list string by wf (length l) lt :=
  dedup_first [] := [];
  dedup_first (x :: r) := x :: dedup_first (filter (fun y => y <> x) r).
Proof. pose proof (length_filter (fun y => y <> x) r). simpl. lia. Qed.

Lemma filter_not_in_disjoint (seen : gset string) (l : list string) :
  (forall y, y ∈ l -> y ∉ seen) -> filter (fun y => y ∉ seen) l = l.
Proof.
  induction l as [|x l IH]; intros Hd; [done|].
  rewrite filter_cons_True by set_solver. f_equal. apply IH. set_solver.
Qed.

Lemma dedup_loop_filter seen l : dedup_loop seen l = dedup_first (filter (fun y => y ∉ seen) l).
Proof.
  revert seen. induction l as [|o r IH]; intros seen; cbn [dedup_loop].
  - rewrite filter_nil. by simp dedup_first.
  - case_decide as Ho.
    + rewrite filter_cons_False by set_solver. apply IH.
    + rewrite filter_cons_True by set_solver. simp dedup_first. f_equal.
      rewrite IH, list_filter_filter. f_equal. apply list_filter_iff. set_solver.
Qed.

Lemma dedup_loop_props seen l :
  NoDup (dedup_loop seen l) /\ (forall x, x ∈ dedup_loop seen l <-> x ∈ l /\ x ∉ seen) /\
  dedup_loop seen l `sublist_of` l.
Proof.
  revert seen. induction l as [|o r IH]; intros seen; cbn [dedup_loop].
  - split_and!; [constructor| |done]. intros x. rewrite elem_of_nil. tauto.
  - case_decide as Ho.
    + destruct (IH seen) as (Hn & He & Hs). split_and!; [done| |by apply sublist_cons].
      intros x. rewrite He, elem_of_cons. destruct (decide (x = o)) as [->|]; tauto.
    + destruct (IH ({[o]} ∪ seen)) as (Hn & He & Hs). split_and!.
      * constructor; [|done]. rewrite He, elem_of_union, elem_of_singleton. tauto.
      * intros x. rewrite !elem_of_cons, He, elem_of_union, elem_of_singleton.
        destruct (decide (x = o)) as [->|]; tauto.
      * by apply sublist_skip.
Qed.

(** C23 Equivalence: the [seen]-set loop of lines 50-56 computes the
    reference list of first occurrences, in their original order. *)
Theorem unique_options_first l : unique_options l = dedup_first l.
Proof. unfold unique_options. rewrite dedup_loop_filter, filter_not_in_disjoint by set_solver. done. Qed.

(** The options shown have no duplicates, are exactly the options of
    the question, and keep their relative order. *)
Theorem unique_options_spec l :
  NoDup (unique_options l) /\ (forall x, x ∈ unique_options l <-> x ∈ l) /\
  unique_options l `sublist_of` l.
Proof.
  destruct (dedup_loop_props ∅ l) as (Hn & He & Hs). unfold unique_options.
  split_and!; [done| |done]. intros x. rewrite He. set_solver.
Qed.

(** ** Shape of the document *)

Lemma when_true_Forall (P : Block -> Prop) v f :
  (forall x, P (f x)) -> Forall P (when_true v f).
Proof. destruct v; repeat constructor; auto. Qed.

Lemma metadata_Forall (P : Block -> Prop) tags :
  (forall t, P (para t)) -> Forall P (metadata_block tags).
Proof. unfold metadata_block. destruct (metadata_parts tags); repeat constructor; auto. Qed.

(** Every block of a question but its heading satisfies [P] when the
    paragraphs, the level-3 headings and the bullets do. *)
Lemma render_rest_Forall (P : Block -> Prop) idx tags :
  (forall t, P (para t)) -> (forall t, P (Heading t 3)) ->
  (forall o, P (bullet (tags !! "correct_answer") o)) ->
  exists rest, render_question idx tags = Heading ("Question " +:+ str_of_nat idx) 2 :: rest /\
               Forall P rest.
Proof.
  intros Hp Hh Hb. eexists. split; [reflexivity|].
  rewrite !Forall_app. split_and!; try (apply when_true_Forall; by auto).
  - by apply metadata_Forall.
  - induction (unique_options (options_of tags)); cbn; constructor; auto.
  - constructor; auto.
Qed.

Definition bold_free (b : Block) : bool :=
  match b with
  | Heading _ _ => true
  | Paragraph runs _ => forallb (fun r => negb (run_bold r)) runs
  end.

Lemma para_bold_free t : bold_free (para t) = true.
Proof. unfold para. by destruct (String.eqb t ""). Qed.

Lemma bullet_bold_free o : bold_free (bullet None o) = true.
Proof. unfold bullet. by case_decide. Qed.

Lemma keys_ok_absent q k : keys_ok q -> qdict_init !! k = None -> q !! k = None.
Proof. intros Hq Hk. apply eq_None_not_Some. rewrite (Hq k), Hk. apply is_Some_None. Qed.

(** C24 The check mark is never shown: the parser stores the correct
    option under ["answer"] while the renderer looks it up under
    ["correct_answer"], a key no parsed question has, so no run of the
    document built from parsed questions is bold. *)
Theorem document_no_correct_mark raws qs title :
  parse_tagged_questions raws = POk qs -> Forall (fun b => bold_free b = true) (document title qs).
Proof.
  intros Hp. apply py_mapM_ok in Hp. apply Forall_app. split.
  { destruct title as [t|]; [destruct (String.eqb t ""); repeat constructor|constructor]. }
  assert (Hk : Forall keys_ok qs).
  { eapply Forall2_Forall_r; [exact Hp|]. apply Forall_forall. intros raw _ q. apply parse_block_keys. }
  apply Forall_concat_imap. intros i q Hq.
  assert (Hca : q !! "correct_answer" = None).
  { apply keys_ok_absent; [|done]. by eapply Forall_forall in Hk. }
  destruct (render_rest_Forall (fun b => bold_free b = true) (S i) q) as (rest & -> & Hr);
    rewrite ?Hca; auto using para_bold_free, bullet_bold_free.
Qed.

(** The texts of the level-2 headings. *)
Definition level2 (doc : list Block) : list string :=
  omap (fun b => match b with Heading t 2 => Some t | _ => None end) doc.

Lemma level2_app d1 d2 : level2 (d1 ++ d2) = level2 d1 ++ level2 d2.
Proof. apply omap_app. Qed.

Lemma level2_nil l : Forall (fun b => level2 [b] = []) l -> level2 l = [].
Proof.
  induction 1 as [|b l Hb _ IH]; [done|]. unfold level2 in *. cbn in *.
  destruct b as [? [|[|[|]]]|]; cbn in *; congruence.
Qed.

Lemma level2_render idx tags : level2 (render_question idx tags) = ["Question " +:+ str_of_nat idx].
Proof.
  destruct (render_rest_Forall (fun b => level2 [b] = []) idx tags) as (rest & -> & Hr).
  - intros t. unfold para. by destruct (String.eqb t "").
  - done.
  - intros o. unfold bullet. by case_decide.
  - cbn. f_equal. by apply level2_nil.
Qed.

Lemma level2_concat_imap (f : nat -> gmap string PyVal -> list Block) k qs :
  (forall i q, f i q = render_question (k + S i) q) ->
  level2 (concat (imap f qs)) = map (fun i => "Question " +:+ str_of_nat i) (seq (S k) (length qs)).
Proof.
  revert f k. induction qs as [|q qs IH]; intros f k Hf; [done|].
  rewrite imap_cons. cbn [concat length seq map]. rewrite level2_app, Hf, level2_render.
  replace (k + 1)%nat with (S k) by lia. f_equal.
  apply IH. intros i q'. change ((f ∘ S) i q') with (f (S i) q'). rewrite Hf. f_equal. lia.
Qed.

(** The questions are numbered in order: the level-2 headings of the
    document are exactly ["Question 1"], ..., ["Question n"] for [n]
    questions, whatever the questions hold. *)
Theorem document_question_headings title qs :
  level2 (document title qs) = map (fun i => "Question " +:+ str_of_nat i) (seq 1 (length qs)).
Proof.
  unfold document. rewrite level2_app.
  replace (level2 _) with (@nil string) by (destruct title as [t|]; [by destruct (String.eqb t "")|done]).
  by apply (level2_concat_imap _ 0).
Qed.

Lemma ends_with_app suffix s : ends_with suffix (s +:+ suffix) = true.
Proof.
  induction s as [|c s IH].
  - rewrite str_app_nil. destruct suffix as [|a t]; [done|]. cbn [ends_with].
    by rewrite String.eqb_refl.
  - rewrite str_app_cons. cbn [ends_with]. by rewrite IH, orb_true_r.
Qed.

(** Lines 14-15: the saved file name ends in [.docx] (in any case),
    and the adjustment is idempotent. *)
Theorem docx_filename_spec filename :
  ends_with ".docx" (lower (docx_filename filename)) = true /\
  docx_filename (docx_filename filename) = docx_filename filename.
Proof.
  unfold docx_filename. destruct (ends_with ".docx" (lower filename)) eqn:E; [by rewrite E|].
  assert (H : ends_with ".docx" (lower (filename +:+ ".docx")) = true).
  { rewrite lower_app. apply ends_with_app. }
  by rewrite H.
Qed.


(** C32 Spec section 8: in a block without [@options] and [@answer] tag
    lines whose parsed answer [a] is not empty, [a] is shown exactly once
    among the bullets: it is one of the deduplicated options, and these
    have no duplicates. *)
Theorem answer_shown_once raw q a :
  forallb (tags_absent ["options"; "answer"]) (block_kinds raw) = true ->
  parse_block raw = POk q -> q !! "answer" = Some (PStr a) -> a <> "" ->
  a ∈ unique_options (options_of q) /\ NoDup (unique_options (options_of q)).
Proof.
  intros Hks Hp Ha Hne.
  destruct (parse_block_answer_in_options_core raw q Hks Hp) as (a' & os & Ha' & Hos & Hin).
  rewrite Ha in Ha'. injection Ha' as <-. destruct Hin as [->|Hin]; [done|].
  unfold options_of. rewrite Hos. unfold unique_options.
  destruct (dedup_loop_props ∅ os) as (Hn & He & _).
  split; [|done]. apply He. split; [done|set_solver].
Qed.

(** ** Witnesses *)

Lemma sample_parsed : parse_tagged_questions [sample_block] = POk [parsed sample_block].
Proof.
  unfold parse_tagged_questions. cbn [mapM]. rewrite (parsed_ok sample_block) by (vm_compute; reflexivity).
  reflexivity.
Qed.

Lemma answer_shown_once_witness :
  forallb (tags_absent ["options"; "answer"]) (block_kinds sample_block) = true /\
  parse_block sample_block = POk (parsed sample_block) /\
  parsed sample_block !! "answer" = Some (PStr "3/4") /\ "3/4" <> "" /\
  "3/4" ∈ unique_options (options_of (parsed sample_block)).
Proof.
  assert (H1 : forallb (tags_absent ["options"; "answer"]) (block_kinds sample_block) = true)
    by (vm_compute; reflexivity).
  assert (H2 : parse_block sample_block = POk (parsed sample_block))
    by (apply parsed_ok; vm_compute; reflexivity).
  assert (H3 : parsed sample_block !! "answer" = Some (PStr "3/4")) by (vm_compute; reflexivity).
  assert (H4 : "3/4" <> "") by discriminate.
  split_and!; [exact H1|exact H2|exact H3|exact H4|].
  exact (proj1 (answer_shown_once _ _ _ H1 H2 H3 H4)).
Defined.

Lemma document_no_correct_mark_witness :
  parse_tagged_questions [sample_block] = POk [parsed sample_block] /\
  Forall (fun b => bold_free b = true) (document (Some "Generated Questions") [parsed sample_block]).
Proof.
  split; [exact sample_parsed|].
  exact (document_no_correct_mark [sample_block] [parsed sample_block] _ sample_parsed).
Defined.
End Render.
