(* ===== verification/Generation.v ===== *)
(** * Question generation: [src/src/generate_questions.py]

    [generate_question(base_question)] builds a prompt around the stripped
    base question (the task, the output format, the curriculum list) and
    asks the text model for it; any exception of the call is printed and
    replaced by the empty string.  [batch_generate(input_file)] loads the
    JSON file and generates one question per item, in order; the
    module's [__main__] block prints them.  [load_json] and [save_json] of
    [src/src/utils.py] are here too.

    The text model and the file system are interfaces: [TextModel] gives
    the outcome of [model.generate_content(prompt).text], [JsonFiles] says
    whether a path exists and what [json.load] returns for it.  The prompt
    literals are the source's, byte for byte. *)
From S2P Require Import Prelude PyStr TaggedParser ImagePrompt RetryClient.

Module Gen.

Import Retry Parser.
Open Scope py_scope.

(** ** The prompt: lines 10-169 *)

(** Lines 10-129. *)
Definition CURRICULUM_HIERARCHY : string :=
"
Use the curriculum hierarchy exactly as provided:
Quantitative Math 
Problem Solving
Numbers and Operations
Quantitative Math 
Problem Solving
Algebra
Quantitative Math 
Problem Solving
Geometry
Quantitative Math 
Problem Solving
Problem Solving
Quantitative Math 
Problem Solving
Probability and Statistics
Quantitative Math 
Problem Solving
Data Analysis
Quantitative Math 
Algebra
Algebraic Word Problems
Quantitative Math 
Algebra
Interpreting Variables
Quantitative Math 
Algebra
Polynomial Expressions (FOIL/Factoring)
Quantitative Math 
Algebra
Rational Expressions
Quantitative Math 
Algebra
Exponential Expressions (Product rule, negative exponents)
Quantitative Math 
Algebra
Quadratic Equations & Functions (Finding roots/solutions, graphing)
Quantitative Math 
Algebra
Functions Operations
Quantitative Math 
Geometry and Measurement
Area & Volume
Quantitative Math 
Geometry and Measurement
Perimeter
Quantitative Math 
Geometry and Measurement
Lines, Angles, & Triangles
Quantitative Math 
Geometry and Measurement
Right Triangles & Trigonometry
Quantitative Math 
Geometry and Measurement
Circles (Area, circumference)
Quantitative Math 
Geometry and Measurement
Coordinate Geometry
Quantitative Math 
Geometry and Measurement
Slope
Quantitative Math 
Geometry and Measurement
Transformations (Dilating a shape)
Quantitative Math 
Geometry and Measurement
Parallel & Perpendicular Lines
Quantitative Math 
Geometry and Measurement
Solid Figures (Volume of Cubes)
Quantitative Math 
Numbers and Operations
Basic Number Theory
Quantitative Math 
Numbers and Operations
Prime & Composite Numbers
Quantitative Math 
Numbers and Operations
Rational Numbers
Quantitative Math 
Numbers and Operations
Order of Operations
Quantitative Math 
Numbers and Operations
Estimation
Quantitative Math 
Numbers and Operations
Fractions, Decimals, & Percents
Quantitative Math 
Numbers and Operations
Sequences & Series
Quantitative Math 
Numbers and Operations
Computation with Whole Numbers
Quantitative Math 
Numbers and Operations
Operations with Negatives
Quantitative Math 
Data Analysis & Probability
Interpretation of Tables & Graphs
Quantitative Math 
Data Analysis & Probability
Trends & Inferences
Quantitative Math 
Data Analysis & Probability
Probability (Basic, Compound Events)
Quantitative Math 
Data Analysis & Probability
Mean, Median, Mode, & Range
Quantitative Math 
Data Analysis & Probability
Weighted Averages
Quantitative Math 
Data Analysis & Probability
Counting & Arrangement Problems
Quantitative Math 
Reasoning
Word Problems
".

(** Lines 136-138: the text before the base question. *)
Definition prompt_head : string :=
"
You are given this base math question:

".

(** Lines 140-165: the task and the output format. *)
Definition prompt_task : string :=
"

Task:
- Create a new question with the SAME difficulty & format.
- Change the context and numbers, but keep the structure.
- Preserve LaTeX formulas if any.
- Provide a new image description if the question requires an image.
- Output in EXACTLY the following Question Output Format without any extra text or explanation:

@title <Assessment title>
@description <Assessment description>

@question <Write your question here>
@instruction <Write instruction here>
@difficulty <easy|moderate|hard>
@subject <Choose subject from curriculum>
@unit <Choose unit from curriculum>
@topic <Choose topic from curriculum>
@plusmarks 1

@option <Option 1>
@option <Option 2>
@@option <Correct Option>
@option <Option 4>

@explanation <Write your question explanation here>

".

(** Lines 167-169. *)
Definition prompt_tail : string :=
"

Remember: NO extra commentary or explanation outside the tagged format.
".

(** The f-string of lines 136-169. *)
Definition question_prompt (base_question : string) : string :=
  prompt_head +:+ strip base_question +:+ prompt_task +:+ CURRICULUM_HIERARCHY +:+ prompt_tail.

(** Lines 148-164: the output format the prompt prescribes. *)
Definition output_format : string :=
"@title <Assessment title>
@description <Assessment description>

@question <Write your question here>
@instruction <Write instruction here>
@difficulty <easy|moderate|hard>
@subject <Choose subject from curriculum>
@unit <Choose unit from curriculum>
@topic <Choose topic from curriculum>
@plusmarks 1

@option <Option 1>
@option <Option 2>
@@option <Correct Option>
@option <Option 4>

@explanation <Write your question explanation here>".


(** ** Interfaces *)

(** [model.generate_content(prompt).text]: the text, or the exception of
    the call (every one is an [Exception]). *)
Class TextModel := { generate_content : string -> PyResult string }.

(** [os.path.exists] and [json.load] on a path. *)
Class JsonFiles := {
  path_exists : string -> bool;
  json_load : string -> PyResult Json
}.

(** [load_json] of [src/src/utils.py]; the [FileNotFoundError] is an
    [OSError]. *)
Definition load_json `{JsonFiles} (filepath : string) : PyResult Json :=
  if path_exists filepath then json_load filepath
  else PRaise (OSError ("JSON file not found: " +:+ filepath)).

(** The keys of a dict built by [json.loads], in insertion order. *)
Definition dict_keys (kvs : list (string * Json)) : list string :=
  fold_left (fun acc kv => if existsb (String.eqb kv.1) acc then acc else acc ++ [kv.1]) kvs [].

(** [for q in v]: a list gives its items, a dict its keys, a string its
    characters. *)
Definition py_iter (v : Json) : PyResult (list Json) :=
  match v with
  | JArr l => POk l
  | JObj kvs => POk (map JStr (dict_keys kvs))
  | JStr s => POk (map JStr (chars s))
  | _ => PRaise (TypeError ("'" +:+ type_name v +:+ "' object is not iterable"))
  end.

(** ** Generation: lines 131-181 *)

Section Generate.
Context `{TextModel}.

(** Lines 131-176; the state is the list of exceptions printed by the
    handler.  [base_question.strip()] is evaluated outside the [try]. *)
Definition generate_question (base_question : Json) : SE (list PyExc) string :=
  match base_question with
  | JStr b =>
      match generate_content (question_prompt b) with
      | POk text => se_ret (strip text)
      | PRaise e => let* _ := se_modify (fun log => log ++ [e]) in se_ret ""
      end
  | _ => se_raise (AttributeError ("'" +:+ type_name base_question +:+ "' object has no attribute 'strip'"))
  end.

(** What one base question yields, and the exception it prints. *)
Definition gen_one (b : string) : string :=
  match generate_content (question_prompt b) with POk text => strip text | PRaise _ => "" end.

Definition gen_error (b : string) : option PyExc :=
  match generate_content (question_prompt b) with POk _ => None | PRaise e => Some e end.

Context `{JsonFiles}.

(** Lines 178-181 *)
Definition batch_generate (input_file : string) : SE (list PyExc) (list string) :=
  let* base_questions := se_lift (load_json input_file) in
  let* items := se_lift (py_iter base_questions) in
  se_mapM generate_question items.

End Generate.

(** ** [save_json] of [src/src/utils.py] (never called by the program) *)

Record JsonStore := mkJsonStore { jdirs : gset string; jfiles : gmap string Json }.

(** [os.makedirs(d, exist_ok=True)]: the empty path raises
    [FileNotFoundError], an [OSError]. *)
Definition json_makedirs (d : string) : SE JsonStore unit :=
  if String.eqb d "" then se_raise (OSError "[Errno 2] No such file or directory: ''")
  else se_modify (fun st => mkJsonStore ({[d]} ∪ jdirs st) (jfiles st)).

(** Lines 28-40; the file holds the serialization of [data], kept as the
    value. *)
Definition save_json (data : Json) (filepath : string) : SE JsonStore unit :=
  let* _ := json_makedirs (dirname filepath) in
  se_modify (fun st => mkJsonStore (jdirs st) (<[filepath := data]> (jfiles st))).

Lemma save_json_bare_name data filepath st :
  dirname filepath = "" ->
  save_json data filepath st = (st, PRaise (OSError "[Errno 2] No such file or directory: ''")).
Proof. intros Hd. unfold save_json, json_makedirs, se_bind. by rewrite Hd. Qed.

Lemma save_json_written data filepath st :
  dirname filepath <> "" ->
  exists st', save_json data filepath st = (st', POk tt) /\ jfiles st' !! filepath = Some data.
Proof.
  intros Hd. unfold save_json, json_makedirs, se_bind, se_modify.
  destruct (String.eqb_spec (dirname filepath) "") as [E|_]; [done|].
  eexists. split; [reflexivity|]. apply lookup_insert_eq.
Qed.

(** ** The [__main__] block of [generate_questions.py] (lines 183-186) *)

Definition LF_str : string := String LF EmptyString.

(** [print(f"--- Question {idx} ---\n{q}\n")] for each question, numbered
    from 1; [print] adds the final newline. *)
Definition question_lines (questions : list string) : list string :=
  imap (fun i q => "--- Question " +:+ str_of_nat (S i) +:+ " ---" +:+ LF_str +:+ q +:+ LF_str +:+ LF_str)
       questions.

Section Script.
Context `{TextModel} `{JsonFiles}.

(** The state holds the exceptions printed during generation; the result
    is the lines printed afterwards. *)
Definition generate_questions_main : SE (list PyExc) (list string) :=
  let* new_questions := batch_generate "data/base_questions.json" in
  se_ret (question_lines new_questions).

End Script.

(** ** Theorems *)

Section Batch.
Context `{TextModel} `{JsonFiles}.

Lemma generate_question_run b log :
  generate_question (JStr b) log = (log ++ option_list (gen_error b), POk (gen_one b)).
Proof.
  unfold generate_question, gen_one, gen_error.
  destruct (generate_content (question_prompt b)); cbn; [by rewrite app_nil_r|done].
Qed.

Lemma se_mapM_generate bs log :
  se_mapM generate_question (map JStr bs) log = (log ++ omap gen_error bs, POk (map gen_one bs)).
Proof.
  revert log. induction bs as [|b bs IH]; intros log; cbn [map se_mapM]; [by rewrite app_nil_r|].
  unfold se_bind at 1. rewrite generate_question_run.
  unfold se_bind at 1. rewrite IH. cbn. rewrite <- app_assoc.
  by destruct (gen_error b).
Qed.

Lemma batch_generate_run input bs log :
  load_json input = POk (JArr (map JStr bs)) ->
  batch_generate input log = (log ++ omap gen_error bs, POk (map gen_one bs)).
Proof.
  intros Hl. unfold batch_generate, se_bind, se_lift. rewrite Hl. cbn. apply se_mapM_generate.
Qed.

(** C25 Batch orchestration (spec 4.4): on a JSON list of base
    questions, [batch_generate] returns one text per item, in order: the
    stripped reply of the model, or [""] when the call raised; and it
    prints exactly the exceptions of the failed calls, in order. *)
Theorem batch_generate_spec input bs log :
  load_json input = POk (JArr (map JStr bs)) ->
  batch_generate input log = (log ++ omap gen_error bs, POk (map gen_one bs)).
Proof. apply batch_generate_run. Qed.

Lemma parse_block_empty : parse_block "" = POk qdict_init.
Proof. reflexivity. Qed.

End Batch.

(** ** The prompt and the parser *)

Lemma prompt_task_format : contains output_format prompt_task = true.
Proof. vm_compute. reflexivity. Qed.

(** Every prompt carries the stripped base question and the whole
    output format of lines 148-164. *)
Theorem question_prompt_contents b :
  contains (strip b) (question_prompt b) = true /\ contains output_format (question_prompt b) = true.
Proof.
  unfold question_prompt. split.
  - apply contains_app_r, contains_app_l, contains_refl.
  - apply contains_app_r, contains_app_r, contains_app_l, prompt_task_format.
Qed.

(** The format the prompt prescribes is the parser's format: parsed,
    it gives the four option lines in order, with the [@@option] line as
    the answer, and the mark [1]. *)
Theorem output_format_parses :
  exists q, parse_block output_format = POk q /\
    q !! "options" = Some (PList ["<Option 1>"; "<Option 2>"; "<Correct Option>"; "<Option 4>"]) /\
    q !! "answer" = Some (PStr "<Correct Option>") /\
    q !! "plusmarks" = Some (PStr "1").
Proof.
  exists (parsed output_format). split; [apply parsed_ok; vm_compute; reflexivity|].
  vm_compute. split_and!; reflexivity.
Qed.

(** The output format text itself has no [@image] line: the image search
    finds nothing in it, at any position, although the prompt asks for an
    image description when the question needs one. *)
Theorem output_format_no_image idx : Image.image_entry idx output_format = (None, None).
Proof.
  rewrite Image.image_entry_scan_core, Image.image_scan_none by (vm_compute; reflexivity).
  reflexivity.
Qed.

(** ** Witnesses *)

(** A model that answers the first base question with a well-formed
    block and fails on the second. *)
Definition mock_model : TextModel := {|
  generate_content := fun prompt =>
    if contains "Q1 text" prompt then POk sample_block else PRaise (ValueError "quota exceeded") |}.

Definition base_file : JsonFiles := {|
  path_exists := fun p => String.eqb p "data/base_questions.json";
  json_load := fun _ => POk (JArr [JStr "Q1 text"; JStr "Q2 text"]) |}.

Lemma base_file_load :
  @load_json base_file "data/base_questions.json" = POk (JArr (map JStr ["Q1 text"; "Q2 text"])).
Proof. reflexivity. Qed.

Lemma batch_generate_spec_witness :
  @load_json base_file "data/base_questions.json" = POk (JArr (map JStr ["Q1 text"; "Q2 text"])) /\
  @batch_generate mock_model base_file "data/base_questions.json" [] =
    ([ValueError "quota exceeded"], POk [sample_block; ""]).
Proof.
  split; [exact base_file_load|].
  rewrite (@batch_generate_spec mock_model base_file _ _ [] base_file_load).
  vm_compute. reflexivity.
Defined.
End Gen.
