(* ===== verification/Pipeline.v ===== *)
(** * The entry point: the [__main__] block of [src/main.py]

    [main] checks that the base-question file exists (exit 1 otherwise),
    generates the raw questions ([batch_generate]; exit 1 when there are
    none), parses them all ([parse_tagged_questions]), creates [images/],
    extracts the image prompts and calls [create_image] for each question
    whose prompt and path are both non-empty, creates [output/] and saves
    the Word document.

    The state [PWorld] gathers the states of the components: the lines
    [main] prints ([PEvent], kept by their arguments), the exceptions
    printed by [generate_question], the image client's [World] and the
    renderer's [DocFS] (which also holds the directories [main] creates).
    Each component runs on its part of the state through a lift.  The
    result of [main] is the exit status: [exit(1)] gives [1], a normal end
    [0], and an exception propagates as the exception. *)
From S2P Require Import Prelude PyStr TaggedParser ImagePrompt Base64 RetryClient Renderer Generation.

Module Pipeline.

Import Parser Image Retry Render Gen.
Open Scope py_scope.

(** The lines printed by the block, by their arguments. *)
Inductive PEvent :=
| PStarting                                (** line 36 *)
| PBaseMissing (path : string)             (** line 40 *)
| PGenerating                              (** line 44 *)
| PNoQuestions                             (** line 48 *)
| PGenerated (n : nat)                     (** line 51 *)
| PPreview (first : string)                (** lines 52-53 *)
| PCreatingImages                          (** line 60 *)
| PImageFor (idx : nat) (prompt : string)  (** line 65 *)
| PNoImage (idx : nat)                     (** line 68 *)
| PImagesSaved                             (** line 70 *)
| PDocSaved (path : string)                (** line 75 *)
| PAllDone.                                (** line 77 *)

Record PWorld := mkPWorld {
  log : list PEvent;
  gen_log : list PyExc;
  img : World;
  docfs : DocFS
}.

Definition say (ev : PEvent) : SE PWorld unit :=
  se_modify (fun w => mkPWorld (log w ++ [ev]) (gen_log w) (img w) (docfs w)).

Definition on_gen {A} (m : SE (list PyExc) A) : SE PWorld A :=
  fun w => let '(l, r) := m (gen_log w) in (mkPWorld (log w) l (img w) (docfs w), r).

Definition on_img {A} (m : SE World A) : SE PWorld A :=
  fun w => let '(iw, r) := m (img w) in (mkPWorld (log w) (gen_log w) iw (docfs w), r).

Definition on_doc {A} (m : SE DocFS A) : SE PWorld A :=
  fun w => let '(fs, r) := m (docfs w) in (mkPWorld (log w) (gen_log w) (img w) fs, r).

Definition BASE_QUESTIONS_PATH : string := "data/base_questions.json".
Definition OUTPUT_DOC_PATH : string := "output/generated_questions.docx".

Section Main.
Context `{TextModel} `{JsonFiles} `{Network}.
Variable cfg : Config.

(** [if prompt and path] *)
Definition wants_image (prompt path : option string) : option string :=
  match prompt, path with
  | Some p, Some pa => if negb (String.eqb p "") && negb (String.eqb pa "") then Some p else None
  | _, _ => None
  end.

(** Lines 63-68 *)
Fixpoint image_loop (idx : nat) (prompts : list (option string * option string)) : SE PWorld unit :=
  match prompts with
  | [] => se_ret tt
  | (prompt, path) :: rest =>
      let* _ := match wants_image prompt path, path with
                | Some p, Some pa => let* _ := say (PImageFor idx p) in on_img (create_image cfg p pa 3 10)
                | _, _ => say (PNoImage idx)
                end in
      image_loop (S idx) rest
  end.

(** Lines 35-77 *)
Definition main : SE PWorld Z :=
  let* _ := say PStarting in
  if negb (path_exists BASE_QUESTIONS_PATH) then
    let* _ := say (PBaseMissing BASE_QUESTIONS_PATH) in se_ret 1
  else
    let* _ := say PGenerating in
    let* raw_questions := on_gen (batch_generate BASE_QUESTIONS_PATH) in
    match raw_questions with
    | [] => let* _ := say PNoQuestions in se_ret 1
    | first :: _ =>
        let* _ := say (PGenerated (length raw_questions)) in
        let* _ := say (PPreview first) in
        let* parsed_questions := se_lift (parse_tagged_questions raw_questions) in
        let* _ := on_doc (makedirs "images") in
        let* _ := say PCreatingImages in
        let* _ := image_loop 1 (extract_image_prompts raw_questions) in
        let* _ := say PImagesSaved in
        let* _ := on_doc (makedirs "output") in
        let* _ := on_doc (save_questions_to_word parsed_questions OUTPUT_DOC_PATH
                                                 (Some "Generated Questions")) in
        let* _ := say (PDocSaved OUTPUT_DOC_PATH) in
        let* _ := say PAllDone in
        se_ret 0
    end.

End Main.

(** Running [python main.py]: importing [src.config] first, which raises
    when the key is missing. *)
Definition program `{TextModel} `{JsonFiles} `{Network} (env_key : option string) : SE PWorld Z :=
  let* cfg := se_lift (load_config env_key) in main cfg.


(** ** Running the block *)

Definition image_event (idx : nat) (prompt path : option string) : PEvent :=
  match wants_image prompt path, path with
  | Some p, Some _ => PImageFor idx p
  | _, _ => PNoImage idx
  end.

(** The lines printed by the image loop, one per question. *)
Fixpoint image_events (idx : nat) (prompts : list (option string * option string)) : list PEvent :=
  match prompts with
  | [] => []
  | (prompt, path) :: rest => image_event idx prompt path :: image_events (S idx) rest
  end.

Section Runs.
Context `{TextModel} `{JsonFiles} `{Network}.
Variable cfg : Config.

Lemma say_run ev w : say ev w = (mkPWorld (log w ++ [ev]) (gen_log w) (img w) (docfs w), POk tt).
Proof. done. Qed.

Lemma wants_image_path prompt path p : wants_image prompt path = Some p -> exists pa, path = Some pa.
Proof. destruct prompt, path; cbn; [eauto|done..]. Qed.

(** The fetch contract of [create_image(prompt, path)] as the loop calls
    it (three attempts, timeout 10), for an image size [wd] by [ht]. *)
Definition image_fetch (wd ht : Z) (p pa : string) : Fetch :=
  fetch_spec (attempt_result (image_request cfg p wd ht 10) pa) (py_range 1 (3 + 1)).

(** The image stage against the contract, question by question: the
    files written and the result. *)
Fixpoint images_spec (wd ht : Z) (prompts : list (option string * option string))
    (fs : gmap string (list Z)) : gmap string (list Z) * PyResult unit :=
  match prompts with
  | [] => (fs, POk tt)
  | (prompt, path) :: rest =>
      match wants_image prompt path, path with
      | Some p, Some pa =>
          let r := image_fetch wd ht p pa in
          match fetch_result r with
          | POk _ => images_spec wd ht rest (fetch_files pa r fs)
          | PRaise e => (fetch_files pa r fs, PRaise e)
          end
      | _, _ => images_spec wd ht rest fs
      end
  end.

Lemma create_image_fetch wd ht p pa iw :
  parse_size (IMAGE_SIZE cfg) = POk (wd, ht) ->
  files (create_image cfg p pa 3 10 iw).1 = fetch_files pa (image_fetch wd ht p pa) (files iw) /\
  (create_image cfg p pa 3 10 iw).2 = fetch_result (image_fetch wd ht p pa).
Proof. intros Hs. rewrite (create_image_run _ _ _ _ _ wd ht), retry_loop_run by done. done. Qed.

(** One question that wants an image: the loop prints, calls
    [create_image], and goes on unless the call raised. *)
Lemma image_loop_want idx prompt pa p rest w :
  wants_image prompt (Some pa) = Some p ->
  image_loop cfg idx ((prompt, Some pa) :: rest) w =
  let w1 := mkPWorld (log w ++ [PImageFor idx p]) (gen_log w) (create_image cfg p pa 3 10 (img w)).1
                     (docfs w) in
  match (create_image cfg p pa 3 10 (img w)).2 with
  | POk _ => image_loop cfg (S idx) rest w1
  | PRaise e => (w1, PRaise e)
  end.
Proof.
  intros Hw. cbn [image_loop]. rewrite Hw.
  unfold se_bind at 1 2, on_img, say, se_modify. cbn -[create_image image_loop].
  by destruct (create_image cfg p pa 3 10 (img w)) as [iw [[]|e]].
Qed.

Lemma image_loop_skip idx prompt path rest w :
  wants_image prompt path = None ->
  image_loop cfg idx ((prompt, path) :: rest) w =
  image_loop cfg (S idx) rest (mkPWorld (log w ++ [PNoImage idx]) (gen_log w) (img w) (docfs w)).
Proof. intros Hw. cbn [image_loop]. rewrite Hw. by destruct path. Qed.

(** Every call [create_image] makes returns normally. *)
Definition images_never_raise : Prop :=
  forall p pa iw, (create_image cfg p pa 3 10 iw).2 = POk tt.

(** Every call the loop makes on [prompts] returns normally. *)
Definition calls_ok (prompts : list (option string * option string)) : Prop :=
  Forall (fun pp => forall p pa, wants_image pp.1 pp.2 = Some p -> pp.2 = Some pa ->
                    forall iw, (create_image cfg p pa 3 10 iw).2 = POk tt) prompts.

Lemma never_raise_calls_ok prompts : images_never_raise -> calls_ok prompts.
Proof. intros Hok. apply Forall_forall. intros pp _ p pa _ _ iw. apply Hok. Qed.

Lemma image_loop_run idx prompts w :
  calls_ok prompts ->
  exists iw, image_loop cfg idx prompts w =
    (mkPWorld (log w ++ image_events idx prompts) (gen_log w) iw (docfs w), POk tt).
Proof.
  revert idx w.
  induction prompts as [|[prompt path] rest IH]; intros idx w Hok; cbn [image_events].
  { exists (img w). cbn. rewrite app_nil_r. by destruct w. }
  apply Forall_cons in Hok as [Hhd Htl]. cbn [fst snd] in Hhd.
  unfold image_event. destruct (wants_image prompt path) as [p|] eqn:Hw.
  - destruct (wants_image_path _ _ _ Hw) as [pa ->].
    rewrite (image_loop_want idx prompt pa p rest w Hw), (Hhd p pa eq_refl eq_refl (img w)). cbn zeta.
    destruct (IH (S idx) (mkPWorld (log w ++ [PImageFor idx p]) (gen_log w)
                                  (create_image cfg p pa 3 10 (img w)).1 (docfs w)) Htl) as [iw Hiw].
    exists iw. rewrite Hiw. cbn. by rewrite <- app_assoc.
  - rewrite image_loop_skip by done.
    destruct (IH (S idx) (mkPWorld (log w ++ [PNoImage idx]) (gen_log w) (img w) (docfs w)) Htl)
      as [iw Hiw].
    exists iw. rewrite Hiw. cbn. rewrite <- app_assoc. by destruct path.
Qed.

Lemma image_loop_refines_core wd ht idx prompts w :
  parse_size (IMAGE_SIZE cfg) = POk (wd, ht) ->
  (files (img (image_loop cfg idx prompts w).1), (image_loop cfg idx prompts w).2) =
    images_spec wd ht prompts (files (img w)) /\
  docfs (image_loop cfg idx prompts w).1 = docfs w.
Proof.
  intros Hs. revert idx w. induction prompts as [|[prompt path] rest IH]; intros idx w; [done|].
  cbn [images_spec]. destruct (wants_image prompt path) as [p|] eqn:Hw.
  - destruct (wants_image_path _ _ _ Hw) as [pa ->].
    rewrite (image_loop_want idx prompt pa p rest w Hw). cbn zeta.
    destruct (create_image_fetch wd ht p pa (img w) Hs) as [Hf Hr]. rewrite Hr.
    destruct (fetch_result _); [|by rewrite <- Hf].
    destruct (IH (S idx) (mkPWorld (log w ++ [PImageFor idx p]) (gen_log w)
                                  (create_image cfg p pa 3 10 (img w)).1 (docfs w))) as [Hi Hd].
    split; [rewrite Hi; cbn [img]; by rewrite Hf|done].
  - rewrite image_loop_skip by done.
    destruct (IH (S idx) (mkPWorld (log w ++ [PNoImage idx]) (gen_log w) (img w) (docfs w)))
      as [Hi Hd].
    by destruct path.
Qed.

(** C28 The image stage refines the fetch contract, composed question by
    question: the files of the image client after the loop and its
    result are those of [images_spec], where each question that wants an
    image runs [create_image]'s contract, the first exception ends the
    stage, and the document store is untouched. *)
Theorem image_loop_refines wd ht idx prompts w :
  parse_size (IMAGE_SIZE cfg) = POk (wd, ht) ->
  (files (img (image_loop cfg idx prompts w).1), (image_loop cfg idx prompts w).2) =
    images_spec wd ht prompts (files (img w)) /\
  docfs (image_loop cfg idx prompts w).1 = docfs w.
Proof. apply image_loop_refines_core. Qed.

End Runs.

Section MainRuns.
Context `{TextModel} `{JsonFiles} `{Network}.
Variable cfg : Config.

Ltac run_main := cbv [main se_bind se_ret se_lift se_modify say on_gen on_doc makedirs doc_save
                      print_line save_questions_to_word log gen_log img docfs].

(** C26 A missing base-question file is fatal at startup: [main] prints
    its two lines and exits with status 1, generating nothing, requesting
    no image and saving no document. *)
Theorem main_base_missing w :
  path_exists BASE_QUESTIONS_PATH = false ->
  main cfg w = (mkPWorld (log w ++ [PStarting; PBaseMissing BASE_QUESTIONS_PATH])
                         (gen_log w) (img w) (docfs w), POk 1).
Proof. intros He. run_main. rewrite He. cbn. by rewrite <- app_assoc. Qed.

(** C27 One block the parser rejects aborts the whole run: when
    [parse_tagged_questions] raises on the generated texts, [main] raises
    the same exception after generation, before any directory is made,
    any image requested or any document saved. *)
Theorem main_parse_crash w bs e :
  path_exists BASE_QUESTIONS_PATH = true ->
  load_json BASE_QUESTIONS_PATH = POk (JArr (map JStr bs)) -> bs <> [] ->
  parse_tagged_questions (map gen_one bs) = PRaise e ->
  exists w', main cfg w = (w', PRaise e) /\ img w' = img w /\ docfs w' = docfs w.
Proof.
  intros He Hl Hne Hp. run_main. rewrite He. cbn -[batch_generate].
  rewrite (batch_generate_run _ bs) by done.
  destruct bs as [|b bs]; [done|]. cbn -[parse_tagged_questions map gen_one]. rewrite Hp. by eexists.
Qed.

Lemma main_success_core w bs qs :
  path_exists BASE_QUESTIONS_PATH = true ->
  load_json BASE_QUESTIONS_PATH = POk (JArr (map JStr bs)) -> bs <> [] ->
  parse_tagged_questions (map gen_one bs) = POk qs ->
  calls_ok cfg (extract_image_prompts (map gen_one bs)) ->
  let raws := map gen_one bs in
  exists w', main cfg w = (w', POk 0) /\
    log w' = log w ++ [PStarting; PGenerating; PGenerated (length raws);
                       PPreview (default "" (head raws)); PCreatingImages] ++
             image_events 1 (extract_image_prompts raws) ++
             [PImagesSaved; PDocSaved OUTPUT_DOC_PATH; PAllDone] /\
    gen_log w' = gen_log w ++ omap gen_error bs /\
    saved (docfs w') !! OUTPUT_DOC_PATH = Some (document (Some "Generated Questions") qs).
Proof.
  intros He Hl Hne Hp Hok raws. subst raws. destruct w as [l0 g0 i0 d0].
  run_main. rewrite He. cbn -[batch_generate].
  rewrite (batch_generate_run _ bs) by done.
  destruct bs as [|b bs]; [done|].
  change (map gen_one (b :: bs)) with (gen_one b :: map gen_one bs) in *.
  cbn -[parse_tagged_questions image_loop image_events extract_image_prompts length map gen_one omap].
  rewrite Hp.
  cbn -[image_loop image_events extract_image_prompts length map gen_one omap document docx_filename dirname].
  match goal with
  | |- context [image_loop cfg 1 ?ps ?w0] =>
      destruct (image_loop_run cfg 1 ps w0 Hok) as [iw Hiw]; rewrite Hiw
  end.
  cbn -[image_events extract_image_prompts length map gen_one omap document docx_filename dirname].
  eexists. split_and!; [reflexivity| |reflexivity|].
  - by rewrite <- !app_assoc.
  - cbv [saved]. rewrite lookup_insert_eq. reflexivity.
Qed.

(** C30 A run where the file exists, every generated text parses and no
    image request raises ends with status 0 after printing one line per
    question in the image loop, and saves under [OUTPUT_DOC_PATH] the
    document of the parsed questions; the generation log holds the
    exceptions of the failed generation calls. *)
Theorem main_success w bs qs :
  path_exists BASE_QUESTIONS_PATH = true ->
  load_json BASE_QUESTIONS_PATH = POk (JArr (map JStr bs)) -> bs <> [] ->
  parse_tagged_questions (map gen_one bs) = POk qs ->
  images_never_raise cfg ->
  let raws := map gen_one bs in
  exists w', main cfg w = (w', POk 0) /\
    log w' = log w ++ [PStarting; PGenerating; PGenerated (length raws);
                       PPreview (default "" (head raws)); PCreatingImages] ++
             image_events 1 (extract_image_prompts raws) ++
             [PImagesSaved; PDocSaved OUTPUT_DOC_PATH; PAllDone] /\
    gen_log w' = gen_log w ++ omap gen_error bs /\
    saved (docfs w') !! OUTPUT_DOC_PATH = Some (document (Some "Generated Questions") qs).
Proof.
  intros He Hl Hne Hp Hok. apply main_success_core; try done. by apply never_raise_calls_ok.
Qed.

(** ** When every generation call fails *)

Lemma gen_one_failed bs :
  Forall (fun b => is_Some (gen_error b)) bs -> map gen_one bs = replicate (length bs) "".
Proof.
  induction 1 as [|b bs [e He] _ IH]; [done|]. cbn. rewrite IH. f_equal.
  unfold gen_one. unfold gen_error in He. by destruct (generate_content _).
Qed.

Lemma parse_empty_blocks n : parse_tagged_questions (replicate n "") = POk (replicate n qdict_init).
Proof.
  induction n as [|n IH]; [done|]. unfold parse_tagged_questions in *. cbn [replicate mapM].
  rewrite parse_block_empty. cbn. by rewrite IH.
Qed.

Lemma extract_empty_blocks idx n :
  extract_from idx (replicate n "") = replicate n (None, None).
Proof. revert idx. induction n as [|n IH]; intros idx; [done|]. cbn. by rewrite IH. Qed.

Lemma image_events_none idx n :
  image_events idx (replicate n (None, None)) = map PNoImage (seq idx n).
Proof. revert idx. induction n as [|n IH]; intros idx; [done|]. cbn. by rewrite IH. Qed.

Lemma calls_ok_none n : calls_ok cfg (replicate n (None, None)).
Proof. apply Forall_replicate. by intros p pa. Qed.

(** C31 The guard [if not raw_questions] (line 47) only fires on an empty
    base file: when every generation call raises, [batch_generate] still
    returns one empty text per base question, so [main] announces
    [len(bs)] questions, requests no image, saves a document of
    [len(bs)] all-default records and ends with status 0. *)
Theorem main_all_failed w bs :
  path_exists BASE_QUESTIONS_PATH = true ->
  load_json BASE_QUESTIONS_PATH = POk (JArr (map JStr bs)) -> bs <> [] ->
  Forall (fun b => is_Some (gen_error b)) bs ->
  exists w', main cfg w = (w', POk 0) /\
    log w' = log w ++ [PStarting; PGenerating; PGenerated (length bs); PPreview ""; PCreatingImages] ++
             map PNoImage (seq 1 (length bs)) ++
             [PImagesSaved; PDocSaved OUTPUT_DOC_PATH; PAllDone] /\
    saved (docfs w') !! OUTPUT_DOC_PATH =
      Some (document (Some "Generated Questions") (replicate (length bs) qdict_init)).
Proof.
  intros He Hl Hne Hf.
  pose proof (gen_one_failed _ Hf) as Hg.
  assert (Hp : parse_tagged_questions (map gen_one bs) = POk (replicate (length bs) qdict_init))
    by (rewrite Hg; apply parse_empty_blocks).
  assert (Hi : extract_image_prompts (map gen_one bs) = replicate (length bs) (None, None))
    by (rewrite Hg; apply extract_empty_blocks).
  destruct (main_success_core w bs _ He Hl Hne Hp) as (w' & Hm & Hlog & _ & Hs);
    [rewrite Hi; apply calls_ok_none|].
  exists w'. split_and!; [done| |done].
  rewrite Hlog, Hi, image_events_none, Hg, length_replicate.
  destruct bs; [done|]. done.
Qed.

(** C29 An image request that raises aborts the whole run: when the
    generated texts parse and, by the fetch contract of the image stage
    ([images_spec]), the request of some question ends in an exception
    its handler does not catch (a [TypeError] of a malformed payload, an
    [OSError] of [open]), [main] raises that exception from the image
    loop, with the image files of the questions before it written and no
    document saved. *)
Theorem main_image_crash w bs qs wd ht e :
  path_exists BASE_QUESTIONS_PATH = true ->
  load_json BASE_QUESTIONS_PATH = POk (JArr (map JStr bs)) -> bs <> [] ->
  parse_tagged_questions (map gen_one bs) = POk qs ->
  parse_size (IMAGE_SIZE cfg) = POk (wd, ht) ->
  (images_spec cfg wd ht (extract_image_prompts (map gen_one bs)) (files (img w))).2 = PRaise e ->
  exists w', main cfg w = (w', PRaise e) /\ saved (docfs w') = saved (docfs w) /\
    files (img w') = (images_spec cfg wd ht (extract_image_prompts (map gen_one bs)) (files (img w))).1.
Proof.
  intros He Hl Hne Hp Hs Hr. destruct w as [l0 g0 i0 d0].
  run_main. rewrite He. cbn -[batch_generate].
  rewrite (batch_generate_run _ bs) by done.
  destruct bs as [|b bs]; [done|].
  change (map gen_one (b :: bs)) with (gen_one b :: map gen_one bs) in *.
  cbn -[parse_tagged_questions image_loop images_spec extract_image_prompts length map gen_one omap].
  rewrite Hp. cbn -[image_loop images_spec extract_image_prompts length map gen_one omap].
  match goal with
  | |- context [image_loop cfg 1 ?ps ?w0] =>
      destruct (image_loop_refines_core cfg wd ht 1 ps w0 Hs) as [Hi Hd];
      destruct (image_loop cfg 1 ps w0) as [w' r] eqn:E
  end.
  cbn [fst snd img docfs] in Hi, Hd, Hr |- *.
  destruct (images_spec cfg wd ht _ (files i0)) as [fs re] eqn:Es. cbn in Hr. subst re.
  injection Hi as Hf. subst r.
  exists w'. split_and!; [done| |done]. transitivity (saved (docfs w')); [reflexivity|]. by rewrite Hd.
Qed.

End MainRuns.

(** The credential is checked first: when [GEMINI_API_KEY] is unset
    or empty, the program raises [ValueError] while importing its
    configuration, before printing, generating or writing anything. *)
Theorem program_no_key `{TextModel} `{JsonFiles} `{Network} env_key w :
  default "" env_key = "" ->
  program env_key w = (w, PRaise (ValueError "GEMINI_API_KEY is missing from .env file or environment variables.")).
Proof.
  intros Hk. unfold program, load_config, se_bind, se_lift. rewrite Hk. reflexivity.
Qed.

(** ** Witnesses *)

Definition w_init : PWorld := mkPWorld [] [] w0 (mkDocFS empty empty []).

Definition no_files : JsonFiles := {|
  path_exists := fun _ => false;
  json_load := fun _ => PRaise (OSError "unreachable") |}.

(** A model whose reply always has an [@options] line before an
    [@option] line. *)
Definition options_model : TextModel := {| generate_content := fun _ => POk options_then_option |}.

Lemma down_net_never_raise : @images_never_raise down_net cfg0.
Proof.
  intros p pa iw. rewrite (@create_image_run down_net cfg0 p pa 3 10 512 512 iw cfg0_size).
  rewrite retry_loop_run. reflexivity.
Qed.

Lemma program_no_key_witness :
  default "" (Some "") = "" /\
  (@program mock_model base_file down_net (Some "") w_init).2 =
    PRaise (ValueError "GEMINI_API_KEY is missing from .env file or environment variables.").
Proof.
  split; [reflexivity|].
  by rewrite (@program_no_key mock_model base_file down_net (Some "") w_init eq_refl).
Defined.

Lemma main_base_missing_witness :
  @path_exists no_files BASE_QUESTIONS_PATH = false /\
  (@main mock_model no_files down_net cfg0 w_init).2 = POk 1.
Proof.
  assert (He : @path_exists no_files BASE_QUESTIONS_PATH = false) by reflexivity.
  split; [exact He|]. by rewrite (@main_base_missing mock_model no_files down_net cfg0 w_init He).
Defined.

Lemma main_parse_crash_witness :
  @path_exists base_file BASE_QUESTIONS_PATH = true /\
  @load_json base_file BASE_QUESTIONS_PATH = POk (JArr (map JStr ["Q1 text"; "Q2 text"])) /\
  @parse_tagged_questions (map (@gen_one options_model) ["Q1 text"; "Q2 text"]) = PRaise append_error /\
  exists w', @main options_model base_file down_net cfg0 w_init = (w', PRaise append_error) /\
    docfs w' = docfs w_init.
Proof.
  assert (Hp : parse_tagged_questions (map (@gen_one options_model) ["Q1 text"; "Q2 text"])
               = PRaise append_error) by (vm_compute; reflexivity).
  split_and!; [reflexivity|exact base_file_load|exact Hp|].
  destruct (@main_parse_crash options_model base_file down_net cfg0 w_init ["Q1 text"; "Q2 text"]
              append_error eq_refl base_file_load ltac:(discriminate) Hp) as (w' & Hm & _ & Hd).
  by exists w'.
Defined.

Lemma batch_parsed :
  parse_tagged_questions (map (@gen_one mock_model) ["Q1 text"; "Q2 text"])
  = POk [parsed sample_block; qdict_init].
Proof.
  assert (Hm : map (@gen_one mock_model) ["Q1 text"; "Q2 text"] = [sample_block; ""])
    by (vm_compute; reflexivity).
  rewrite Hm. unfold parse_tagged_questions. cbn [mapM].
  rewrite (parsed_ok sample_block) by (vm_compute; reflexivity). reflexivity.
Qed.

(** Two base questions, the second generation failing, the image server
    down: the run ends normally and saves the document of the two
    records. *)
Lemma main_success_witness :
  @path_exists base_file BASE_QUESTIONS_PATH = true /\
  @load_json base_file BASE_QUESTIONS_PATH = POk (JArr (map JStr ["Q1 text"; "Q2 text"])) /\
  parse_tagged_questions (map (@gen_one mock_model) ["Q1 text"; "Q2 text"])
    = POk [parsed sample_block; qdict_init] /\
  @images_never_raise down_net cfg0 /\
  exists w', @main mock_model base_file down_net cfg0 w_init = (w', POk 0) /\
    saved (docfs w') !! OUTPUT_DOC_PATH
    = Some (document (Some "Generated Questions") [parsed sample_block; qdict_init]).
Proof.
  split_and!; [reflexivity|exact base_file_load|exact batch_parsed|exact down_net_never_raise|].
  destruct (@main_success mock_model base_file down_net cfg0 w_init ["Q1 text"; "Q2 text"] _
              eq_refl base_file_load ltac:(discriminate) batch_parsed down_net_never_raise)
    as (w' & Hm & _ & _ & Hs).
  by exists w'.
Defined.

(** A model whose reply asks for an image. *)
Definition image_block : string := unlines ["@question Draw a red circle."; "@image a red circle"].
Definition image_model : TextModel := {| generate_content := fun _ => POk image_block |}.

(** The exception every request of [odd_net] raises. *)
Definition odd_exc : PyExc :=
  Eval vm_compute in
  match (@create_image odd_net cfg0 prompt1 path1 3 10 w0).2 with PRaise e => e | POk _ => KeyError "" end.

(** Two questions with an image each, the image server answering with a
    number as payload: the contract of the first request crashes with the
    [TypeError], the run raises it, writes no image and saves nothing. *)
Lemma main_image_crash_witness :
  @path_exists base_file BASE_QUESTIONS_PATH = true /\
  @load_json base_file BASE_QUESTIONS_PATH = POk (JArr (map JStr ["Q1 text"; "Q2 text"])) /\
  is_ok (parse_tagged_questions (map (@gen_one image_model) ["Q1 text"; "Q2 text"])) = true /\
  parse_size (IMAGE_SIZE cfg0) = POk (512, 512) /\
  (@images_spec odd_net cfg0 512 512
     (extract_image_prompts (map (@gen_one image_model) ["Q1 text"; "Q2 text"])) (files (img w_init))).2
    = PRaise odd_exc /\
  exists w', @main image_model base_file odd_net cfg0 w_init = (w', PRaise odd_exc) /\
    saved (docfs w') = saved (docfs w_init) /\ files (img w') = empty.
Proof.
  assert (Hok : is_ok (parse_tagged_questions (map (@gen_one image_model) ["Q1 text"; "Q2 text"]))
                = true) by (vm_compute; reflexivity).
  assert (Hr : (@images_spec odd_net cfg0 512 512
                  (extract_image_prompts (map (@gen_one image_model) ["Q1 text"; "Q2 text"]))
                  (files (img w_init))).2 = PRaise odd_exc) by (vm_compute; reflexivity).
  split_and!; [reflexivity|exact base_file_load|exact Hok|exact cfg0_size|exact Hr|].
  destruct (parse_tagged_questions (map (@gen_one image_model) ["Q1 text"; "Q2 text"]))
    as [qs|] eqn:Hp; [|done].
  destruct (@main_image_crash image_model base_file odd_net cfg0 w_init ["Q1 text"; "Q2 text"] qs
              512 512 odd_exc eq_refl base_file_load ltac:(discriminate) Hp cfg0_size Hr)
    as (w' & Hm & Hs & Hf).
  exists w'. split_and!; [exact Hm|exact Hs|]. rewrite Hf. vm_compute. reflexivity.
Defined.

(** The prompts of a batch whose first question asks for an image and
    whose second does not. *)
Definition image_prompts1 : list (option string * option string) :=
  extract_image_prompts [image_block; ""].

(** With [flaky_net] (two timeouts, then [hello]), the stage writes
    [hello] for question 1 only and returns normally. *)
Lemma image_loop_refines_witness :
  parse_size (IMAGE_SIZE cfg0) = POk (512, 512) /\
  (files (img (@image_loop flaky_net cfg0 1 image_prompts1 w_init).1),
   (@image_loop flaky_net cfg0 1 image_prompts1 w_init).2) =
  (<["images/question1.png" := B64.hello]> empty, POk tt).
Proof.
  split; [exact cfg0_size|].
  destruct (@image_loop_refines flaky_net cfg0 512 512 1 image_prompts1 w_init cfg0_size) as [Hr _].
  rewrite Hr. vm_compute. reflexivity.
Defined.
(** A model whose every call raises. *)
Definition down_model : TextModel := {| generate_content := fun _ => PRaise (ValueError "quota exceeded") |}.

(** Both generation calls fail: the run still ends with status 0 and a
    document of two empty questions. *)
Lemma main_all_failed_witness :
  @path_exists base_file BASE_QUESTIONS_PATH = true /\
  @load_json base_file BASE_QUESTIONS_PATH = POk (JArr (map JStr ["Q1 text"; "Q2 text"])) /\
  Forall (fun b => is_Some (@gen_error down_model b)) ["Q1 text"; "Q2 text"] /\
  exists w', @main down_model base_file down_net cfg0 w_init = (w', POk 0) /\
    saved (docfs w') !! OUTPUT_DOC_PATH =
      Some (document (Some "Generated Questions") (replicate 2 qdict_init)).
Proof.
  assert (Hf : Forall (fun b => is_Some (@gen_error down_model b)) ["Q1 text"; "Q2 text"])
    by (repeat constructor; eexists; reflexivity).
  split_and!; [reflexivity|exact base_file_load|exact Hf|].
  destruct (@main_all_failed down_model base_file down_net cfg0 w_init ["Q1 text"; "Q2 text"]
              eq_refl base_file_load ltac:(discriminate) Hf) as (w' & Hm & _ & Hs).
  by exists w'.
Defined.
End Pipeline.
